(** * Outbound-call glue: validators, dispatch, worker entrypoint, provisioning

    A shallow embedding of the Python sources (utils/validators.py,
    services/dispatch_service.py, services/sip_manager.py,
    services/telephony_utils.py, voice_agent.py, agent/agent.py,
    scripts/test_call.py, test_outbound.py, scripts/setup_twilio_trunk.py,
    scripts/update_twilio_trunk.py, scripts/update_twilio_trunk_auto.py,
    scripts/create_inbound_trunk.py, scripts/create_outbound_trunk.py) and
    the properties of the specification stated over it.

    Python [str] values are sequences of Unicode code points; they are
    modelled as lists of [N].  Log lines written through [logging] are
    not part of the model (a handler that fails reports on the error
    stream and does not raise); texts written with [print] are, where
    they hold more than constants. *)

From Stdlib Require Import List NArith ZArith Bool Lia String Ascii PeanoNat.
Import ListNotations.

#[local] Set Warnings "-register-all".

Local Open Scope N_scope.

(* ------------------------------------------------------------------ *)
(** ** Python strings *)

Module PyStr.

Definition char := N.
Definition str := list char.

(** An ASCII literal of the source as a [str]. *)
Definition lit (s : string) : str :=
  List.map N_of_ascii (list_ascii_of_string s).

Fixpoint eqb (a b : str) : bool :=
  match a, b with
  | [], [] => true
  | x :: a', y :: b' => (x =? y) && eqb a' b'
  | _, _ => false
  end.

(** [s.startswith(prefix)] *)
Fixpoint startswith (s prefix : str) {struct prefix} : bool :=
  match prefix, s with
  | [], _ => true
  | p :: prefix', c :: s' => (c =? p) && startswith s' prefix'
  | _ :: _, [] => false
  end.

(** [needle in s] *)
Fixpoint contains (needle s : str) : bool :=
  startswith s needle ||
  match s with
  | [] => false
  | _ :: s' => contains needle s'
  end.

(** Truth value of a string: [bool(s)]. *)
Definition truthy (s : str) : bool :=
  match s with [] => false | _ :: _ => true end.

(** The code points with the Unicode property Decimal (general category
    Nd), as closed ranges.  This is what [\d] matches in a [str] pattern
    and what [str.isdecimal] tests (Unicode 14.0 table). *)
Definition decimal_ranges : list (N * N) :=
  [ (0x0030, 0x0039); (0x0660, 0x0669); (0x06F0, 0x06F9); (0x07C0, 0x07C9);
    (0x0966, 0x096F); (0x09E6, 0x09EF); (0x0A66, 0x0A6F); (0x0AE6, 0x0AEF);
    (0x0B66, 0x0B6F); (0x0BE6, 0x0BEF); (0x0C66, 0x0C6F); (0x0CE6, 0x0CEF);
    (0x0D66, 0x0D6F); (0x0DE6, 0x0DEF); (0x0E50, 0x0E59); (0x0ED0, 0x0ED9);
    (0x0F20, 0x0F29); (0x1040, 0x1049); (0x1090, 0x1099); (0x17E0, 0x17E9);
    (0x1810, 0x1819); (0x1946, 0x194F); (0x19D0, 0x19D9); (0x1A80, 0x1A89);
    (0x1A90, 0x1A99); (0x1B50, 0x1B59); (0x1BB0, 0x1BB9); (0x1C40, 0x1C49);
    (0x1C50, 0x1C59); (0xA620, 0xA629); (0xA8D0, 0xA8D9); (0xA900, 0xA909);
    (0xA9D0, 0xA9D9); (0xA9F0, 0xA9F9); (0xAA50, 0xAA59); (0xABF0, 0xABF9);
    (0xFF10, 0xFF19); (0x104A0, 0x104A9); (0x10D30, 0x10D39);
    (0x11066, 0x1106F); (0x110F0, 0x110F9); (0x11136, 0x1113F);
    (0x111D0, 0x111D9); (0x112F0, 0x112F9); (0x11450, 0x11459);
    (0x114D0, 0x114D9); (0x11650, 0x11659); (0x116C0, 0x116C9);
    (0x11730, 0x11739); (0x118E0, 0x118E9); (0x11950, 0x11959);
    (0x11C50, 0x11C59); (0x11D50, 0x11D59); (0x11DA0, 0x11DA9);
    (0x16A60, 0x16A69); (0x16AC0, 0x16AC9); (0x16B50, 0x16B59);
    (0x1D7CE, 0x1D7FF); (0x1E140, 0x1E149); (0x1E2F0, 0x1E2F9);
    (0x1E950, 0x1E959); (0x1FBF0, 0x1FBF9) ].

Definition in_range (c : char) (r : N * N) : bool :=
  (fst r <=? c) && (c <=? snd r).

Definition isdecimal (c : char) : bool :=
  existsb (in_range c) decimal_ranges.

End PyStr.

Import PyStr.

(* ------------------------------------------------------------------ *)
(** ** The fragment of [re] the validators use *)

Module re.

(** Character sets: the bodies of [[...]] and the class escapes. *)
Inductive cset : Type :=
| CChar (c : char)
| CRange (lo hi : char)
| CDigit                       (* \d *)
| CUnion (a b : cset)
| CNot (a : cset).             (* [^...] *)

Fixpoint cset_mem (cs : cset) (c : char) : bool :=
  match cs with
  | CChar x => c =? x
  | CRange lo hi => (lo <=? c) && (c <=? hi)
  | CDigit => isdecimal c
  | CUnion a b => cset_mem a c || cset_mem b c
  | CNot a => negb (cset_mem a c)
  end.

(** Pattern items: anchors, one character of a set, and a bounded
    repetition [{lo,hi}] of a set. *)
Inductive node : Type :=
| Bol                          (* ^ *)
| Eol                          (* $ *)
| One (cs : cset)
| Repeat (cs : cset) (lo hi : nat).

Definition pattern := list node.

(** [$] without MULTILINE: at the end of the string, or just before a
    newline that is the last character. *)
Definition at_end (s : str) : bool :=
  match s with
  | [] => true
  | [c] => c =? 10
  | _ => false
  end.

(** Between [lo] and [hi] characters of [cs], then the continuation [k];
    longest first, backtracking to shorter runs. *)
Fixpoint match_rep (cs : cset) (k : nat -> str -> bool)
         (lo hi : nat) (pos : nat) (s : str) : bool :=
  match hi with
  | O => match lo with O => k pos s | S _ => false end
  | S hi' =>
      match s with
      | c :: r => cset_mem cs c && match_rep cs k (Nat.pred lo) hi' (S pos) r
      | [] => false
      end
      || match lo with O => k pos s | S _ => false end
  end.

Fixpoint match_here (p : pattern) (pos : nat) (s : str) : bool :=
  match p with
  | [] => true
  | Bol :: p' => Nat.eqb pos 0 && match_here p' pos s
  | Eol :: p' => at_end s && match_here p' pos s
  | One cs :: p' =>
      match s with
      | c :: r => cset_mem cs c && match_here p' (S pos) r
      | [] => false
      end
  | Repeat cs lo hi :: p' => match_rep cs (match_here p') lo hi pos s
  end.

(** [bool(re.match(p, s))]: a match anchored at position 0. *)
Definition match_ (p : pattern) (s : str) : bool := match_here p 0 s.

(** [re.sub(p, repl, s)] for a pattern that is a single character set:
    every character of the set is replaced by [repl]. *)
Definition sub (cs : cset) (repl : str) (s : str) : str :=
  flat_map (fun c => if cset_mem cs c then repl else [c]) s.

End re.

(* ------------------------------------------------------------------ *)
(** ** utils/validators.py *)

Definition plus_sign : char := 43.

(** [pattern = r'^\+[1-9]\d{1,14}$'] *)
Definition e164_pattern : re.pattern :=
  [ re.Bol; re.One (re.CChar plus_sign); re.One (re.CRange 49 57);
    re.Repeat re.CDigit 1 14; re.Eol ].

Definition validate_phone_number (phone_number : str) : bool :=
  re.match_ e164_pattern phone_number.

(** [re.sub(r'[^\d+]', '', phone_number)] then the [startswith('+')] test. *)
Definition format_phone_number (phone_number : str) : str :=
  let cleaned :=
    re.sub (re.CNot (re.CUnion re.CDigit (re.CChar plus_sign))) [] phone_number in
  if startswith cleaned (lit "+") then cleaned else lit "+" ++ cleaned.

(* ------------------------------------------------------------------ *)
(** ** The [json] module, as far as the dispatcher and the worker use it

    [json.dumps] is applied to a dict of strings only; [json.loads] to an
    arbitrary string.  The decoder follows the scanner of the runtime
    (scan_once, the object and array loops, scanstring, the number
    matcher), with the two limits of the interpreter that make it raise
    something other than [JSONDecodeError]: the recursion limit, checked
    when the scanner enters an object or an array, and the digit limit of
    the conversion of an integer literal. *)

Module json.

(** A float written as a literal: the double nearest to
    [(-1)^neg * digits * 10^exp10]; or one of the three constants. *)
Inductive pyfloat : Type :=
| FNaN
| FInf (neg : bool)
| FLit (neg : bool) (digits : N) (exp10 : Z).

Inductive value : Type :=
| JNull
| JBool (b : bool)
| JInt (z : Z)
| JFloat (f : pyfloat)
| JStr (s : str)
| JList (l : list value)
| JDict (d : list (str * value)).   (* pairs in the order they were read *)

(** *** Encoding *)

Definition hexdigit (n : N) : char :=
  if n <? 10 then 48 + n else 97 + (n - 10).

(** ['\\u{0:04x}'.format(n)] *)
Definition u_escape (n : N) : str :=
  [92; 117; hexdigit (n / 4096 mod 16); hexdigit (n / 256 mod 16);
   hexdigit (n / 16 mod 16); hexdigit (n mod 16)].

(** The replacement of one character by [encode_basestring_ascii]. *)
Definition escape_char (c : char) : str :=
  if c =? 34 then [92; 34]
  else if c =? 92 then [92; 92]
  else if c =? 10 then [92; 110]
  else if c =? 13 then [92; 114]
  else if c =? 9 then [92; 116]
  else if c =? 12 then [92; 102]
  else if c =? 8 then [92; 98]
  else if (32 <=? c) && (c <=? 126) then [c]
  else if c <? 0x10000 then u_escape c
  else
    let v := c - 0x10000 in
    u_escape (N.lor 0xd800 (N.land (N.shiftr v 10) 0x3ff))
    ++ u_escape (N.lor 0xdc00 (N.land v 0x3ff)).

Definition encode_basestring_ascii (s : str) : str :=
  [34] ++ flat_map escape_char s ++ [34].

Fixpoint join (sep : str) (items : list str) : str :=
  match items with
  | [] => []
  | [x] => x
  | x :: rest => x ++ sep ++ join sep rest
  end.

(** [json.dumps(d)] for a dict [d] whose keys and values are strings
    (default separators, [ensure_ascii=True]). *)
Definition dumps (d : list (str * str)) : str :=
  lit "{"
  ++ join (lit ", ")
       (List.map (fun kv => encode_basestring_ascii (fst kv) ++ lit ": "
                            ++ encode_basestring_ascii (snd kv)) d)
  ++ lit "}".

(** *** Decoding *)

(** The limits of the interpreter the decoder depends on.

    [nesting_beyond_first]: how many objects and arrays, beyond a first
    one, can be open at the same time before entering another one exceeds
    the recursion limit; it is the recursion limit less the depth at which
    the caller runs, less one.  A caller that is itself at the limit, and
    cannot enter even one, is not considered.

    [int_max_str_digits]: [sys.get_int_max_str_digits()], 4300 unless it
    was changed; 0 switches the check off. *)
Record limits : Type := {
  nesting_beyond_first : nat;
  int_max_str_digits : N
}.

Inductive scan (A : Type) : Type :=
| Scanned (a : A) (rest : str)
| StopIteration
| DecodeError (msg : string)
| TooDeep                        (* RecursionError *)
| TooManyDigits                  (* ValueError, from int() *)
| OutOfFuel.
Arguments Scanned {A} a rest.
Arguments StopIteration {A}.
Arguments DecodeError {A} msg.
Arguments TooDeep {A}.
Arguments TooManyDigits {A}.
Arguments OutOfFuel {A}.

Definition is_whitespace (c : char) : bool :=
  (c =? 32) || (c =? 9) || (c =? 10) || (c =? 13).

Fixpoint skip_ws (s : str) : str :=
  match s with
  | c :: r => if is_whitespace c then skip_ws r else s
  | [] => []
  end.

Definition hexval (c : char) : option N :=
  if (48 <=? c) && (c <=? 57) then Some (c - 48)
  else if (97 <=? c) && (c <=? 102) then Some (c - 97 + 10)
  else if (65 <=? c) && (c <=? 70) then Some (c - 65 + 10)
  else None.

Definition hex4 (a b c d : char) : option N :=
  match hexval a, hexval b, hexval c, hexval d with
  | Some x, Some y, Some z, Some w => Some (((x * 16 + y) * 16 + z) * 16 + w)
  | _, _, _, _ => None
  end.

Definition is_high_surrogate (c : N) : bool := (0xD800 <=? c) && (c <=? 0xDBFF).
Definition is_low_surrogate (c : N) : bool := (0xDC00 <=? c) && (c <=? 0xDFFF).
Definition join_surrogates (hi lo : N) : N :=
  0x10000 + (N.lor (N.shiftl (N.land hi 0x03FF) 10) (N.land lo 0x03FF)).

(** The character a one-letter escape stands for. *)
Definition simple_escape (c : char) : option char :=
  if c =? 34 then Some 34
  else if c =? 92 then Some 92
  else if c =? 47 then Some 47
  else if c =? 98 then Some 8
  else if c =? 102 then Some 12
  else if c =? 110 then Some 10
  else if c =? 114 then Some 13
  else if c =? 116 then Some 9
  else None.

(** [scanstring] (strict): [s] is the input after the opening quote,
    [acc] the characters decoded so far, in reverse. *)
Fixpoint scanstring (s : str) (acc : str) : scan str :=
  match s with
  | [] => DecodeError "Unterminated string starting at"
  | c :: r =>
      if c =? 34 then Scanned (rev acc) r
      else if c =? 92 then
        match r with
        | [] => DecodeError "Unterminated string starting at"
        | e :: r1 =>
            if e =? 117 then
              match r1 with
              | h1 :: h2 :: h3 :: h4 :: r5 =>
                  match hex4 h1 h2 h3 h4 with
                  | None => DecodeError "Invalid \uXXXX escape"
                  | Some u =>
                      match r5 with
                      | b :: v :: g1 :: g2 :: g3 :: g4 :: r11 =>
                          if is_high_surrogate u && (b =? 92) && (v =? 117) then
                            match hex4 g1 g2 g3 g4 with
                            | None => DecodeError "Invalid \uXXXX escape"
                            | Some u2 =>
                                if is_low_surrogate u2
                                then scanstring r11 (join_surrogates u u2 :: acc)
                                else scanstring r5 (u :: acc)
                            end
                          else scanstring r5 (u :: acc)
                      | _ => scanstring r5 (u :: acc)
                      end
                  end
              | _ => DecodeError "Invalid \uXXXX escape"
              end
            else
              match simple_escape e with
              | Some x => scanstring r1 (x :: acc)
              | None => DecodeError "Invalid \escape"
              end
        end
      else if c <=? 0x1f then DecodeError "Invalid control character at"
      else scanstring r (c :: acc)
  end.

Definition is_digit (c : char) : bool := (48 <=? c) && (c <=? 57).

(** The longest run of ASCII digits at the head of [s], and what follows. *)
Fixpoint span_digits (s : str) : str * str :=
  match s with
  | c :: r =>
      if is_digit c then let (ds, r') := span_digits r in (c :: ds, r')
      else ([], s)
  | [] => ([], [])
  end.

Definition digits_value (ds : str) : N :=
  fold_left (fun acc c => acc * 10 + (c - 48)) ds 0.

(** The optional fraction: a dot followed by one or more digits. *)
Definition match_frac (s : str) : option str * str :=
  match s with
  | dot :: x :: r =>
      if (dot =? 46) && is_digit x
      then let (fs, r') := span_digits (x :: r) in (Some fs, r')
      else (None, s)
  | _ => (None, s)
  end.

(** The optional exponent: [e] or [E], an optional sign, one or more
    digits; as a signed integer. *)
Definition match_exp (s : str) : option Z * str :=
  match s with
  | e :: r =>
      if (e =? 101) || (e =? 69) then
        let '(neg, r1) :=
          match r with
          | sg :: t => if sg =? 45 then (true, t)
                       else if sg =? 43 then (false, t) else (false, r)
          | [] => (false, r)
          end in
        let (ds, r2) := span_digits r1 in
        match ds with
        | [] => (None, s)
        | _ :: _ =>
            let v := Z.of_N (digits_value ds) in
            (Some (if neg then (- v)%Z else v), r2)
        end
      else (None, s)
  | [] => (None, s)
  end.

(** [int(text)] refuses a literal of more than [int_max_str_digits]
    digits, the sign not counted; a literal of at most 640 digits is never
    checked, and no literal is when the limit is 0. *)
Definition int_too_long (lim : limits) (int_digits : str) : bool :=
  let n := N.of_nat (List.length int_digits) in
  (640 <? n) && (0 <? int_max_str_digits lim) && (int_max_str_digits lim <? n).

Definition number_tail (lim : limits) (neg : bool) (int_digits : str) (s : str)
  : scan value :=
  let (frac, r1) := match_frac s in
  let (ex, r2) := match_exp r1 in
  match frac, ex with
  | None, None =>
      if int_too_long lim int_digits then TooManyDigits
      else
        let v := Z.of_N (digits_value int_digits) in
        Scanned (JInt (if neg then (- v)%Z else v)) r2
  | _, _ =>
      let fs := match frac with Some fs => fs | None => [] end in
      let e := match ex with Some e => e | None => 0%Z end in
      Scanned (JFloat (FLit neg (digits_value (int_digits ++ fs))
                            (e - Z.of_nat (List.length fs))%Z)) r2
  end.

(** The number matcher: an optional minus sign, [0] or a nonzero digit
    followed by digits, an optional fraction, an optional exponent.  A
    literal with neither fraction nor exponent is converted by [int], the
    others by [float], which has no digit limit. *)
Definition match_number (lim : limits) (s : str) : scan value :=
  let '(neg, s1) :=
    match s with
    | c :: r => if c =? 45 then (true, r) else (false, s)
    | [] => (false, s)
    end in
  match s1 with
  | [] => StopIteration
  | c :: r =>
      if (49 <=? c) && (c <=? 57) then
        let (ds, r') := span_digits r in number_tail lim neg (c :: ds) r'
      else if c =? 48 then number_tail lim neg [c] r
      else StopIteration
  end.

(** The body of the array loop, entered at the first element. *)
Fixpoint parse_array_items (scan_once : str -> scan value) (fuel : nat)
         (s : str) (acc : list value) : scan value :=
  match fuel with
  | O => OutOfFuel
  | S fuel' =>
      match scan_once s with
      | Scanned v r =>
          match skip_ws r with
          | c :: r' =>
              if c =? 93 then Scanned (JList (rev (v :: acc))) r'
              else if c =? 44
              then parse_array_items scan_once fuel' (skip_ws r') (v :: acc)
              else DecodeError "Expecting ',' delimiter"
          | [] => DecodeError "Expecting ',' delimiter"
          end
      | StopIteration => StopIteration
      | DecodeError m => DecodeError m
      | TooDeep => TooDeep
      | TooManyDigits => TooManyDigits
      | OutOfFuel => OutOfFuel
      end
  end.

(** The body of the object loop, entered at the first key. *)
Fixpoint parse_object_items (scan_once : str -> scan value) (fuel : nat)
         (s : str) (acc : list (str * value)) : scan value :=
  match fuel with
  | O => OutOfFuel
  | S fuel' =>
      match s with
      | q :: r0 =>
          if q =? 34 then
            match scanstring r0 [] with
            | Scanned key r =>
                match skip_ws r with
                | colon :: r1 =>
                    if colon =? 58 then
                      match scan_once (skip_ws r1) with
                      | Scanned v r2 =>
                          match skip_ws r2 with
                          | c :: r3 =>
                              if c =? 125
                              then Scanned (JDict (rev ((key, v) :: acc))) r3
                              else if c =? 44
                              then parse_object_items scan_once fuel'
                                     (skip_ws r3) ((key, v) :: acc)
                              else DecodeError "Expecting ',' delimiter"
                          | [] => DecodeError "Expecting ',' delimiter"
                          end
                      | StopIteration => StopIteration
                      | DecodeError m => DecodeError m
                      | TooDeep => TooDeep
                      | TooManyDigits => TooManyDigits
                      | OutOfFuel => OutOfFuel
                      end
                    else DecodeError "Expecting ':' delimiter"
                | [] => DecodeError "Expecting ':' delimiter"
                end
            | StopIteration => StopIteration
            | DecodeError m => DecodeError m
            | TooDeep => TooDeep
            | TooManyDigits => TooManyDigits
            | OutOfFuel => OutOfFuel
            end
          else DecodeError "Expecting property name enclosed in double quotes"
      | [] => DecodeError "Expecting property name enclosed in double quotes"
      end
  end.

Definition scan_str (s : str) : scan value :=
  match scanstring s [] with
  | Scanned x r => Scanned (JStr x) r
  | StopIteration => StopIteration
  | DecodeError m => DecodeError m
  | TooDeep => TooDeep
  | TooManyDigits => TooManyDigits
  | OutOfFuel => OutOfFuel
  end.

(** A named constant at the head of [s], if it is spelled out in full. *)
Definition match_constant (s : str) : option (value * str) :=
  if startswith s (lit "null") then Some (JNull, skipn 4 s)
  else if startswith s (lit "true") then Some (JBool true, skipn 4 s)
  else if startswith s (lit "false") then Some (JBool false, skipn 5 s)
  else if startswith s (lit "NaN") then Some (JFloat FNaN, skipn 3 s)
  else if startswith s (lit "Infinity") then Some (JFloat (FInf false), skipn 8 s)
  else if startswith s (lit "-Infinity") then Some (JFloat (FInf true), skipn 9 s)
  else None.

(** [depth]: how many more objects and arrays may be entered; the check
    is made on the opening bracket, before anything inside is read. *)
Fixpoint scan_once (lim : limits) (fuel depth : nat) (s : str) : scan value :=
  match fuel with
  | O => OutOfFuel
  | S fuel' =>
      match s with
      | [] => StopIteration
      | c :: r =>
          if c =? 34 then scan_str r
          else if c =? 123 then
            match depth with
            | O => TooDeep
            | S depth' =>
                match skip_ws r with
                | c' :: r' =>
                    if c' =? 125 then Scanned (JDict []) r'
                    else parse_object_items (scan_once lim fuel' depth') fuel'
                           (c' :: r') []
                | [] => parse_object_items (scan_once lim fuel' depth') fuel' [] []
                end
            end
          else if c =? 91 then
            match depth with
            | O => TooDeep
            | S depth' =>
                match skip_ws r with
                | c' :: r' =>
                    if c' =? 93 then Scanned (JList []) r'
                    else parse_array_items (scan_once lim fuel' depth') fuel'
                           (c' :: r') []
                | [] => parse_array_items (scan_once lim fuel' depth') fuel' [] []
                end
            end
          else
            match match_constant s with
            | Some (v, r') => Scanned v r'
            | None => match_number lim s
            end
      end
  end.

Inductive loads_result : Type :=
| Decoded (v : value)
| JSONDecodeError (msg : string)
| RaisedRecursionError           (* neither is a JSONDecodeError *)
| RaisedValueError
| Diverged.                      (* the model's fuel ran out *)

(** [json.loads(s)] for a [str] argument. *)
Definition loads (lim : limits) (s : str) : loads_result :=
  if startswith s [0xFEFF] then JSONDecodeError "Unexpected UTF-8 BOM (decode using utf-8-sig)"
  else
    let s0 := skip_ws s in
    match scan_once lim (S (List.length s0)) (S (nesting_beyond_first lim)) s0 with
    | Scanned v r =>
        match skip_ws r with
        | [] => Decoded v
        | _ :: _ => JSONDecodeError "Extra data"
        end
    | StopIteration => JSONDecodeError "Expecting value"
    | DecodeError m => JSONDecodeError m
    | TooDeep => RaisedRecursionError
    | TooManyDigits => RaisedValueError
    | OutOfFuel => Diverged
    end.

(** *** The Python values the worker looks at *)

(** [d.get(key)] on the dict built from the pairs: a later pair with the
    same key replaces an earlier one; [None] when the key is absent. *)
Fixpoint dict_get (d : list (str * value)) (key : str) : value :=
  match d with
  | [] => JNull
  | (k, v) :: d' =>
      if existsb (fun kv => PyStr.eqb (fst kv) key) d' then dict_get d' key
      else if PyStr.eqb k key then v else JNull
  end.

(** Whether the literal rounds to a zero double: the value is at most
    [2^-1075] in magnitude (round half to even). *)
Definition float_is_zero (digits : N) (exp10 : Z) : bool :=
  if digits =? 0 then true
  else if (0 <=? exp10)%Z then false
  else (Z.of_N digits * 2 ^ 1075 <=? 10 ^ (- exp10))%Z.

(** [bool(v)] *)
Definition truthy (v : value) : bool :=
  match v with
  | JNull => false
  | JBool b => b
  | JInt z => negb (z =? 0)%Z
  | JFloat FNaN => true
  | JFloat (FInf _) => true
  | JFloat (FLit _ d e) => negb (float_is_zero d e)
  | JStr s => PyStr.truthy s
  | JList l => match l with [] => false | _ :: _ => true end
  | JDict d => match d with [] => false | _ :: _ => true end
  end.

End json.

(* ------------------------------------------------------------------ *)
(** ** Programs that talk to the outside world

    Every call that leaves the process (a request to one of the two
    platforms, a sleep, a read of the random source) is a [request]; the
    world answers it with a response of the request's type or with an
    exception, and changes its own state.  A program threads the world and
    the list of requests issued so far. *)

Inductive exn : Type :=
| ValueError (msg : str)
| AttributeError (msg : string)
| RecursionError
| PlatformError (code : N)          (* raised by an external call *)
| SystemExit (code : N)
| TypeError (msg : string)
| UnicodeEncodeError.               (* a ValueError; raised by print *)

(** [except Exception] catches everything but [SystemExit]. *)
Definition is_Exception (e : exn) : bool :=
  match e with
  | SystemExit _ => false
  | _ => true
  end.

Section Runtime.

Variable request : Type.
Variable response : request -> Type.
Variable W : Type.
Variable perform : forall r : request, W -> (exn + response r) * W.

Record state : Type := mkState { world : W; trace : list request }.

Definition M (A : Type) : Type := state -> (exn + A) * state.

Definition ret {A} (a : A) : M A := fun st => (inr a, st).

Definition raise {A} (e : exn) : M A := fun st => (inl e, st).

Definition bind {A B} (m : M A) (k : A -> M B) : M B :=
  fun st =>
    match m st with
    | (inr a, st') => k a st'
    | (inl e, st') => (inl e, st')
    end.

(** Issue the request [r]: it is appended to the trace and the world
    answers. *)
Definition call (r : request) : M (response r) :=
  fun st =>
    let (ans, w') := perform r (world st) in
    (ans, mkState w' (trace st ++ [r])).

(** [try: m  except Exception as e: h e] *)
Definition try_except {A} (m : M A) (h : exn -> M A) : M A :=
  fun st =>
    match m st with
    | (inl e, st') => if is_Exception e then h e st' else (inl e, st')
    | ok => ok
    end.

(** Run a program from a world, with an empty trace. *)
Definition run {A} (m : M A) (w : W) : (exn + A) * state :=
  m (mkState w []).

End Runtime.

Arguments ret {request W A} a.
Arguments raise {request W A} e.
Arguments bind {request W A B} m k.
Arguments call {request response W} perform r.
Arguments try_except {request W A} m h.
Arguments run {request W A} m w.
Arguments world {request W} s.
Arguments trace {request W} s.
Arguments mkState {request W} world trace.

Declare Scope prog_scope.
Delimit Scope prog_scope with prog.
Notation "x <- m ;; k" := (bind m (fun x => k))
  (at level 61, m at next level, right associativity) : prog_scope.
Notation "m ;;; k" := (bind m (fun _ => k))
  (at level 61, right associativity) : prog_scope.

(** *** Standard output

    [print] encodes its text for [sys.stdout].  The stream is taken to be
    what the interpreter sets up on a UTF-8 system: UTF-8 with the strict
    error handler.  Every text is written then, except one that holds a
    surrogate code point, on which [print] raises [UnicodeEncodeError]. *)

Definition is_surrogate (c : char) : bool := (0xD800 <=? c) && (c <=? 0xDFFF).

Definition encodable (s : str) : bool :=
  forallb (fun c => negb (is_surrogate c)) s.

Definition stdout_print {request W} (text : str) : M request W unit :=
  if encodable text then ret tt else raise UnicodeEncodeError.

(** [x or y] on optional strings, and the truth value of one. *)
Definition opt_truthy (o : option str) : bool :=
  match o with
  | Some s => PyStr.truthy s
  | None => false
  end.

Definition or_else (o : option str) (default : str) : str :=
  match o with
  | Some (c :: s) => c :: s
  | _ => default
  end.

(* ------------------------------------------------------------------ *)
(** ** uuid.uuid4().hex *)

Module uuid.

(** [k] hexadecimal digits of [n], most significant first. *)
Fixpoint to_hex (k : nat) (n : N) : str :=
  match k with
  | O => []
  | S k' => to_hex k' (n / 16) ++ [json.hexdigit (n mod 16)]
  end.

(** The integer of a version-4 UUID built from 16 random bytes (read as a
    big-endian number): the variant and version bits are overwritten. *)
Definition uuid4_int (random_bytes : N) : N :=
  let i := random_bytes mod 2 ^ 128 in
  let i := N.ldiff i (N.shiftl 0xc000 48) in
  let i := N.lor i (N.shiftl 0x8000 48) in
  let i := N.ldiff i (N.shiftl 0xf000 64) in
  N.lor i (N.shiftl 4 76).

(** ['%032x' % int] *)
Definition hex (i : N) : str := to_hex 32 i.

End uuid.

(* ------------------------------------------------------------------ *)
(** ** The media platform and the worker's runtime, as requests *)

Module lk.

Record AgentDispatch : Type := { id : str }.
Record SIPParticipantInfo : Type := { participant_identity : str }.

Inductive request : Type :=
| OsUrandom (n : N)
| AsyncioSleep (seconds : N)
| CreateAgentDispatchRequest (agent_name room metadata : str)
| DeleteAgentDispatchRequest (dispatch_id room : str)
| CreateSIPParticipantRequest
    (sip_trunk_id : option str) (sip_call_to room_name : str)
    (participant_identity participant_name : str)
| Aclose
| CtxConnect
| SessionStart
| RoomOn (event : str)
| SessionGenerateReply (instructions : str).

Definition response (r : request) : Type :=
  match r with
  | OsUrandom _ => N
  | CreateAgentDispatchRequest _ _ _ => AgentDispatch
  | CreateSIPParticipantRequest _ _ _ _ _ => SIPParticipantInfo
  | _ => unit
  end.

End lk.

Local Open Scope prog_scope.

(** The exceptions the worker's own calls raise. *)
Definition not_a_dict_error : exn :=
  AttributeError "object has no attribute 'get'".
Definition int_digits_error : exn :=
  ValueError (lit "Exceeds the limit for integer string conversion").
Definition positional_argument_error : exn :=
  TypeError "generate_reply() takes 1 positional argument but 2 were given".
Definition async_callback_error : exn :=
  ValueError (lit "Cannot register an async callback with `.on()`").

Section MediaPlatform.

Variable W : Type.
Variable perform : forall r : lk.request, W -> (exn + lk.response r) * W.

(** config/livekit_config.py: [AGENT_NAME]; the environment variable
    [LIVEKIT_OUTBOUND_TRUNK_ID]. *)
Variable AGENT_NAME : str.
Variable LIVEKIT_OUTBOUND_TRUNK_ID : option str.

#[local] Abbreviation M := (M lk.request W).
#[local] Abbreviation call := (call perform).

(** [uuid.uuid4().hex[:8]] *)
Definition uuid4_hex8 : M str :=
  b <- call (lk.OsUrandom 16) ;;
  ret (firstn 8 (uuid.hex (uuid.uuid4_int b))).

(** *** services/dispatch_service.py *)

Record dispatch_info : Type := {
  dispatch_id : str;
  room_name : str;
  phone_number : str;
  agent_name : str
}.

Definition dispatch_outbound_call
  (phone_number : str) (room_name agent_name : option str) : M dispatch_info :=
  let phone_number := format_phone_number phone_number in
  if negb (validate_phone_number phone_number) then
    raise (ValueError (lit "Invalid phone number format: " ++ phone_number))
  else
    room_name <-
      (if negb (opt_truthy room_name)
       then h <- uuid4_hex8 ;; ret (lit "outbound-call-" ++ h)
       else ret (or_else room_name [])) ;;
    let agent_name :=
      if negb (opt_truthy agent_name) then AGENT_NAME else or_else agent_name [] in
    let metadata := json.dumps [(lit "phone_number", phone_number)] in
    dispatch <-
      try_except
        (call (lk.CreateAgentDispatchRequest agent_name room_name metadata))
        (fun e => raise e) ;;
    ret {| dispatch_id := lk.id dispatch;
           room_name := room_name;
           phone_number := phone_number;
           agent_name := agent_name |}.

(** [agent_dispatch.delete_dispatch] of the platform's client takes the
    dispatch identifier and the room name as two arguments.  The method
    passes it one request object instead, so the call raises [TypeError]
    for the missing argument and nothing is sent. *)
Definition delete_dispatch (dispatch_id room_name : str) : M unit :=
  try_except
    (raise (TypeError
              "delete_dispatch() missing 1 required positional argument: 'room_name'"))
    (fun e => raise e).

(** *** services/sip_manager.py *)

Definition create_outbound_call
  (phone_number room_name trunk_id : str)
  (participant_identity participant_name : option str)
  : M lk.SIPParticipantInfo :=
  let phone_number := format_phone_number phone_number in
  if negb (validate_phone_number phone_number) then
    raise (ValueError (lit "Invalid phone number format: " ++ phone_number))
  else
    try_except
      (call (lk.CreateSIPParticipantRequest
               (Some trunk_id) phone_number room_name
               (or_else participant_identity (lit "caller-" ++ phone_number))
               (or_else participant_name phone_number)))
      (fun e => raise e).

(** *** scripts/test_call.py *)

Definition make_test_call (phone_number : str) (trunk_id : option str) : M unit :=
  try_except
    (dispatch_info <- dispatch_outbound_call phone_number None None ;;
     call (lk.AsyncioSleep 5) ;;;
     trunk_id <-
       (if negb (opt_truthy trunk_id) then
          if negb (opt_truthy LIVEKIT_OUTBOUND_TRUNK_ID) then
            raise (ValueError
                     (lit "No trunk_id provided and LIVEKIT_OUTBOUND_TRUNK_ID not set in .env"))
          else ret (or_else LIVEKIT_OUTBOUND_TRUNK_ID [])
        else ret (or_else trunk_id [])) ;;
     participant <-
       create_outbound_call phone_number (room_name dispatch_info) trunk_id None None ;;
     ret tt)
    (fun e => raise e).

(** *** test_outbound.py

    The script reports on standard output.  The texts that hold more than
    constants are kept: [print] can fail on them. *)

(** [f"{x}"] for an optional string: [None] is written as its name. *)
Definition str_of_opt (o : option str) : str :=
  match o with
  | Some s => s
  | None => lit "None"
  end.

Definition make_call (phone_number : str) : M unit :=
  stdout_print ([0x1F4DE] ++ lit " Making outbound call to " ++ phone_number
                ++ lit "...") ;;;
  h <- uuid4_hex8 ;;
  let room_name := lit "outbound-call-" ++ h in
  let metadata := json.dumps [(lit "phone_number", phone_number)] in
  dispatch <-
    call (lk.CreateAgentDispatchRequest (lit "telephony-agent") room_name metadata) ;;
  stdout_print ([0x2713] ++ lit " Agent dispatched to room: " ++ room_name) ;;;
  stdout_print (lit "  Dispatch ID: " ++ lk.id dispatch) ;;;
  call (lk.AsyncioSleep 5) ;;;
  let trunk_id := LIVEKIT_OUTBOUND_TRUNK_ID in
  stdout_print (lit "  Using trunk: " ++ str_of_opt trunk_id) ;;;
  participant <-
    call (lk.CreateSIPParticipantRequest
            trunk_id phone_number room_name
            (lit "caller-" ++ phone_number) phone_number) ;;
  stdout_print (lit "Phone Number: " ++ phone_number) ;;;
  stdout_print (lit "Room: " ++ room_name) ;;;
  stdout_print (lit "Participant ID: " ++ lk.participant_identity participant) ;;;
  call lk.Aclose ;;;
  ret tt.

(** *** voice_agent.py and agent/agent.py: the worker entrypoint *)

(** The limits of the interpreter the worker runs in. *)
Variable lim : json.limits.

Definition greeting : str :=
  lit "Hello! This is your AI assistant. How can I help you today?".

(** Whether [f"{v}"] can be written to standard output.  The text of a
    string is the string itself; the text of any other value holds no
    surrogate (numbers and constants are ASCII, and inside a list or a dict
    [repr] escapes surrogates). *)
Definition printable (v : json.value) : bool :=
  match v with
  | json.JStr s => encodable s
  | _ => true
  end.

(** [print(f"... {phone_number}")] in voice_agent.py. *)
Definition print_phone_number (phone_number : json.value) : M unit :=
  if printable phone_number then ret tt else raise UnicodeEncodeError.

(** [logger.info(f"... {phone_number}")] in agent/agent.py. *)
Definition log_phone_number (phone_number : json.value) : M unit := ret tt.

(** The block that reads [ctx.job.metadata]: the value left in
    [phone_number].  [announce] is the line that reports the number,
    inside the [try].  Only [json.JSONDecodeError] is caught: the
    [RecursionError] and the [ValueError] of the decoder, the
    [AttributeError] of [.get] on a decoded value that is not a dict, and
    what [announce] raises, all leave the entrypoint.  The last case of
    the match is never taken ([loads_total]). *)
Definition read_phone_number (announce : json.value -> M unit) (metadata : str)
  : M json.value :=
  if PyStr.truthy metadata then
    match json.loads lim metadata with
    | json.Decoded (json.JDict d) =>
        let phone_number := json.dict_get d (lit "phone_number") in
        announce phone_number ;;;
        ret phone_number
    | json.Decoded _ => raise not_a_dict_error
    | json.JSONDecodeError _ => ret json.JNull
    | json.RaisedRecursionError => raise RecursionError
    | json.RaisedValueError => raise int_digits_error
    | json.Diverged => raise RecursionError
    end
  else ret json.JNull.

(** [session.generate_reply] takes keyword arguments only
    ([instructions=...], [user_input=...]): a call that passes a
    positional argument raises [TypeError], and nothing is requested. *)
Definition generate_reply (positional : list str) (instructions : str) : M unit :=
  match positional with
  | [] => call (lk.SessionGenerateReply instructions)
  | _ :: _ => raise positional_argument_error
  end.

(** The last branch of both entrypoints: the greeting is passed as a
    positional argument. *)
Definition greet_or_wait (phone_number : json.value) : M unit :=
  if negb (json.truthy phone_number)
  then generate_reply [greeting] []
  else ret tt.

(** [room.on(event, callback)] refuses a callback that is a coroutine
    function ([async def]) with [ValueError]; another callback is
    registered. *)
Definition room_on (event : str) (callback_is_async : bool) : M unit :=
  if callback_is_async
  then raise async_callback_error
  else call (lk.RoomOn event).

(** voice_agent.py.  Its first line prints the name of the room, a string
    that comes from the platform and not from the metadata; it is not an
    input here. *)
Definition voice_agent_entrypoint (metadata : str) : M unit :=
  phone_number <- read_phone_number print_phone_number metadata ;;
  call lk.CtxConnect ;;;
  call lk.SessionStart ;;;
  greet_or_wait phone_number.

(** agent/agent.py; both handlers of agent/handlers.py are [async def]. *)
Definition agent_entrypoint (metadata : str) : M unit :=
  phone_number <- read_phone_number log_phone_number metadata ;;
  call lk.CtxConnect ;;;
  call lk.SessionStart ;;;
  room_on (lit "participant_connected") true ;;;
  room_on (lit "participant_disconnected") true ;;;
  greet_or_wait phone_number.

End MediaPlatform.

(* ------------------------------------------------------------------ *)
(** ** The telephony provider, as requests *)

Module tw.

Record Trunk : Type := { sid : str }.
Record CredentialList : Type := { cl_sid : str; cl_friendly_name : str }.
Record Credential : Type := { username : option str }.
Record TrunkCredentialList : Type := { tcl_sid : str }.
Record OriginationUrl : Type := { sip_url : str }.
Record PhoneNumber : Type := { pn_sid : str; pn_phone_number : str }.

Inductive request : Type :=
| Client (account_sid auth_token : option str)
| TrunksCreate (friendly_name domain_name : str)
| CredentialListsCreate (friendly_name : str)
| CredentialListsList
| CredentialsCreate (credential_list_sid : str) (username password : option str)
| CredentialsList (credential_list_sid : str)
| TrunkCredentialListsCreate (trunk_sid : option str) (credential_list_sid : str)
| TrunkCredentialListsList (trunk_sid : option str)
| OriginationUrlsCreate (trunk_sid : option str) (friendly_name sip_url : str)
    (priority weight : N) (enabled : bool)
| OriginationUrlsList (trunk_sid : option str)
| IncomingPhoneNumbersList (phone_number : option str)
| TrunkPhoneNumbersCreate (trunk_sid : option str) (phone_number_sid : str)
| TrunkPhoneNumbersList (trunk_sid : option str).

Definition response (r : request) : Type :=
  match r with
  | Client _ _ => unit
  | TrunksCreate _ _ => Trunk
  | CredentialListsCreate _ => CredentialList
  | CredentialListsList => list CredentialList
  | CredentialsCreate _ _ _ => Credential
  | CredentialsList _ => list Credential
  | TrunkCredentialListsCreate _ _ => unit
  | TrunkCredentialListsList _ => list TrunkCredentialList
  | OriginationUrlsCreate _ _ _ _ _ _ => OriginationUrl
  | OriginationUrlsList _ => list OriginationUrl
  | IncomingPhoneNumbersList _ => list PhoneNumber
  | TrunkPhoneNumbersCreate _ _ => unit
  | TrunkPhoneNumbersList _ => list PhoneNumber
  end.

(** The requests that create a resource. *)
Definition is_create (r : request) : bool :=
  match r with
  | TrunksCreate _ _ | CredentialListsCreate _ | CredentialsCreate _ _ _
  | TrunkCredentialListsCreate _ _ | OriginationUrlsCreate _ _ _ _ _ _
  | TrunkPhoneNumbersCreate _ _ => true
  | _ => false
  end.

End tw.

Definition opt_str_eqb (a b : option str) : bool :=
  match a, b with
  | Some x, Some y => PyStr.eqb x y
  | None, None => true
  | _, _ => false
  end.

Definition no_credential_lists_error : exn :=
  AttributeError "'TrunkContext' object has no attribute 'credential_lists'".

Section TelephonyProvider.

Variable W : Type.
Variable perform : forall r : tw.request, W -> (exn + tw.response r) * W.

(** [str.lower] *)
Variable str_lower : str -> str.

(** config/twilio_config.py *)
Variable TWILIO_ACCOUNT_SID : option str.
Variable TWILIO_AUTH_TOKEN : option str.
Variable TWILIO_PHONE_NUMBER : option str.
Variable TWILIO_SIP_TRUNK_SID : option str.
Variable TWILIO_SIP_USERNAME : option str.
Variable TWILIO_SIP_PASSWORD : option str.

#[local] Abbreviation M := (M tw.request W).
#[local] Abbreviation call := (call perform).

Definition validate_twilio_config : M bool :=
  if negb (opt_truthy TWILIO_ACCOUNT_SID) then
    raise (ValueError (lit "TWILIO_ACCOUNT_SID is not set in environment variables"))
  else if negb (opt_truthy TWILIO_AUTH_TOKEN) then
    raise (ValueError (lit "TWILIO_AUTH_TOKEN is not set in environment variables"))
  else if negb (opt_truthy TWILIO_PHONE_NUMBER) then
    raise (ValueError (lit "TWILIO_PHONE_NUMBER is not set in environment variables"))
  else ret true.

(** *** scripts/setup_twilio_trunk.py *)

Record trunk_setup : Type := {
  trunk_sid : str;
  domain_name : str;
  credential_list_sid : str;
  setup_username : str
}.

(** [client.trunking.v1.trunks(sid).credential_lists]: the credential
    lists of a trunk are reached through the attribute [credentials_lists]
    of the trunk context, which is the name the update scripts use; the
    context has no attribute [credential_lists], and asking for it raises
    [AttributeError]. *)
Definition trunk_credential_lists (trunk_sid : option str) : M unit :=
  raise no_credential_lists_error.

Definition create_twilio_trunk
  (trunk_name domain_name livekit_sip_uri username password : str)
  : M trunk_setup :=
  try_except
    (validate_twilio_config ;;;
     call (tw.Client TWILIO_ACCOUNT_SID TWILIO_AUTH_TOKEN) ;;;
     (* Step 1 *)
     trunk <- call (tw.TrunksCreate trunk_name domain_name) ;;
     (* Step 2 *)
     credential_list <-
       call (tw.CredentialListsCreate (trunk_name ++ lit "-credentials")) ;;
     (* Step 3 *)
     credential <-
       call (tw.CredentialsCreate (tw.cl_sid credential_list)
               (Some username) (Some password)) ;;
     (* Step 4 *)
     trunk_credential_lists (Some (tw.sid trunk)) ;;;
     call (tw.TrunkCredentialListsCreate (Some (tw.sid trunk))
             (tw.cl_sid credential_list)) ;;;
     (* Step 5 *)
     origination_url <-
       call (tw.OriginationUrlsCreate (Some (tw.sid trunk))
               (lit "LiveKit SIP URI") livekit_sip_uri 1 1 true) ;;
     (* Step 6 *)
     (if opt_truthy TWILIO_PHONE_NUMBER then
        phone_numbers <- call (tw.IncomingPhoneNumbersList TWILIO_PHONE_NUMBER) ;;
        match phone_numbers with
        | first :: _ =>
            call (tw.TrunkPhoneNumbersCreate (Some (tw.sid trunk)) (tw.pn_sid first))
        | [] => ret tt
        end
      else ret tt) ;;;
     ret {| trunk_sid := tw.sid trunk;
            domain_name := domain_name;
            credential_list_sid := tw.cl_sid credential_list;
            setup_username := username |})
    (fun e => raise e).

(** *** scripts/update_twilio_trunk_auto.py (the module body) *)

Definition LIVEKIT_SIP_URI : str := lit "sip:sip.livekit.cloud".

Definition names_livekit (cl : tw.CredentialList) : bool :=
  contains (lit "livekit") (str_lower (tw.cl_friendly_name cl)).

(** Create or get credential list *)
Definition setup_credential_list : M tw.CredentialList :=
  existing_cred_lists <- call tw.CredentialListsList ;;
  match find names_livekit existing_cred_lists with
  | Some cl => ret cl
  | None => call (tw.CredentialListsCreate (lit "LiveKit SIP Credentials"))
  end.

(** Add credentials *)
Definition add_credentials (livekit_cred_list : tw.CredentialList) : M unit :=
  existing_creds <- call (tw.CredentialsList (tw.cl_sid livekit_cred_list)) ;;
  let cred_exists :=
    existsb (fun c => opt_str_eqb (tw.username c) TWILIO_SIP_USERNAME)
            existing_creds in
  if negb cred_exists then
    call (tw.CredentialsCreate (tw.cl_sid livekit_cred_list)
            TWILIO_SIP_USERNAME TWILIO_SIP_PASSWORD) ;;; ret tt
  else ret tt.

(** Associate credential list with trunk; a failure here is only logged. *)
Definition associate_credential_list
  (trunk_sid : option str) (livekit_cred_list : tw.CredentialList) : M unit :=
  try_except
    (trunk_cred_lists <- call (tw.TrunkCredentialListsList trunk_sid) ;;
     let cred_list_associated :=
       existsb (fun cl => PyStr.eqb (tw.tcl_sid cl) (tw.cl_sid livekit_cred_list))
               trunk_cred_lists in
     if negb cred_list_associated then
       call (tw.TrunkCredentialListsCreate trunk_sid (tw.cl_sid livekit_cred_list))
     else ret tt)
    (fun e => ret tt).

(** Add origination URL *)
Definition add_origination_url (trunk_sid : option str) : M unit :=
  existing_urls <- call (tw.OriginationUrlsList trunk_sid) ;;
  let livekit_url_exists :=
    existsb (fun url => contains LIVEKIT_SIP_URI (tw.sip_url url)) existing_urls in
  if negb livekit_url_exists then
    call (tw.OriginationUrlsCreate trunk_sid (lit "LiveKit SIP URI")
            LIVEKIT_SIP_URI 1 1 true) ;;; ret tt
  else ret tt.

(** Associate phone number *)
Definition associate_phone_number (trunk_sid : option str) : M unit :=
  if opt_truthy TWILIO_PHONE_NUMBER then
    trunk_numbers <- call (tw.TrunkPhoneNumbersList trunk_sid) ;;
    let number_associated :=
      existsb (fun tn => opt_str_eqb (Some (tw.pn_phone_number tn))
                                     TWILIO_PHONE_NUMBER)
              trunk_numbers in
    if negb number_associated then
      phone_numbers <- call (tw.IncomingPhoneNumbersList TWILIO_PHONE_NUMBER) ;;
      match phone_numbers with
      | first :: _ =>
          call (tw.TrunkPhoneNumbersCreate trunk_sid (tw.pn_sid first))
      | [] => ret tt
      end
    else ret tt
  else ret tt.

(** The module body: the five blocks in sequence, inside the outer [try];
    any exception ends the script with exit status 1. *)
Definition update_twilio_trunk_auto : M unit :=
  try_except
    (call (tw.Client TWILIO_ACCOUNT_SID TWILIO_AUTH_TOKEN) ;;;
     let trunk_sid := TWILIO_SIP_TRUNK_SID in
     livekit_cred_list <- setup_credential_list ;;
     add_credentials livekit_cred_list ;;;
     associate_credential_list trunk_sid livekit_cred_list ;;;
     add_origination_url trunk_sid ;;;
     associate_phone_number trunk_sid)
    (fun e => raise (SystemExit 1)).

End TelephonyProvider.

(* ------------------------------------------------------------------ *)
(** ** A telephony account that keeps what it is given

    The provider is outside the repository.  To speak about a second run
    of a workflow, the account is taken to be a store: a creation request
    appends the resource and returns it, a list request returns what is
    stored, a request naming a trunk or credential list that does not
    exist is answered with an error.  Identifiers are looked up by first
    match.  The list of purchased numbers asked for by phone number holds
    the numbers equal to it, and no other: the number asked for is a full
    number, not a pattern. *)

Module account.

Record credential : Type := { c_username : option str; c_password : option str }.

Record credential_list : Type := {
  cl_sid : str;
  cl_friendly_name : str;
  cl_credentials : list credential
}.

Record origination_url : Type := {
  ou_friendly_name : str;
  ou_sip_url : str;
  ou_priority : N;
  ou_weight : N;
  ou_enabled : bool
}.

Record trunk : Type := {
  t_sid : str;
  t_friendly_name : str;
  t_domain_name : str;
  t_credential_lists : list str;
  t_origination_urls : list origination_url;
  t_phone_numbers : list tw.PhoneNumber
}.

Record t : Type := {
  trunks : list trunk;
  credential_lists : list credential_list;
  incoming_phone_numbers : list tw.PhoneNumber;
  next_sid : N
}.

Definition fresh_sid (prefix : string) (a : t) : str :=
  lit prefix ++ uuid.to_hex 32 (next_sid a).

(** Apply [f] to the first element that satisfies [p]; [None] when there
    is none. *)
Fixpoint update_first {A} (p : A -> bool) (f : A -> A) (l : list A)
  : option (list A) :=
  match l with
  | [] => None
  | x :: r =>
      if p x then Some (f x :: r)
      else match update_first p f r with
           | Some r' => Some (x :: r')
           | None => None
           end
  end.

Definition is_trunk (trunk_sid : option str) (tr : trunk) : bool :=
  opt_str_eqb (Some (t_sid tr)) trunk_sid.

Definition is_list (sid : str) (cl : credential_list) : bool :=
  PyStr.eqb (cl_sid cl) sid.

Definition with_trunks (a : t) (ts : list trunk) : t :=
  {| trunks := ts; credential_lists := credential_lists a;
     incoming_phone_numbers := incoming_phone_numbers a; next_sid := next_sid a |}.

Definition with_credential_lists (a : t) (cls : list credential_list) : t :=
  {| trunks := trunks a; credential_lists := cls;
     incoming_phone_numbers := incoming_phone_numbers a; next_sid := next_sid a |}.

Definition bump (a : t) : t :=
  {| trunks := trunks a; credential_lists := credential_lists a;
     incoming_phone_numbers := incoming_phone_numbers a; next_sid := next_sid a + 1 |}.

Definition not_found : exn := PlatformError 404.

(** Change the trunk [trunk_sid] by [f] and answer [x]. *)
Definition on_trunk {R} (a : t) (trunk_sid : option str)
  (f : trunk -> trunk) (x : R) : (exn + R) * t :=
  match update_first (is_trunk trunk_sid) f (trunks a) with
  | Some ts => (inr x, with_trunks a ts)
  | None => (inl not_found, a)
  end.

(** Answer with a view of the trunk [trunk_sid]. *)
Definition of_trunk {R} (a : t) (trunk_sid : option str)
  (view : trunk -> R) : (exn + R) * t :=
  match find (is_trunk trunk_sid) (trunks a) with
  | Some tr => (inr (view tr), a)
  | None => (inl not_found, a)
  end.

Definition add_credential_list (sid : str) (tr : trunk) : trunk :=
  {| t_sid := t_sid tr; t_friendly_name := t_friendly_name tr;
     t_domain_name := t_domain_name tr;
     t_credential_lists := t_credential_lists tr ++ [sid];
     t_origination_urls := t_origination_urls tr;
     t_phone_numbers := t_phone_numbers tr |}.

Definition add_origination_url (u : origination_url) (tr : trunk) : trunk :=
  {| t_sid := t_sid tr; t_friendly_name := t_friendly_name tr;
     t_domain_name := t_domain_name tr;
     t_credential_lists := t_credential_lists tr;
     t_origination_urls := t_origination_urls tr ++ [u];
     t_phone_numbers := t_phone_numbers tr |}.

Definition add_phone_number (n : tw.PhoneNumber) (tr : trunk) : trunk :=
  {| t_sid := t_sid tr; t_friendly_name := t_friendly_name tr;
     t_domain_name := t_domain_name tr;
     t_credential_lists := t_credential_lists tr;
     t_origination_urls := t_origination_urls tr;
     t_phone_numbers := t_phone_numbers tr ++ [n] |}.

Definition add_credential (c : credential) (cl : credential_list) : credential_list :=
  {| cl_sid := cl_sid cl; cl_friendly_name := cl_friendly_name cl;
     cl_credentials := cl_credentials cl ++ [c] |}.

Definition perform (r : tw.request) : t -> (exn + tw.response r) * t :=
  match r as r0 return t -> (exn + tw.response r0) * t with
  | tw.Client account_sid auth_token => fun a =>
      if opt_truthy account_sid && opt_truthy auth_token
      then (inr tt, a) else (inl (PlatformError 401), a)
  | tw.TrunksCreate friendly_name domain_name => fun a =>
      let sid := fresh_sid "TK" a in
      (inr {| tw.sid := sid |},
       bump (with_trunks a
               (trunks a ++ [{| t_sid := sid; t_friendly_name := friendly_name;
                                t_domain_name := domain_name;
                                t_credential_lists := [];
                                t_origination_urls := [];
                                t_phone_numbers := [] |}])))
  | tw.CredentialListsCreate friendly_name => fun a =>
      let sid := fresh_sid "CL" a in
      (inr {| tw.cl_sid := sid; tw.cl_friendly_name := friendly_name |},
       bump (with_credential_lists a
               (credential_lists a
                ++ [{| cl_sid := sid; cl_friendly_name := friendly_name;
                       cl_credentials := [] |}])))
  | tw.CredentialListsList => fun a =>
      (inr (List.map (fun cl => {| tw.cl_sid := cl_sid cl;
                                   tw.cl_friendly_name := cl_friendly_name cl |})
                     (credential_lists a)), a)
  | tw.CredentialsCreate sid username password => fun a =>
      match update_first (is_list sid)
              (add_credential {| c_username := username; c_password := password |})
              (credential_lists a) with
      | Some cls => (inr {| tw.username := username |}, with_credential_lists a cls)
      | None => (inl not_found, a)
      end
  | tw.CredentialsList sid => fun a =>
      match find (is_list sid) (credential_lists a) with
      | Some cl =>
          (inr (List.map (fun c => {| tw.username := c_username c |})
                         (cl_credentials cl)), a)
      | None => (inl not_found, a)
      end
  | tw.TrunkCredentialListsCreate trunk_sid sid => fun a =>
      on_trunk a trunk_sid (add_credential_list sid) tt
  | tw.TrunkCredentialListsList trunk_sid => fun a =>
      of_trunk a trunk_sid
        (fun tr => List.map (fun s => {| tw.tcl_sid := s |}) (t_credential_lists tr))
  | tw.OriginationUrlsCreate trunk_sid friendly_name sip_url priority weight enabled =>
      fun a =>
      on_trunk a trunk_sid
        (add_origination_url {| ou_friendly_name := friendly_name;
                                ou_sip_url := sip_url; ou_priority := priority;
                                ou_weight := weight; ou_enabled := enabled |})
        {| tw.sip_url := sip_url |}
  | tw.OriginationUrlsList trunk_sid => fun a =>
      of_trunk a trunk_sid
        (fun tr => List.map (fun u => {| tw.sip_url := ou_sip_url u |})
                            (t_origination_urls tr))
  | tw.IncomingPhoneNumbersList phone_number => fun a =>
      (inr (filter (fun n => opt_str_eqb (Some (tw.pn_phone_number n)) phone_number)
                   (incoming_phone_numbers a)), a)
  | tw.TrunkPhoneNumbersCreate trunk_sid phone_number_sid => fun a =>
      match find (fun n => PyStr.eqb (tw.pn_sid n) phone_number_sid)
                 (incoming_phone_numbers a) with
      | Some n => on_trunk a trunk_sid (add_phone_number n) tt
      | None => (inl not_found, a)
      end
  | tw.TrunkPhoneNumbersList trunk_sid => fun a =>
      of_trunk a trunk_sid t_phone_numbers
  end.

(** [str.lower] on ASCII letters; other characters are left as they are. *)
Definition ascii_lower (s : str) : str :=
  List.map (fun c => if (65 <=? c) && (c <=? 90) then c + 32 else c) s.

End account.

(* ------------------------------------------------------------------ *)
(** ** A media platform that accepts every request

    Used to run the programs on concrete inputs: every request succeeds,
    a dispatch gets the identifier [AD_1], a SIP participant the identity
    that was asked for, and the random source returns its state, which
    then advances by one. *)

(** The limits of an interpreter as it starts: at most 4300 digits in an
    integer literal, and a recursion limit of 1000 that leaves a caller a
    few frames deep some 990 levels of nesting. *)
Definition default_limits : json.limits :=
  {| json.nesting_beyond_first := 990; json.int_max_str_digits := 4300 |}.

Definition lk_accepting (r : lk.request) : N -> (exn + lk.response r) * N :=
  match r as r0 return N -> (exn + lk.response r0) * N with
  | lk.OsUrandom _ => fun seed => (inr seed, seed + 1)
  | lk.CreateAgentDispatchRequest _ _ _ => fun seed =>
      (inr {| lk.id := lit "AD_1" |}, seed)
  | lk.CreateSIPParticipantRequest _ _ _ identity _ => fun seed =>
      (inr {| lk.participant_identity := identity |}, seed)
  | _ => fun seed => (inr tt, seed)
  end.

(* ------------------------------------------------------------------ *)
(** ** Predicates used in the statements *)

(** The characters the formatter keeps. *)
Definition kept (c : char) : bool := isdecimal c || (c =? plus_sign).

Definition is_lower_hex (c : char) : bool :=
  ((48 <=? c) && (c <=? 57)) || ((97 <=? c) && (c <=? 102)).

(** [outbound-call-] followed by exactly 8 hexadecimal characters. *)
Definition is_generated_room_name (r : str) : Prop :=
  exists h, r = lit "outbound-call-" ++ h /\ List.length h = 8%nat /\
            forallb is_lower_hex h = true.

(** In a trace, every create-SIP-participant request comes right after a
    sleep of 5 seconds, which comes right after a create-dispatch request
    for the same room. *)
Definition sip_follows_dispatch (tr : list lk.request) : Prop :=
  forall pre t c r i n post,
    tr = pre ++ lk.CreateSIPParticipantRequest t c r i n :: post ->
    exists pre' a m,
      pre = pre' ++ [lk.CreateAgentDispatchRequest a r m; lk.AsyncioSleep 5].

(** The room name the dispatcher generates from the random bytes [b]. *)
Definition generated_room_name (b : N) : str :=
  lit "outbound-call-" ++ firstn 8 (uuid.hex (uuid.uuid4_int b)).

(** The traces a test call can leave: nothing, the read of the random
    source, then the create-dispatch request, then the sleep, then the
    create-SIP-participant request for the room of the dispatch, then the
    closing of the client. *)
Definition call_shape (tr : list lk.request) : Prop :=
  tr = [] \/ tr = [lk.OsUrandom 16] \/
  exists a r m,
    tr = [lk.OsUrandom 16; lk.CreateAgentDispatchRequest a r m] \/
    tr = [lk.OsUrandom 16; lk.CreateAgentDispatchRequest a r m; lk.AsyncioSleep 5] \/
    exists t c i n,
      tr = [lk.OsUrandom 16; lk.CreateAgentDispatchRequest a r m; lk.AsyncioSleep 5;
            lk.CreateSIPParticipantRequest t c r i n] \/
      tr = [lk.OsUrandom 16; lk.CreateAgentDispatchRequest a r m; lk.AsyncioSleep 5;
            lk.CreateSIPParticipantRequest t c r i n; lk.Aclose].

(** The escape sequence [e] is read back by [scanstring] as the single
    character [c]: a plain character, a one-letter escape, a [\u] escape
    that is not a high surrogate, or a surrogate pair. *)
Definition decodes_to (e : str) (c : char) : bool :=
  match e with
  | [x] => (x =? c) && negb (x =? 34) && negb (x =? 92) && negb (x <=? 0x1f)
  | [b; x] =>
      (b =? 92) && negb (x =? 117) &&
      match json.simple_escape x with
      | Some y => y =? c
      | None => false
      end
  | [b; u; h1; h2; h3; h4] =>
      (b =? 92) && (u =? 117) &&
      match json.hex4 h1 h2 h3 h4 with
      | Some v => (v =? c) && negb (json.is_high_surrogate v)
      | None => false
      end
  | [b; u; h1; h2; h3; h4; b2; u2; g1; g2; g3; g4] =>
      (b =? 92) && (u =? 117) && (b2 =? 92) && (u2 =? 117) &&
      match json.hex4 h1 h2 h3 h4, json.hex4 g1 g2 g3 g4 with
      | Some v, Some v2 =>
          json.is_high_surrogate v && json.is_low_surrogate v2 &&
          (json.join_surrogates v v2 =? c)
      | _, _ => false
      end
  | _ => false
  end.

(** The character [c] survives encoding and decoding. *)
Definition roundtrip_char (c : char) : bool := decodes_to (json.escape_char c) c.

(** The code points of a closed range, in order. *)
Definition enum_range (r : N * N) : list N :=
  List.map (fun i => fst r + N.of_nat i) (seq 0 (S (N.to_nat (snd r - fst r)))).

(** What the update workflow looks for in an account, block by block. *)

Definition list_view (cl : account.credential_list) : tw.CredentialList :=
  {| tw.cl_sid := account.cl_sid cl;
     tw.cl_friendly_name := account.cl_friendly_name cl |}.

(** The credential list the first block settles on is [L]. *)
Definition has_livekit_list (str_lower : str -> str)
  (cls : list account.credential_list) (L : tw.CredentialList) : Prop :=
  find (names_livekit str_lower) (List.map list_view cls) = Some L.

(** The credential list [sid] holds a credential for [username]. *)
Definition has_credential (username : option str)
  (cls : list account.credential_list) (sid : str) : Prop :=
  exists cl,
    find (account.is_list sid) cls = Some cl /\
    existsb (fun c => opt_str_eqb (account.c_username c) username)
            (account.cl_credentials cl) = true.

(** If the trunk exists, the credential list [sid] is associated with it. *)
Definition has_association (trunk_sid : option str)
  (ts : list account.trunk) (sid : str) : Prop :=
  forall tr,
    find (account.is_trunk trunk_sid) ts = Some tr ->
    existsb (fun s => PyStr.eqb s sid) (account.t_credential_lists tr) = true.

(** If the trunk exists, it has an origination URL for the media platform. *)
Definition has_origination_url (trunk_sid : option str)
  (ts : list account.trunk) : Prop :=
  forall tr,
    find (account.is_trunk trunk_sid) ts = Some tr ->
    existsb (fun u => contains LIVEKIT_SIP_URI (account.ou_sip_url u))
            (account.t_origination_urls tr) = true.

(** If the trunk exists, the number is associated with it, or the account
    has no such number. *)
Definition has_phone_number (trunk_sid phone_number : option str)
  (ts : list account.trunk) (incoming : list tw.PhoneNumber) : Prop :=
  forall tr,
    find (account.is_trunk trunk_sid) ts = Some tr ->
    existsb (fun n => opt_str_eqb (Some (tw.pn_phone_number n)) phone_number)
            (account.t_phone_numbers tr) = true \/
    filter (fun n => opt_str_eqb (Some (tw.pn_phone_number n)) phone_number)
           incoming = [].

(** A change of a trunk that keeps its identifier and only appends to its
    lists. *)
Definition grows (f : account.trunk -> account.trunk) : Prop :=
  forall tr,
    account.t_sid (f tr) = account.t_sid tr /\
    (exists l, account.t_credential_lists (f tr) = account.t_credential_lists tr ++ l) /\
    (exists l, account.t_origination_urls (f tr) = account.t_origination_urls tr ++ l) /\
    (exists l, account.t_phone_numbers (f tr) = account.t_phone_numbers tr ++ l).

(** Every lookup of the update workflow succeeds in the account [a], with
    [L] the credential list of the first block. *)
Definition settled (str_lower : str -> str)
  (username trunk_sid phone_number : option str)
  (a : account.t) (L : tw.CredentialList) : Prop :=
  has_livekit_list str_lower (account.credential_lists a) L /\
  has_credential username (account.credential_lists a) (tw.cl_sid L) /\
  has_association trunk_sid (account.trunks a) (tw.cl_sid L) /\
  has_origination_url trunk_sid (account.trunks a) /\
  (opt_truthy phone_number = true ->
   has_phone_number trunk_sid phone_number (account.trunks a)
                    (account.incoming_phone_numbers a)).

(** An account with one trunk and one purchased number, and the
    configuration used with it. *)
Definition demo_account : account.t :=
  {| account.trunks :=
       [{| account.t_sid := lit "TK_demo";
           account.t_friendly_name := lit "demo";
           account.t_domain_name := lit "demo.pstn.twilio.com";
           account.t_credential_lists := [];
           account.t_origination_urls := [];
           account.t_phone_numbers := [] |}];
     account.credential_lists := [];
     account.incoming_phone_numbers :=
       [{| tw.pn_sid := lit "PN_demo"; tw.pn_phone_number := lit "+14155550100" |}];
     account.next_sid := 0 |}.

(* ------------------------------------------------------------------ *)
(** ** services/telephony_utils.py: [TelephonyUtils.parse_dtmf] *)

Definition valid_dtmf : list str :=
  [lit "0"; lit "1"; lit "2"; lit "3"; lit "4"; lit "5"; lit "6"; lit "7";
   lit "8"; lit "9"; lit "*"; lit "#"].

(** [dtmf_digit in valid_dtmf]: membership in a list of strings. *)
Definition parse_dtmf (dtmf_digit : str) : option str :=
  if existsb (PyStr.eqb dtmf_digit) valid_dtmf then Some dtmf_digit else None.

(* ------------------------------------------------------------------ *)
(** ** Kinds of requests and of decoded values *)

Definition is_dispatch_request (r : lk.request) : bool :=
  match r with lk.CreateAgentDispatchRequest _ _ _ => true | _ => false end.

Definition is_delete_request (r : lk.request) : bool :=
  match r with lk.DeleteAgentDispatchRequest _ _ => true | _ => false end.

Definition is_sip_request (r : lk.request) : bool :=
  match r with lk.CreateSIPParticipantRequest _ _ _ _ _ => true | _ => false end.


(** The requests of a complete run of [make_test_call] for the number
    [raw], when the random source returned [b]. *)
Definition test_call_requests (AGENT_NAME : str) (trunk_id : str)
  (raw : str) (b : N) : list lk.request :=
  let number := format_phone_number raw in
  [ lk.OsUrandom 16;
    lk.CreateAgentDispatchRequest AGENT_NAME (generated_room_name b)
      (json.dumps [(lit "phone_number", number)]);
    lk.AsyncioSleep 5;
    lk.CreateSIPParticipantRequest (Some trunk_id) number (generated_room_name b)
      (lit "caller-" ++ number) number ].

(** The trunk identifier [make_test_call] uses: the argument when it is
    given and not empty, the environment variable otherwise. *)
Definition effective_trunk_id (trunk_id env : option str) : str :=
  if opt_truthy trunk_id then or_else trunk_id [] else or_else env [].

(** The requests of a complete run of [make_call] for the number [raw],
    when the random source returned [b]. *)
Definition make_call_requests (env : option str) (raw : str) (b : N)
  : list lk.request :=
  [ lk.OsUrandom 16;
    lk.CreateAgentDispatchRequest (lit "telephony-agent") (generated_room_name b)
      (json.dumps [(lit "phone_number", raw)]);
    lk.AsyncioSleep 5;
    lk.CreateSIPParticipantRequest env raw (generated_room_name b)
      (lit "caller-" ++ raw) raw;
    lk.Aclose ].

(* ------------------------------------------------------------------ *)
(** ** scripts/update_twilio_trunk.py

    The interactive sibling of the automatic script: the same five blocks,
    with the SIP endpoint as an argument, the configuration validated
    first, and an exception logged and raised again. *)

Section TelephonyProviderUpdate.

Variable W : Type.
Variable perform : forall r : tw.request, W -> (exn + tw.response r) * W.
Variable str_lower : str -> str.
Variable TWILIO_ACCOUNT_SID : option str.
Variable TWILIO_AUTH_TOKEN : option str.
Variable TWILIO_PHONE_NUMBER : option str.
Variable TWILIO_SIP_TRUNK_SID : option str.
Variable TWILIO_SIP_USERNAME : option str.
Variable TWILIO_SIP_PASSWORD : option str.

(** Step 4: Add origination URL *)
Definition add_origination_url_for (trunk_sid : option str) (livekit_sip_uri : str)
  : M tw.request W unit :=
  existing_urls <- call perform (tw.OriginationUrlsList trunk_sid) ;;
  let livekit_url_exists :=
    existsb (fun url => contains livekit_sip_uri (tw.sip_url url)) existing_urls in
  if negb livekit_url_exists then
    call perform (tw.OriginationUrlsCreate trunk_sid (lit "LiveKit SIP URI")
                    livekit_sip_uri 1 1 true) ;;; ret tt
  else ret tt.

Definition update_twilio_trunk (livekit_sip_uri : str) : M tw.request W unit :=
  try_except
    (validate_twilio_config W TWILIO_ACCOUNT_SID TWILIO_AUTH_TOKEN
       TWILIO_PHONE_NUMBER ;;;
     call perform (tw.Client TWILIO_ACCOUNT_SID TWILIO_AUTH_TOKEN) ;;;
     let trunk_sid := TWILIO_SIP_TRUNK_SID in
     (* Step 1 *)
     livekit_cred_list <- setup_credential_list W perform str_lower ;;
     (* Step 2 *)
     add_credentials W perform TWILIO_SIP_USERNAME TWILIO_SIP_PASSWORD
       livekit_cred_list ;;;
     (* Step 3 *)
     associate_credential_list W perform trunk_sid livekit_cred_list ;;;
     (* Step 4 *)
     add_origination_url_for trunk_sid livekit_sip_uri ;;;
     (* Step 5 *)
     associate_phone_number W perform TWILIO_PHONE_NUMBER trunk_sid)
    (fun e => raise e).

End TelephonyProviderUpdate.

(* ------------------------------------------------------------------ *)
(** ** scripts/create_inbound_trunk.py, scripts/create_outbound_trunk.py *)

Module lksip.

Record SIPInboundTrunkInfo : Type := {
  in_name : str;
  in_numbers : list str;
  in_allowed_addresses : list str;
  in_auth_username : str;
  in_auth_password : str
}.

(** The message has no field [room_name]. *)
Record SIPDispatchRuleInfo : Type := {
  rule_trunk_ids : list str;
  rule_name : str
}.

Record SIPOutboundTrunkInfo : Type := {
  out_name : str;
  out_address : str;
  out_auth_username : str;
  out_auth_password : str
}.

Record SIPTrunk : Type := { sip_trunk_id : str }.
Record SIPDispatchRule : Type := { sip_dispatch_rule_id : str }.

Inductive request : Type :=
| CreateSIPInboundTrunkRequest (trunk : SIPInboundTrunkInfo)
| CreateSIPDispatchRuleRequest (rule : SIPDispatchRuleInfo)
| CreateSIPOutboundTrunkRequest (trunk : SIPOutboundTrunkInfo)
| Aclose.

Definition response (r : request) : Type :=
  match r with
  | CreateSIPInboundTrunkRequest _ => SIPTrunk
  | CreateSIPDispatchRuleRequest _ => SIPDispatchRule
  | CreateSIPOutboundTrunkRequest _ => SIPTrunk
  | Aclose => unit
  end.

End lksip.

Definition no_room_name_error : exn :=
  ValueError (lit "Protocol message SIPDispatchRuleInfo has no room_name field.").

Section MediaPlatformProvisioning.

Variable W : Type.
Variable perform : forall r : lksip.request, W -> (exn + lksip.response r) * W.

(** config/livekit_config.py *)
Variable LIVEKIT_URL : option str.
Variable LIVEKIT_API_KEY : option str.
Variable LIVEKIT_API_SECRET : option str.

Definition validate_livekit_config : M lksip.request W bool :=
  if negb (opt_truthy LIVEKIT_URL) then
    raise (ValueError (lit "LIVEKIT_URL is not set in environment variables"))
  else if negb (opt_truthy LIVEKIT_API_KEY) then
    raise (ValueError (lit "LIVEKIT_API_KEY is not set in environment variables"))
  else if negb (opt_truthy LIVEKIT_API_SECRET) then
    raise (ValueError (lit "LIVEKIT_API_SECRET is not set in environment variables"))
  else ret true.

Record inbound_setup : Type := { in_trunk_id : str; dispatch_rule_id : str }.

(** [api.SIPDispatchRuleInfo(trunk_ids=..., name=..., room_name=...)]: the
    constructor of a message refuses a keyword that is not one of its
    fields with [ValueError]. *)
Definition sip_dispatch_rule_info
  (trunk_ids : list str) (name : str) (room_name : option str)
  : M lksip.request W lksip.SIPDispatchRuleInfo :=
  match room_name with
  | Some _ => raise no_room_name_error
  | None => ret {| lksip.rule_trunk_ids := trunk_ids; lksip.rule_name := name |}
  end.

(** [allowed_numbers or []] for an optional list. *)
Definition list_or_empty (l : option (list str)) : list str :=
  match l with Some l => l | None => [] end.

Definition create_inbound_trunk
  (trunk_name username password : str) (allowed_numbers : option (list str))
  : M lksip.request W inbound_setup :=
  try_except
    (validate_livekit_config ;;;
     (* Create inbound trunk *)
     trunk <-
       call perform
         (lksip.CreateSIPInboundTrunkRequest
            {| lksip.in_name := trunk_name;
               lksip.in_numbers := list_or_empty allowed_numbers;
               lksip.in_allowed_addresses := [];
               lksip.in_auth_username := username;
               lksip.in_auth_password := password |}) ;;
     (* Create dispatch rule *)
     rule <-
       sip_dispatch_rule_info [lksip.sip_trunk_id trunk]
         (trunk_name ++ lit "-dispatch") (Some []) ;;
     dispatch_rule <- call perform (lksip.CreateSIPDispatchRuleRequest rule) ;;
     call perform lksip.Aclose ;;;
     ret {| in_trunk_id := lksip.sip_trunk_id trunk;
            dispatch_rule_id := lksip.sip_dispatch_rule_id dispatch_rule |})
    (fun e => raise e).

(** The returned dict has the one entry [trunk_id]; the result here is
    its value. *)
Definition create_outbound_trunk (trunk_name address username password : str)
  : M lksip.request W str :=
  try_except
    (validate_livekit_config ;;;
     trunk <-
       call perform
         (lksip.CreateSIPOutboundTrunkRequest
            {| lksip.out_name := trunk_name;
               lksip.out_address := address;
               lksip.out_auth_username := username;
               lksip.out_auth_password := password |}) ;;
     call perform lksip.Aclose ;;;
     ret (lksip.sip_trunk_id trunk))
    (fun e => raise e).

End MediaPlatformProvisioning.

(** The one request [create_inbound_trunk] gets to issue. *)
Definition inbound_trunk_request
  (trunk_name username password : str) (allowed_numbers : option (list str))
  : lksip.request :=
  lksip.CreateSIPInboundTrunkRequest
    {| lksip.in_name := trunk_name;
       lksip.in_numbers := list_or_empty allowed_numbers;
       lksip.in_allowed_addresses := [];
       lksip.in_auth_username := username;
       lksip.in_auth_password := password |}.

(** A provisioning platform that accepts every request and numbers the
    resources it creates. *)
Definition lksip_accepting (r : lksip.request)
  : N -> (exn + lksip.response r) * N :=
  match r as r0 return N -> (exn + lksip.response r0) * N with
  | lksip.CreateSIPInboundTrunkRequest _ => fun n =>
      (inr {| lksip.sip_trunk_id := lit "ST_" ++ uuid.to_hex 4 n |}, n + 1)
  | lksip.CreateSIPDispatchRuleRequest _ => fun n =>
      (inr {| lksip.sip_dispatch_rule_id := lit "SDR_" ++ uuid.to_hex 4 n |}, n + 1)
  | lksip.CreateSIPOutboundTrunkRequest _ => fun n =>
      (inr {| lksip.sip_trunk_id := lit "ST_" ++ uuid.to_hex 4 n |}, n + 1)
  | lksip.Aclose => fun n => (inr tt, n)
  end.

(* ================================================================== *)
(** * Properties *)

Local Open Scope N_scope.

(* ------------------------------------------------------------------ *)
(** ** Strings *)

Lemma eqb_eq (a b : str) : PyStr.eqb a b = true <-> a = b.
Proof.
  revert b; induction a as [|x a IH]; intros [|y b]; simpl; split;
    try congruence; try reflexivity.
  - intros H. apply andb_true_iff in H as [H1 H2].
    apply N.eqb_eq in H1. apply IH in H2. congruence.
  - intros H. injection H as -> ->. rewrite N.eqb_refl. simpl. now apply IH.
Qed.

Lemma eqb_refl (a : str) : PyStr.eqb a a = true.
Proof. now apply eqb_eq. Qed.

Lemma startswith_refl (s : str) : startswith s s = true.
Proof. induction s; simpl; [reflexivity|]. now rewrite N.eqb_refl. Qed.

Lemma contains_self (s : str) : contains s s = true.
Proof. destruct s; simpl; [reflexivity|]. now rewrite N.eqb_refl, startswith_refl. Qed.

Lemma opt_str_eqb_eq (a b : option str) : opt_str_eqb a b = true <-> a = b.
Proof.
  destruct a, b; simpl; split; try congruence; try reflexivity.
  - intros H. apply eqb_eq in H. congruence.
  - intros H. injection H as ->. apply eqb_refl.
Qed.

(* ------------------------------------------------------------------ *)
(** ** The pattern matcher *)

Lemma match_rep_spec cs k hi :
  forall lo pos s,
    re.match_rep cs k lo hi pos s = true <->
    exists pre post,
      s = pre ++ post /\ (lo <= List.length pre <= hi)%nat /\
      forallb (re.cset_mem cs) pre = true /\
      k (pos + List.length pre)%nat post = true.
Proof.
  induction hi as [|hi IH]; intros lo pos s; simpl.
  - split.
    + destruct lo; [|discriminate]. intros H. exists [], s. simpl.
      rewrite Nat.add_0_r. repeat split; auto.
    + intros (pre & post & -> & Hlen & _ & Hk).
      destruct pre; simpl in *; [|lia]. destruct lo; [|lia].
      now rewrite Nat.add_0_r in Hk.
  - rewrite orb_true_iff. split.
    + intros [H|H].
      * destruct s as [|c r]; [discriminate|].
        apply andb_true_iff in H as [Hc H].
        apply IH in H as (pre & post & -> & Hlen & Hall & Hk).
        exists (c :: pre), post. simpl. rewrite Hc, Hall.
        replace (pos + S (List.length pre))%nat with (S pos + List.length pre)%nat by lia.
        repeat split; auto; lia.
      * destruct lo; [|discriminate]. exists [], s. simpl.
        rewrite Nat.add_0_r. repeat split; auto. lia.
    + intros (pre & post & -> & Hlen & Hall & Hk).
      destruct pre as [|c pre]; simpl in *.
      * right. destruct lo; [|lia]. now rewrite Nat.add_0_r in Hk.
      * left. apply andb_true_iff in Hall as [Hc Hall]. rewrite Hc. simpl.
        apply IH. exists pre, post.
        replace (S pos + List.length pre)%nat with (pos + S (List.length pre))%nat by lia.
        repeat split; auto; lia.
Qed.

Lemma at_end_spec (s : str) : re.at_end s = true <-> s = [] \/ s = [10].
Proof.
  destruct s as [|c [|d s]]; simpl; split; auto; try discriminate.
  - intros H. apply N.eqb_eq in H. subst. now right.
  - intros [H|H]; [discriminate|]. injection H as ->. reflexivity.
  - intros [H|H]; discriminate.
Qed.

(* ------------------------------------------------------------------ *)
(** ** utils/validators.py *)

(** What the validator accepts, exactly: a plus sign, a character from 1
    to 9, then 1 to 14 characters that [\d] matches, and then either the
    end of the string or one final newline. *)
Lemma validate_phone_number_spec (s : str) :
  validate_phone_number s = true <->
  exists d ds nl,
    s = plus_sign :: d :: ds ++ nl /\ 49 <= d <= 57 /\
    (1 <= List.length ds <= 14)%nat /\ forallb isdecimal ds = true /\
    (nl = [] \/ nl = [10]).
Proof.
  unfold validate_phone_number, re.match_, e164_pattern.
  cbn [re.match_here Nat.eqb andb].
  split.
  - destruct s as [|p [|d r]]; try discriminate.
    { cbn. rewrite andb_false_r. discriminate. }
    intros H. apply andb_true_iff in H as [Hp H].
    apply andb_true_iff in H as [Hd H].
    apply match_rep_spec in H as (ds & nl & -> & Hlen & Hall & Hk).
    rewrite andb_true_r in Hk. apply at_end_spec in Hk.
    cbn in Hp, Hd. apply N.eqb_eq in Hp.
    apply andb_true_iff in Hd as [Hd1 Hd2].
    apply N.leb_le in Hd1, Hd2.
    exists d, ds, nl. subst p. repeat split; auto; lia.
  - intros (d & ds & nl & -> & Hd & Hlen & Hall & Hnl).
    cbn [re.cset_mem]. unfold plus_sign. rewrite N.eqb_refl. cbn [andb].
    replace ((49 <=? d) && (d <=? 57)) with true
      by (symmetry; apply andb_true_iff; split; apply N.leb_le; lia).
    cbn [andb]. apply match_rep_spec. exists ds, nl.
    repeat split; auto; try lia.
    rewrite andb_true_r. now apply at_end_spec.
Qed.

Example validate_ex1 : validate_phone_number (lit "+14155551234") = true.
Proof. reflexivity. Qed.
Example validate_ex2 : validate_phone_number (lit "4155551234") = false.
Proof. reflexivity. Qed.
Example validate_ex3 : validate_phone_number (lit "+0123") = false.
Proof. reflexivity. Qed.
Example validate_ex4 : validate_phone_number (lit "+123456789012345678") = false.
Proof. reflexivity. Qed.

Lemma sub_is_filter (s : str) :
  re.sub (re.CNot (re.CUnion re.CDigit (re.CChar plus_sign))) [] s = filter kept s.
Proof.
  unfold re.sub. induction s as [|c s IH]; [reflexivity|].
  cbn [flat_map filter]. rewrite IH. cbn [re.cset_mem]. unfold kept at 2.
  destruct (isdecimal c || (c =? plus_sign)); reflexivity.
Qed.

Lemma filter_idem {A} (p : A -> bool) (l : list A) : filter p (filter p l) = filter p l.
Proof.
  induction l as [|x l IH]; simpl; [reflexivity|].
  destruct (p x) eqn:E; simpl; [rewrite E, IH|]; auto.
Qed.

Lemma format_phone_number_eq (s : str) :
  format_phone_number s =
  match filter kept s with
  | c :: r => if c =? plus_sign then c :: r else plus_sign :: c :: r
  | [] => [plus_sign]
  end.
Proof.
  unfold format_phone_number. rewrite sub_is_filter.
  destruct (filter kept s) as [|c r]; simpl; [reflexivity|].
  unfold plus_sign. rewrite andb_true_r. reflexivity.
Qed.

Lemma format_phone_number_starts_with_plus (s : str) :
  exists t, format_phone_number s = plus_sign :: t /\ filter kept t = t.
Proof.
  rewrite format_phone_number_eq.
  pose proof (filter_idem kept s) as Hi.
  destruct (filter kept s) as [|c r] eqn:E.
  - now exists [].
  - simpl in Hi. destruct (kept c) eqn:Hc.
    + injection Hi as Hr. destruct (c =? plus_sign) eqn:Hp.
      * apply N.eqb_eq in Hp. subst c. now exists r.
      * exists (c :: r). simpl. now rewrite Hc, Hr.
    + exfalso.
      assert (In c (filter kept s)) as Hin by (rewrite E; now left).
      apply filter_In in Hin as [_ Hin]. congruence.
Qed.

Lemma format_phone_number_idempotent (s : str) :
  format_phone_number (format_phone_number s) = format_phone_number s.
Proof.
  destruct (format_phone_number_starts_with_plus s) as (t & -> & Ht).
  rewrite format_phone_number_eq. cbn [filter].
  replace (kept plus_sign) with true by reflexivity.
  rewrite Ht. reflexivity.
Qed.

(** C3 (the code departs from the claim): the validator also returns true
    for a valid number followed by one newline, because [$] matches before
    a final newline, and for decimal digits outside ASCII, because [\d]
    matches every Unicode decimal digit (here ARABIC-INDIC DIGIT TWO and
    THREE). *)
Theorem validate_phone_number_accepts_beyond_e164 :
  validate_phone_number (lit "+14155551234" ++ [10]) = true /\
  validate_phone_number (lit "+1" ++ [0x0662; 0x0663]) = true.
Proof. split; reflexivity. Qed.

(** C4 (the code departs from the claim): a plus sign that is not leading
    is kept, so the output has a character after the sign that is not a
    digit. *)
Theorem format_phone_number_keeps_inner_plus :
  format_phone_number (lit "+1+4155551234") = lit "+1+4155551234" /\
  existsb (fun c => negb (isdecimal c)) (tl (format_phone_number (lit "+1+4155551234")))
  = true.
Proof. split; reflexivity. Qed.

(** C5: for every string that contains a digit, formatting twice gives the
    same result as formatting once. *)
Theorem format_phone_number_idempotent_on_digits (s : str) :
  existsb isdecimal s = true ->
  format_phone_number (format_phone_number s) = format_phone_number s.
Proof. intros _. apply format_phone_number_idempotent. Qed.

Lemma format_phone_number_idempotent_on_digits_witness :
  existsb isdecimal (lit "(415) 555-1234") = true /\
  format_phone_number (format_phone_number (lit "(415) 555-1234"))
  = format_phone_number (lit "(415) 555-1234").
Proof.
  split; [reflexivity|].
  apply (format_phone_number_idempotent_on_digits (lit "(415) 555-1234")).
  reflexivity.
Defined.

(** C10: the formatter is a total function whose result always starts with
    a plus sign; on a string with no digit and no plus sign the result is
    exactly the one-character string of a plus sign, which the validator
    rejects. *)
Theorem format_phone_number_total_plus (s : str) :
  startswith (format_phone_number s) (lit "+") = true /\
  ((forall c, In c s -> isdecimal c = false /\ c <> plus_sign) ->
   format_phone_number s = lit "+" /\
   validate_phone_number (format_phone_number s) = false).
Proof.
  split.
  - destruct (format_phone_number_starts_with_plus s) as (t & -> & _). reflexivity.
  - intros H.
    assert (filter kept s = []) as E.
    { induction s as [|c s IH]; simpl; [reflexivity|].
      destruct (H c (or_introl eq_refl)) as [Hd Hp].
      unfold kept at 1. rewrite Hd. simpl.
      apply N.eqb_neq in Hp. rewrite Hp. apply IH.
      intros c' Hc'. apply H. now right. }
    rewrite format_phone_number_eq, E. split; reflexivity.
Qed.

Lemma format_phone_number_total_plus_witness :
  format_phone_number (lit "") = lit "+" /\
  validate_phone_number (format_phone_number (lit "")) = false.
Proof.
  apply (format_phone_number_total_plus (lit "")).
  intros c H. destruct H.
Defined.

(* ------------------------------------------------------------------ *)
(** ** Generated room names *)

Lemma hexdigit_is_lower_hex (n : N) : n < 16 -> is_lower_hex (json.hexdigit n) = true.
Proof.
  intros H. unfold is_lower_hex, json.hexdigit.
  destruct (n <? 10) eqn:E.
  - apply N.ltb_lt in E. apply orb_true_iff. left.
    apply andb_true_iff; split; apply N.leb_le; lia.
  - apply N.ltb_ge in E. apply orb_true_iff. right.
    apply andb_true_iff; split; apply N.leb_le; lia.
Qed.

Lemma to_hex_length (k : nat) : forall n, List.length (uuid.to_hex k n) = k.
Proof.
  induction k as [|k IH]; intros n; simpl; [reflexivity|].
  rewrite length_app, IH. simpl. lia.
Qed.

Lemma to_hex_is_lower_hex (k : nat) :
  forall n, forallb is_lower_hex (uuid.to_hex k n) = true.
Proof.
  induction k as [|k IH]; intros n; simpl; [reflexivity|].
  rewrite forallb_app, IH. simpl.
  rewrite hexdigit_is_lower_hex; [reflexivity|].
  apply N.mod_lt. discriminate.
Qed.

Lemma forallb_firstn {A} (p : A -> bool) (n : nat) (l : list A) :
  forallb p l = true -> forallb p (firstn n l) = true.
Proof.
  revert l; induction n as [|n IH]; intros [|x l]; simpl; auto.
  intros H. apply andb_true_iff in H as [H1 H2]. rewrite H1. simpl. auto.
Qed.

Lemma generated_room_name_ok (b : N) :
  is_generated_room_name (generated_room_name b).
Proof.
  exists (firstn 8 (uuid.hex (uuid.uuid4_int b))). split; [reflexivity|]. split.
  - rewrite length_firstn. unfold uuid.hex. rewrite to_hex_length. reflexivity.
  - apply forallb_firstn. apply to_hex_is_lower_hex.
Qed.

(* ------------------------------------------------------------------ *)
(** ** Running a sequence *)

Lemma bind_ok {request W A B} (m : M request W A) (k : A -> M request W B) st x st' :
  m st = (inr x, st') -> bind m k st = k x st'.
Proof. intros H. unfold bind. now rewrite H. Qed.

Lemma bind_err {request W A B} (m : M request W A) (k : A -> M request W B) st e st' :
  m st = (inl e, st') -> bind m k st = (inl e, st').
Proof. intros H. unfold bind. now rewrite H. Qed.

(* ------------------------------------------------------------------ *)
(** ** The dispatch requester and the call requester *)

Ltac run_prog :=
  unfold run, bind, try_except, call, ret, raise;
  cbn [world trace fst snd negb app is_Exception opt_truthy or_else PyStr.truthy].

(** One [print]: it succeeds or raises. *)
Ltac step_print :=
  match goal with
  | |- context [encodable ?t] => destruct (encodable t) eqn:?
  end; run_prog.

Section MediaPlatformFacts.

Variable W : Type.
Variable perform : forall r : lk.request, W -> (exn + lk.response r) * W.
Variable AGENT_NAME : str.
Variable LIVEKIT_OUTBOUND_TRUNK_ID : option str.

#[local] Abbreviation dispatch_outbound_call' := (dispatch_outbound_call W perform AGENT_NAME).
#[local] Abbreviation create_outbound_call' := (create_outbound_call W perform).

Lemma dispatch_outbound_call_invalid raw room agent st :
  validate_phone_number (format_phone_number raw) = false ->
  dispatch_outbound_call' raw room agent st
  = (inl (ValueError (lit "Invalid phone number format: " ++ format_phone_number raw)), st).
Proof. intros H. unfold dispatch_outbound_call. rewrite H. reflexivity. Qed.

Lemma create_outbound_call_invalid raw room trunk ident name st :
  validate_phone_number (format_phone_number raw) = false ->
  create_outbound_call' raw room trunk ident name st
  = (inl (ValueError (lit "Invalid phone number format: " ++ format_phone_number raw)), st).
Proof. intros H. unfold create_outbound_call. rewrite H. reflexivity. Qed.

(** C2 (as amended): a number whose normalized form fails validation is
    rejected with an invalid-input error by the call requester and by the
    dispatch requester, and no request has been issued. *)
Theorem invalid_number_rejected_before_any_request
  raw room trunk ident name room' agent w :
  validate_phone_number (format_phone_number raw) = false ->
  (exists msg,
     run (create_outbound_call' raw room trunk ident name) w
     = (inl (ValueError msg), mkState w [])) /\
  (exists msg,
     run (dispatch_outbound_call' raw room' agent) w
     = (inl (ValueError msg), mkState w [])).
Proof.
  intros H. unfold run. split; eexists.
  - now rewrite create_outbound_call_invalid.
  - now rewrite dispatch_outbound_call_invalid.
Qed.

(** C8: for a valid number and no room name, when the random source and
    the platform answer, the dispatch requester asks for a room named
    [outbound-call-] plus 8 hexadecimal characters and returns the
    dispatch identifier, that room name, the normalized number and the
    agent name. *)
Theorem dispatch_outbound_call_generates_room raw room agent w b w1 d w2 :
  let number := format_phone_number raw in
  let agent' := if opt_truthy agent then or_else agent [] else AGENT_NAME in
  let request :=
    lk.CreateAgentDispatchRequest agent' (generated_room_name b)
      (json.dumps [(lit "phone_number", number)]) in
  validate_phone_number number = true ->
  opt_truthy room = false ->
  perform (lk.OsUrandom 16) w = (inr b, w1) ->
  perform request w1 = (inr d, w2) ->
  run (dispatch_outbound_call' raw room agent) w
  = (inr {| dispatch_id := lk.id d; room_name := generated_room_name b;
            phone_number := number; agent_name := agent' |},
     mkState w2 [lk.OsUrandom 16; request]) /\
  is_generated_room_name (generated_room_name b).
Proof.
  intros number agent' request Hv Hroom Hb Hd. split; [|apply generated_room_name_ok].
  unfold run, dispatch_outbound_call. fold number. rewrite Hv, Hroom.
  unfold uuid4_hex8. run_prog. rewrite Hb. run_prog.
  fold (generated_room_name b).
  replace (if negb (opt_truthy agent) then AGENT_NAME else or_else agent [])
    with agent' by (unfold agent'; now destruct (opt_truthy agent)).
  fold request. rewrite Hd. reflexivity.
Qed.

#[local] Abbreviation make_test_call' := (make_test_call W perform AGENT_NAME LIVEKIT_OUTBOUND_TRUNK_ID).
#[local] Abbreviation make_call' := (make_call W perform LIVEKIT_OUTBOUND_TRUNK_ID).

Ltac solve_shape :=
  unfold call_shape;
  first [ left; reflexivity
        | right; left; reflexivity
        | right; right; do 3 eexists;
          first [ left; reflexivity
                | right; left; reflexivity
                | right; right; do 4 eexists;
                  first [ left; reflexivity | right; reflexivity ] ] ].

Lemma app_cons_nth {A} (tr pre : list A) (x : A) (post : list A) :
  tr = pre ++ x :: post ->
  nth_error tr (List.length pre) = Some x /\ pre = firstn (List.length pre) tr.
Proof.
  intros ->. split.
  - rewrite nth_error_app2 by lia. now rewrite Nat.sub_diag.
  - rewrite firstn_app, Nat.sub_diag, firstn_all. cbn. now rewrite app_nil_r.
Qed.

Lemma call_shape_sip_follows tr : call_shape tr -> sip_follows_dispatch tr.
Proof.
  intros Hs pre t c r i n post H.
  apply app_cons_nth in H as [Hn Hp].
  remember (List.length pre) as k eqn:Hk. clear Hk.
  destruct Hs as [->|[->|(a & r0 & m & [->|[->|(t0 & c0 & i0 & n0 & [->| ->])]])]].
  all: destruct k as [|[|[|[|[|k]]]]]; cbn in Hn; try discriminate Hn.
  all: try (destruct k; discriminate Hn).
  all: injection Hn as ? ? ? ? ?; subst; now exists [lk.OsUrandom 16], a, m.
Qed.

Lemma make_test_call_shape raw trunk w :
  call_shape (trace (snd (run (make_test_call' raw trunk) w))).
Proof.
  unfold run, make_test_call, dispatch_outbound_call, create_outbound_call.
  destruct (validate_phone_number (format_phone_number raw)) eqn:Hv;
    run_prog; [|solve_shape].
  unfold uuid4_hex8. run_prog.
  destruct (perform (lk.OsUrandom 16) w) as [[e|b] w1]; run_prog.
  { destruct e; cbn; solve_shape. }
  match goal with
  | |- context [perform ?r w1] => destruct (perform r w1) as [[e|d] w2]
  end; run_prog.
  { destruct e; cbn; solve_shape. }
  destruct (perform (lk.AsyncioSleep 5) w2) as [[e|[]] w3]; run_prog.
  { destruct e; cbn; solve_shape. }
  destruct (opt_truthy trunk); [|destruct (opt_truthy LIVEKIT_OUTBOUND_TRUNK_ID)];
    run_prog; try solve [cbn; solve_shape].
  all: match goal with
       | |- context [perform (lk.CreateSIPParticipantRequest ?a ?b ?c ?d ?e) ?w] =>
           destruct (perform (lk.CreateSIPParticipantRequest a b c d e) w)
             as [[e'|pi] w4]
       end; run_prog.
  all: try (destruct e'); cbn; solve_shape.
Qed.

Lemma make_call_shape raw w :
  call_shape (trace (snd (run (make_call' raw) w))).
Proof.
  unfold run, make_call, uuid4_hex8, stdout_print.
  step_print; [|cbn; solve_shape].
  destruct (perform (lk.OsUrandom 16) w) as [[e|b] w1]; run_prog.
  { cbn; solve_shape. }
  match goal with
  | |- context [perform ?r w1] => destruct (perform r w1) as [[e|d] w2]
  end; run_prog.
  { cbn; solve_shape. }
  step_print; [|cbn; solve_shape].
  step_print; [|cbn; solve_shape].
  destruct (perform (lk.AsyncioSleep 5) w2) as [[e|[]] w3]; run_prog.
  { cbn; solve_shape. }
  step_print; [|cbn; solve_shape].
  match goal with
  | |- context [perform ?r w3] => destruct (perform r w3) as [[e|pi] w4]
  end; run_prog.
  { cbn; solve_shape. }
  repeat (step_print; [|cbn; solve_shape]).
  destruct (perform lk.Aclose w4) as [[e|[]] w5]; cbn; solve_shape.
Qed.

(** C9: in both test-call workflows, a create-SIP-participant request is
    only ever issued right after a sleep of 5 seconds that follows the
    create-dispatch request, and it names the room of that dispatch. *)
Theorem test_call_dispatch_before_sip raw trunk w :
  sip_follows_dispatch (trace (snd (run (make_test_call' raw trunk) w))) /\
  sip_follows_dispatch (trace (snd (run (make_call' raw) w))).
Proof.
  split; apply call_shape_sip_follows.
  - apply make_test_call_shape.
  - apply make_call_shape.
Qed.

End MediaPlatformFacts.

Lemma invalid_number_rejected_before_any_request_witness :
  validate_phone_number (format_phone_number (lit "0123")) = false /\
  (exists msg,
     run (create_outbound_call N lk_accepting (lit "0123") (lit "room-1")
            (lit "ST_1") None None) 0
     = (inl (ValueError msg), mkState 0 [])) /\
  (exists msg,
     run (dispatch_outbound_call N lk_accepting (lit "telephony-agent")
            (lit "0123") None None) 0
     = (inl (ValueError msg), mkState 0 [])).
Proof.
  split; [reflexivity|].
  apply (invalid_number_rejected_before_any_request N lk_accepting
           (lit "telephony-agent") (lit "0123") (lit "room-1") (lit "ST_1")
           None None None None 0).
  reflexivity.
Defined.

(** C2 (as stated) fails: the number 12345 does not match the pattern, but
    both requesters normalize it to +12345 first, which does, and the
    request goes out. *)
Lemma number_12345_is_requested :
  validate_phone_number (lit "12345") = false /\
  run (create_outbound_call N lk_accepting (lit "12345") (lit "room-1")
         (lit "ST_1") None None) 0
  = (inr {| lk.participant_identity := lit "caller-+12345" |},
     mkState 0 [lk.CreateSIPParticipantRequest (Some (lit "ST_1")) (lit "+12345")
                  (lit "room-1") (lit "caller-+12345") (lit "+12345")]) /\
  trace (snd (run (dispatch_outbound_call N lk_accepting (lit "telephony-agent")
                     (lit "12345") (Some (lit "room-1")) None) 0))
  = [lk.CreateAgentDispatchRequest (lit "telephony-agent") (lit "room-1")
       (json.dumps [(lit "phone_number", lit "+12345")])].
Proof. repeat split; reflexivity. Qed.

Lemma dispatch_outbound_call_generates_room_witness :
  run (dispatch_outbound_call N lk_accepting (lit "telephony-agent")
         (lit "+14155551234") None None) 0
  = (inr {| dispatch_id := lit "AD_1"; room_name := lit "outbound-call-00000000";
            phone_number := lit "+14155551234";
            agent_name := lit "telephony-agent" |},
     mkState 1 [lk.OsUrandom 16;
                lk.CreateAgentDispatchRequest (lit "telephony-agent")
                  (lit "outbound-call-00000000")
                  (json.dumps [(lit "phone_number", lit "+14155551234")])]) /\
  is_generated_room_name (lit "outbound-call-00000000").
Proof.
  apply (dispatch_outbound_call_generates_room N lk_accepting
           (lit "telephony-agent") (lit "+14155551234") None None 0 0 1
           {| lk.id := lit "AD_1" |} 1); reflexivity.
Defined.

(* ------------------------------------------------------------------ *)
(** ** The decoder consumes input and never runs out of fuel *)














Section Loops.

Variable scan : str -> json.scan json.value.
Variable limit : nat.

Hypothesis scan_progress :
  forall s v r, scan s = json.Scanned v r -> (List.length r < List.length s)%nat.
Hypothesis scan_fuel :
  forall s, (List.length s < limit)%nat -> scan s <> json.OutOfFuel.





End Loops.




Example loads_array :
  json.loads default_limits (lit " [1, -2.5e-3, true, null, []] ")
  = json.Decoded
      (json.JList [json.JInt 1; json.JFloat (json.FLit true 25 (-4));
                   json.JBool true; json.JNull; json.JList []]).
Proof. reflexivity. Qed.

(** The limits at work: a thousand and one hundred opening brackets are
    not a decode error, nine hundred are; an integer of 4301 digits is
    refused, one of 4300 digits is not, and a float of any length is
    converted. *)
Example loads_deep_nesting :
  json.loads default_limits (repeat 91 1100) = json.RaisedRecursionError /\
  json.loads default_limits (repeat 91 900) = json.JSONDecodeError "Expecting value".
Proof. split; vm_compute; reflexivity. Qed.

Example loads_long_integer :
  json.loads default_limits (repeat 49 4301) = json.RaisedValueError /\
  json.loads default_limits (lit "{" ++ [34] ++ lit "phone_number" ++ [34] ++ lit ": "
                             ++ repeat 49 5000 ++ lit "}")
  = json.RaisedValueError /\
  (exists z, json.loads default_limits (repeat 49 4300) = json.Decoded (json.JInt z)) /\
  (exists f, json.loads default_limits (repeat 49 4301 ++ lit ".0")
             = json.Decoded (json.JFloat f)).
Proof.
  split; [vm_compute; reflexivity|]. split; [vm_compute; reflexivity|].
  split; eexists; vm_compute; reflexivity.
Qed.

Example loads_trailing_comma lim :
  json.loads lim (lit "[1,2,]") = json.JSONDecodeError "Expecting value".
Proof. reflexivity. Qed.

Example loads_leading_zero lim :
  json.loads lim (lit "01") = json.JSONDecodeError "Extra data".
Proof. reflexivity. Qed.

Example loads_unclosed lim :
  json.loads lim (lit "{") =
  json.JSONDecodeError "Expecting property name enclosed in double quotes".
Proof. reflexivity. Qed.

Example dumps_phone_number :
  json.dumps [(lit "phone_number", lit "+14155551234")]
  = lit "{" ++ [34] ++ lit "phone_number" ++ [34] ++ lit ": " ++ [34]
    ++ lit "+14155551234" ++ [34] ++ lit "}".
Proof. reflexivity. Qed.

(* ------------------------------------------------------------------ *)
(** ** Encoding then decoding a string *)

Ltac eqb_subst :=
  repeat match goal with
         | H : _ && _ = true |- _ => apply andb_true_iff in H as [? ?]
         | H : (?x =? ?y) = true |- _ => apply N.eqb_eq in H; subst
         | H : negb _ = true |- _ => apply negb_true_iff in H
         end.

Lemma scanstring_decodes (e : str) (c : char) :
  decodes_to e c = true ->
  forall rest acc, json.scanstring (e ++ rest) acc = json.scanstring rest (c :: acc).
Proof.
  intros H rest acc.
  destruct e as [|x1 [|x2 [|x3 [|x4 [|x5 [|x6 [|x7 [|x8 [|x9 [|x10 [|x11
                [|x12 [|? ?]]]]]]]]]]]]];
    try (cbn [decodes_to] in H; discriminate H).
  - (* a plain character *)
    cbn [decodes_to] in H. eqb_subst.
    cbn [app json.scanstring].
    repeat match goal with E : _ = false |- _ => rewrite E; clear E end.
    reflexivity.
  - (* a one-letter escape *)
    cbn [decodes_to] in H.
    destruct (json.simple_escape x2) as [y|] eqn:Es;
      [|rewrite andb_false_r in H; discriminate H].
    eqb_subst. cbn [app json.scanstring]. cbn [N.eqb Pos.eqb].
    repeat match goal with E : _ = false |- _ => rewrite E; clear E end.
    now rewrite Es.
  - (* one \u escape *)
    cbn [decodes_to] in H.
    destruct (json.hex4 x3 x4 x5 x6) as [v|] eqn:Eh;
      [|rewrite andb_false_r in H; discriminate H].
    eqb_subst. cbn [app json.scanstring]. cbn [N.eqb Pos.eqb].
    rewrite Eh.
    match goal with E : json.is_high_surrogate _ = false |- _ => rewrite E end.
    cbn [andb].
    destruct rest as [|? [|? [|? [|? [|? [|? ?]]]]]]; reflexivity.
  - (* a surrogate pair *)
    cbn [decodes_to] in H.
    destruct (json.hex4 x3 x4 x5 x6) as [v|] eqn:Eh;
      [|rewrite andb_false_r in H; discriminate H].
    destruct (json.hex4 x9 x10 x11 x12) as [v2|] eqn:Eh2;
      [|rewrite andb_false_r in H; discriminate H].
    eqb_subst. cbn [app json.scanstring]. cbn [N.eqb Pos.eqb].
    rewrite Eh.
    repeat match goal with E : _ = true |- _ => rewrite E; clear E end.
    cbn [andb]. rewrite Eh2.
    repeat match goal with E : _ = true |- _ => rewrite E; clear E end.
    reflexivity.
Qed.

Lemma scanstring_escaped (s : str) :
  forallb roundtrip_char s = true ->
  forall rest acc,
    json.scanstring (flat_map json.escape_char s ++ rest) acc
    = json.scanstring rest (rev s ++ acc).
Proof.
  induction s as [|c s IH]; intros H rest acc; [reflexivity|].
  cbn [forallb] in H. apply andb_true_iff in H as [Hc Hs].
  cbn [flat_map]. rewrite <- app_assoc.
  rewrite (scanstring_decodes _ _ Hc), (IH Hs).
  cbn [rev]. now rewrite <- app_assoc.
Qed.

Lemma scanstring_encoded (s rest : str) :
  forallb roundtrip_char s = true ->
  json.scanstring (flat_map json.escape_char s ++ 34 :: rest) []
  = json.Scanned s rest.
Proof.
  intros H. rewrite (scanstring_escaped s H). cbn [json.scanstring]. cbn [N.eqb Pos.eqb].
  now rewrite app_nil_r, rev_involutive.
Qed.

Lemma in_range_enum (c : char) (r : N * N) :
  in_range c r = true -> In c (enum_range r).
Proof.
  unfold in_range, enum_range. intros H.
  apply andb_true_iff in H as [H1 H2]. apply N.leb_le in H1, H2.
  apply in_map_iff. exists (N.to_nat (c - fst r)). split; [lia|].
  apply in_seq. lia.
Qed.

Lemma decimal_ranges_roundtrip :
  forallb (fun r => forallb roundtrip_char (enum_range r)) decimal_ranges = true.
Proof. vm_compute. reflexivity. Qed.

Lemma isdecimal_roundtrip (c : char) : isdecimal c = true -> roundtrip_char c = true.
Proof.
  unfold isdecimal. intros H.
  apply existsb_exists in H as (r & Hr & Hc).
  pose proof decimal_ranges_roundtrip as Hall.
  rewrite forallb_forall in Hall. specialize (Hall r Hr).
  rewrite forallb_forall in Hall. apply Hall. now apply in_range_enum.
Qed.

Lemma ascii_digit_isdecimal (d : char) : 48 <= d <= 57 -> isdecimal d = true.
Proof.
  intros H. unfold isdecimal. cbn [decimal_ranges existsb].
  replace (in_range d (48, 57)) with true; [reflexivity|].
  symmetry. apply andb_true_iff; split; apply N.leb_le; cbn; lia.
Qed.

(** Every character of a string the validator accepts survives encoding
    and decoding. *)
Lemma valid_number_roundtrip_chars (p : str) :
  validate_phone_number p = true -> forallb roundtrip_char p = true.
Proof.
  intros H. apply validate_phone_number_spec in H
    as (d & ds & nl & -> & Hd & _ & Hds & Hnl).
  cbn [forallb]. rewrite forallb_app.
  replace (roundtrip_char plus_sign) with true by reflexivity.
  rewrite (isdecimal_roundtrip d) by (apply ascii_digit_isdecimal; lia).
  cbn [andb]. apply andb_true_iff. split.
  - apply forallb_forall. intros c Hc. apply isdecimal_roundtrip.
    rewrite forallb_forall in Hds. now apply Hds.
  - destruct Hnl as [-> | ->]; reflexivity.
Qed.

Ltac step_decoder :=
  cbn [json.scan_once json.parse_object_items json.skip_ws json.is_whitespace
       startswith List.length app N.eqb Pos.eqb orb andb rev].

(** Decoding the text of an object with one string member. *)
Lemma loads_one_member lim (key v : str) :
  forallb roundtrip_char key = true ->
  forallb roundtrip_char v = true ->
  json.loads lim (123 :: 34 :: flat_map json.escape_char key
              ++ 34 :: 58 :: 32 :: 34 :: flat_map json.escape_char v ++ [34; 125])
  = json.Decoded (json.JDict [(key, json.JStr v)]).
Proof.
  intros Hk Hv. unfold json.loads. step_decoder.
  rewrite (scanstring_encoded key _ Hk). step_decoder.
  unfold json.scan_str. rewrite (scanstring_encoded v _ Hv). step_decoder.
  reflexivity.
Qed.

Lemma dumps_one_member (key v : str) :
  json.dumps [(key, v)]
  = 123 :: 34 :: flat_map json.escape_char key
    ++ 34 :: 58 :: 32 :: 34 :: flat_map json.escape_char v ++ [34; 125].
Proof.
  unfold json.dumps, json.encode_basestring_ascii.
  cbn [List.map json.join fst snd].
  change (lit "{") with [123]. change (lit ": ") with [58; 32].
  change (lit "}") with [125].
  repeat (rewrite <- app_assoc; cbn [app]). reflexivity.
Qed.

(** Decoding what [json.dumps] wrote for a dict with the one key
    [phone_number] gives back that dict. *)
Lemma loads_dumps_phone_number lim (p : str) :
  forallb roundtrip_char p = true ->
  json.loads lim (json.dumps [(lit "phone_number", p)])
  = json.Decoded (json.JDict [(lit "phone_number", json.JStr p)]).
Proof.
  intros Hp. rewrite dumps_one_member. now apply loads_one_member.
Qed.

(* ------------------------------------------------------------------ *)
(** ** The worker entrypoint *)

Section WorkerFacts.

Variable W : Type.
Variable perform : forall r : lk.request, W -> (exn + lk.response r) * W.
Variable AGENT_NAME : str.

Variable W' : Type.
Variable perform' : forall r : lk.request, W' -> (exn + lk.response r) * W'.
Variable lim : json.limits.

#[local] Abbreviation dispatch_outbound_call' := (dispatch_outbound_call W perform AGENT_NAME).
#[local] Abbreviation read_voice :=
  (read_phone_number W' lim (print_phone_number W')).
#[local] Abbreviation read_agent :=
  (read_phone_number W' lim (log_phone_number W')).
#[local] Abbreviation voice_agent_entrypoint' := (voice_agent_entrypoint W' perform' lim).
#[local] Abbreviation agent_entrypoint' := (agent_entrypoint W' perform' lim).
#[local] Abbreviation connect := (call perform' lk.CtxConnect).
#[local] Abbreviation start := (call perform' lk.SessionStart).
#[local] Abbreviation fail_greeting :=
  (raise positional_argument_error : M lk.request W' unit).
#[local] Abbreviation fail_on :=
  (raise async_callback_error : M lk.request W' unit).

Lemma voice_agent_entrypoint_after_read metadata v st :
  read_voice metadata st = (inr v, st) ->
  voice_agent_entrypoint' metadata st
  = (connect ;;; start ;;; greet_or_wait W' perform' v) st.
Proof.
  intros H. unfold voice_agent_entrypoint. unfold bind at 1. now rewrite H.
Qed.

(** agent/agent.py never gets past the registration of its handlers. *)
Lemma agent_entrypoint_after_read metadata v st :
  read_agent metadata st = (inr v, st) ->
  agent_entrypoint' metadata st = (connect ;;; start ;;; fail_on) st.
Proof.
  intros H. unfold agent_entrypoint. unfold bind at 1. rewrite H.
  unfold room_on. run_prog.
  destruct (perform' lk.CtxConnect (world st)) as [[e|[]] w1]; [reflexivity|].
  cbn [world trace].
  destruct (perform' lk.SessionStart w1) as [[e|[]] w2]; reflexivity.
Qed.

Lemma entrypoints_when_read_raises metadata e st :
  (read_voice metadata st = (inl e, st) ->
   voice_agent_entrypoint' metadata st = (inl e, st)) /\
  (read_agent metadata st = (inl e, st) ->
   agent_entrypoint' metadata st = (inl e, st)).
Proof.
  split; intros H; unfold voice_agent_entrypoint, agent_entrypoint;
    now rewrite (bind_err _ _ _ _ _ H).
Qed.

(** Reading the metadata changes nothing in the world: it returns a value
    or raises. *)
Lemma read_phone_number_outcome metadata st :
  ((exists v, read_voice metadata st = (inr v, st)) \/
   (exists e, read_voice metadata st = (inl e, st))) /\
  ((exists v, read_agent metadata st = (inr v, st)) \/
   (exists e, read_agent metadata st = (inl e, st))).
Proof.
  unfold read_phone_number, print_phone_number, log_phone_number.
  destruct (PyStr.truthy metadata); [|split; left; eexists; reflexivity].
  destruct (json.loads lim metadata) as [[| | | | | |d]|msg| | |];
    try (split; right; eexists; reflexivity);
    try (split; left; eexists; reflexivity).
  run_prog. split; [|left; eexists; reflexivity].
  destruct (printable _); [left|right]; eexists; reflexivity.
Qed.

Lemma read_phone_number_absent_or_malformed metadata st :
  metadata = [] \/ (exists msg, json.loads lim metadata = json.JSONDecodeError msg) ->
  read_voice metadata st = (inr json.JNull, st) /\
  read_agent metadata st = (inr json.JNull, st).
Proof.
  unfold read_phone_number. intros [-> | [msg H]]; [now split|].
  rewrite H. now destruct (PyStr.truthy metadata).
Qed.

Lemma isdecimal_not_surrogate (c : char) :
  isdecimal c = true -> is_surrogate c = false.
Proof.
  unfold isdecimal. intros H.
  apply existsb_exists in H as (r & Hr & Hc).
  assert (forallb (fun r => (snd r <? 0xD800) || (0xDFFF <? fst r)) decimal_ranges
          = true) as Hall by (vm_compute; reflexivity).
  rewrite forallb_forall in Hall. specialize (Hall r Hr).
  unfold in_range in Hc. apply andb_true_iff in Hc as [H1 H2].
  apply N.leb_le in H1, H2. unfold is_surrogate.
  apply orb_true_iff in Hall as [Hl|Hl]; apply N.ltb_lt in Hl.
  - apply andb_false_iff. left. apply N.leb_gt. lia.
  - apply andb_false_iff. right. apply N.leb_gt. lia.
Qed.

(** A number the validator accepts can be printed. *)
Lemma valid_number_encodable (p : str) :
  validate_phone_number p = true -> encodable p = true.
Proof.
  intros H. apply validate_phone_number_spec in H
    as (d & ds & nl & -> & Hd & _ & Hds & Hnl).
  unfold encodable. cbn [forallb]. rewrite forallb_app.
  replace (is_surrogate plus_sign) with false by reflexivity.
  rewrite (isdecimal_not_surrogate d) by (apply ascii_digit_isdecimal; lia).
  cbn [negb andb]. apply andb_true_iff. split.
  - apply forallb_forall. intros c Hc.
    rewrite forallb_forall in Hds. now rewrite (isdecimal_not_surrogate c (Hds c Hc)).
  - destruct Hnl as [-> | ->]; reflexivity.
Qed.

Lemma read_phone_number_dumped (p : str) st :
  forallb roundtrip_char p = true ->
  encodable p = true ->
  read_voice (json.dumps [(lit "phone_number", p)]) st = (inr (json.JStr p), st) /\
  read_agent (json.dumps [(lit "phone_number", p)]) st = (inr (json.JStr p), st).
Proof.
  intros H He. unfold read_phone_number.
  rewrite (loads_dumps_phone_number lim p H).
  rewrite dumps_one_member. cbn [PyStr.truthy].
  replace (json.dict_get [(lit "phone_number", json.JStr p)] (lit "phone_number"))
    with (json.JStr p) by reflexivity.
  unfold print_phone_number, log_phone_number. cbn [printable]. rewrite He.
  now split.
Qed.

Lemma dispatch_outbound_call_metadata raw room agent w a r m :
  In (lk.CreateAgentDispatchRequest a r m)
     (trace (snd (run (dispatch_outbound_call' raw room agent) w))) ->
  m = json.dumps [(lit "phone_number", format_phone_number raw)].
Proof.
  unfold run, dispatch_outbound_call.
  destruct (validate_phone_number (format_phone_number raw));
    run_prog; [|intros []].
  destruct (opt_truthy room); run_prog.
  - match goal with
    | |- context [perform ?r w] => destruct (perform r w) as [[e|d] w1]
    end; run_prog; try (destruct e); cbn.
    all: intros [H|[]]; now injection H.
  - unfold uuid4_hex8. run_prog.
    destruct (perform (lk.OsUrandom 16) w) as [[e|b] w1]; run_prog.
    { cbn. intros [H|[]]. discriminate H. }
    match goal with
    | |- context [perform ?r w1] => destruct (perform r w1) as [[e|d] w2]
    end; run_prog; try (destruct e); cbn.
    all: intros [H|[H|[]]]; try discriminate H; now injection H.
Qed.

(** Once the number is valid and the random source answers, the dispatch
    request goes out, whatever the platform then answers to it. *)
Lemma dispatch_outbound_call_sends raw room agent w b w1 :
  validate_phone_number (format_phone_number raw) = true ->
  perform (lk.OsUrandom 16) w = (inr b, w1) ->
  exists a r,
    In (lk.CreateAgentDispatchRequest a r
          (json.dumps [(lit "phone_number", format_phone_number raw)]))
       (trace (snd (run (dispatch_outbound_call' raw room agent) w))).
Proof.
  intros Hv Hb. unfold run, dispatch_outbound_call. rewrite Hv. run_prog.
  destruct (opt_truthy room); run_prog.
  - do 2 eexists.
    match goal with
    | |- context [perform ?r w] => destruct (perform r w) as [[e|d] w2]
    end; run_prog; try (destruct e); cbn; left; reflexivity.
  - unfold uuid4_hex8. run_prog. rewrite Hb. run_prog. do 2 eexists.
    match goal with
    | |- context [perform ?r w1] => destruct (perform r w1) as [[e|d] w2]
    end; run_prog; try (destruct e); cbn; right; left; reflexivity.
Qed.

(** Neither entrypoint gets further than the start of the session: the
    requests it issues are an initial part of connect, start. *)
Lemma entrypoint_requests metadata w' :
  (exists k, trace (snd (run (voice_agent_entrypoint' metadata) w'))
             = firstn k [lk.CtxConnect; lk.SessionStart]) /\
  (exists k, trace (snd (run (agent_entrypoint' metadata) w'))
             = firstn k [lk.CtxConnect; lk.SessionStart]).
Proof.
  unfold run.
  destruct (read_phone_number_outcome metadata (mkState w' [])) as [Hv Ha].
  split.
  - destruct Hv as [[v Hv]|[e Hv]].
    + rewrite (voice_agent_entrypoint_after_read _ _ _ Hv).
      unfold greet_or_wait, generate_reply. run_prog.
      destruct (perform' lk.CtxConnect w') as [[e|[]] w1]; run_prog;
        [now exists 1%nat|].
      destruct (perform' lk.SessionStart w1) as [[e|[]] w2]; run_prog;
        [now exists 2%nat|].
      destruct (negb (json.truthy v)); now exists 2%nat.
    + rewrite (proj1 (entrypoints_when_read_raises _ _ _) Hv). now exists 0%nat.
  - destruct Ha as [[v Ha]|[e Ha]].
    + rewrite (agent_entrypoint_after_read _ _ _ Ha). run_prog.
      destruct (perform' lk.CtxConnect w') as [[e|[]] w1]; run_prog;
        [now exists 1%nat|].
      destruct (perform' lk.SessionStart w1) as [[e|[]] w2]; now exists 2%nat.
    + rewrite (proj2 (entrypoints_when_read_raises _ _ _) Ha). now exists 0%nat.
Qed.

Lemma no_greeting_in_prefix k i :
  ~ In (lk.SessionGenerateReply i) (firstn k [lk.CtxConnect; lk.SessionStart]).
Proof.
  destruct k as [|[|[|k]]]; cbn; intros H;
    repeat (destruct H as [H|H]; [discriminate H|]); exact H.
Qed.

(** Text nested one level deeper than the interpreter allows is not
    decoded, and what is raised is not a decode error. *)
Lemma scan_once_too_deep (n : nat) :
  forall fuel rest,
    (n < fuel)%nat ->
    json.scan_once lim fuel n (repeat 91 (S n) ++ rest) = json.TooDeep.
Proof.
  induction n as [|n IH]; intros fuel rest Hf;
    (destruct fuel as [|fuel]; [lia|]).
  - reflexivity.
  - cbn [repeat app json.scan_once N.eqb Pos.eqb json.skip_ws json.is_whitespace orb].
    destruct fuel as [|fuel]; [lia|].
    cbn [json.parse_array_items].
    change (91 :: repeat 91 n ++ rest) with (repeat 91 (S n) ++ rest).
    rewrite IH by lia. reflexivity.
Qed.

Lemma loads_too_deep :
  json.loads lim (repeat 91 (S (S (json.nesting_beyond_first lim))))
  = json.RaisedRecursionError.
Proof.
  unfold json.loads.
  replace (startswith _ [0xFEFF]) with false by reflexivity.
  replace (json.skip_ws (repeat 91 (S (S (json.nesting_beyond_first lim)))))
    with (repeat 91 (S (S (json.nesting_beyond_first lim)))) by reflexivity.
  cbv zeta.
  rewrite <- (app_nil_r (repeat 91 (S (S (json.nesting_beyond_first lim))))) at 2.
  rewrite scan_once_too_deep; [reflexivity|].
  rewrite repeat_length. lia.
Qed.

(** C1 (the code departs from the claim).  The first half holds: for a
    valid number, the dispatch requester sends the serialized dict with the
    normalized number as metadata, and only that; the worker reads the same
    number back from it, and voice_agent.py then connects, starts the
    session and stays silent.  The second half does not: with no metadata
    the worker takes the inbound branch, but the greeting is passed to
    [generate_reply] as a positional argument, so what follows the start
    of the session is a [TypeError]; agent/agent.py fails with
    [ValueError] on registering its handlers, whatever the metadata; and
    no run of either entrypoint ever asks for a greeting. *)
Theorem dispatched_number_recovered_greeting_never_sent
  raw room agent w b w1 w' :
  let p := format_phone_number raw in
  let metadata := json.dumps [(lit "phone_number", p)] in
  let sent := trace (snd (run (dispatch_outbound_call' raw room agent) w)) in
  validate_phone_number p = true ->
  perform (lk.OsUrandom 16) w = (inr b, w1) ->
  (exists a r, In (lk.CreateAgentDispatchRequest a r metadata) sent) /\
  (forall a r m, In (lk.CreateAgentDispatchRequest a r m) sent -> m = metadata) /\
  run (read_voice metadata) w' = (inr (json.JStr p), mkState w' []) /\
  run (read_agent metadata) w' = (inr (json.JStr p), mkState w' []) /\
  run (voice_agent_entrypoint' metadata) w' = run (connect ;;; start ;;; ret tt) w' /\
  run (agent_entrypoint' metadata) w' = run (connect ;;; start ;;; fail_on) w' /\
  run (voice_agent_entrypoint' []) w' = run (connect ;;; start ;;; fail_greeting) w' /\
  run (agent_entrypoint' []) w' = run (connect ;;; start ;;; fail_on) w' /\
  (forall any i,
     ~ In (lk.SessionGenerateReply i)
          (trace (snd (run (voice_agent_entrypoint' any) w'))) /\
     ~ In (lk.SessionGenerateReply i)
          (trace (snd (run (agent_entrypoint' any) w')))).
Proof.
  intros p metadata sent Hv Hb. subst metadata sent.
  pose proof (valid_number_roundtrip_chars p Hv) as Hp.
  pose proof (valid_number_encodable p Hv) as He.
  assert (json.truthy (json.JStr p) = true) as Ht.
  { apply validate_phone_number_spec in Hv as (d & ds & nl & E & _). now rewrite E. }
  destruct (read_phone_number_dumped p (mkState w' []) Hp He) as [Hrv Hra].
  split; [exact (dispatch_outbound_call_sends raw room agent w b w1 Hv Hb)|].
  split; [intros a r m; apply dispatch_outbound_call_metadata|].
  split; [exact Hrv|]. split; [exact Hra|].
  split; [|split; [|split; [|split]]].
  - unfold run. rewrite (voice_agent_entrypoint_after_read _ _ _ Hrv).
    unfold greet_or_wait. rewrite Ht. reflexivity.
  - unfold run. now rewrite (agent_entrypoint_after_read _ _ _ Hra).
  - unfold run.
    now rewrite (voice_agent_entrypoint_after_read [] json.JNull (mkState w' []) eq_refl).
  - unfold run.
    now rewrite (agent_entrypoint_after_read [] json.JNull (mkState w' []) eq_refl).
  - intros any i.
    destruct (entrypoint_requests any w') as [[k ->] [k' ->]].
    split; apply no_greeting_in_prefix.
Qed.

(** C6 (the code departs from the claim).  Metadata that is absent, or
    that the decoder rejects with a decode error, does leave the worker
    without a phone number, as for an inbound call; but the inbound branch
    then fails, in voice_agent.py on the greeting and in agent/agent.py on
    the registration of the handlers.  Other malformed metadata is not
    caught at all and stops the worker before it connects: text that
    decodes to something other than a dict, such as a list, and text
    nested deeper than the interpreter allows. *)
Theorem malformed_metadata_not_tolerated metadata w' :
  metadata = [] \/ (exists msg, json.loads lim metadata = json.JSONDecodeError msg) ->
  let too_deep := repeat 91 (S (S (json.nesting_beyond_first lim))) in
  run (read_voice metadata) w' = (inr json.JNull, mkState w' []) /\
  run (read_agent metadata) w' = (inr json.JNull, mkState w' []) /\
  run (voice_agent_entrypoint' metadata) w'
  = run (connect ;;; start ;;; fail_greeting) w' /\
  run (agent_entrypoint' metadata) w' = run (connect ;;; start ;;; fail_on) w' /\
  run (voice_agent_entrypoint' (lit "[1, 2]")) w'
  = (inl not_a_dict_error, mkState w' []) /\
  run (agent_entrypoint' (lit "[1, 2]")) w' = (inl not_a_dict_error, mkState w' []) /\
  run (voice_agent_entrypoint' too_deep) w' = (inl RecursionError, mkState w' []) /\
  run (agent_entrypoint' too_deep) w' = (inl RecursionError, mkState w' []).
Proof.
  intros H too_deep. unfold run.
  destruct (read_phone_number_absent_or_malformed metadata (mkState w' []) H)
    as [Hrv Hra].
  split; [exact Hrv|]. split; [exact Hra|].
  split; [now rewrite (voice_agent_entrypoint_after_read _ _ _ Hrv)|].
  split; [now rewrite (agent_entrypoint_after_read _ _ _ Hra)|].
  assert (forall announce,
             read_phone_number W' lim announce (lit "[1, 2]") (mkState w' [])
             = (inl not_a_dict_error, mkState w' [])) as Hlist by reflexivity.
  assert (forall announce,
             read_phone_number W' lim announce too_deep (mkState w' [])
             = (inl RecursionError, mkState w' [])) as Hdeep.
  { intros announce. unfold read_phone_number, too_deep.
    now rewrite loads_too_deep. }
  split; [apply (proj1 (entrypoints_when_read_raises _ _ _)), Hlist|].
  split; [apply (proj2 (entrypoints_when_read_raises _ _ _)), Hlist|].
  split; [apply (proj1 (entrypoints_when_read_raises _ _ _)), Hdeep|].
  apply (proj2 (entrypoints_when_read_raises _ _ _)), Hdeep.
Qed.

End WorkerFacts.

Lemma dispatched_number_recovered_greeting_never_sent_witness :
  (exists a r,
     In (lk.CreateAgentDispatchRequest a r
           (json.dumps [(lit "phone_number", lit "+14155551234")]))
        (trace (snd (run (dispatch_outbound_call N lk_accepting (lit "telephony-agent")
                            (lit "+1 (415) 555-1234") None None) 0)))) /\
  run (voice_agent_entrypoint N lk_accepting default_limits
         (json.dumps [(lit "phone_number", lit "+14155551234")])) 0
  = (inr tt, mkState 0 [lk.CtxConnect; lk.SessionStart]) /\
  run (voice_agent_entrypoint N lk_accepting default_limits []) 0
  = (inl positional_argument_error, mkState 0 [lk.CtxConnect; lk.SessionStart]) /\
  run (agent_entrypoint N lk_accepting default_limits []) 0
  = (inl async_callback_error, mkState 0 [lk.CtxConnect; lk.SessionStart]).
Proof.
  destruct (dispatched_number_recovered_greeting_never_sent
              N lk_accepting (lit "telephony-agent") N lk_accepting default_limits
              (lit "+1 (415) 555-1234") None None 0 0 1 0 eq_refl eq_refl)
    as (Hs & _ & _ & _ & Hv & _ & Hg & Ha & _).
  split; [exact Hs|].
  split; [exact (eq_trans Hv eq_refl)|].
  split; [exact (eq_trans Hg eq_refl)|exact (eq_trans Ha eq_refl)].
Defined.

Lemma malformed_metadata_not_tolerated_witness :
  json.loads default_limits (lit "{phone_number")
  = json.JSONDecodeError "Expecting property name enclosed in double quotes" /\
  run (voice_agent_entrypoint N lk_accepting default_limits (lit "{phone_number")) 0
  = (inl positional_argument_error, mkState 0 [lk.CtxConnect; lk.SessionStart]) /\
  run (agent_entrypoint N lk_accepting default_limits (lit "{phone_number")) 0
  = (inl async_callback_error, mkState 0 [lk.CtxConnect; lk.SessionStart]) /\
  run (voice_agent_entrypoint N lk_accepting default_limits (lit "[1, 2]")) 0
  = (inl not_a_dict_error, mkState 0 []).
Proof.
  split; [reflexivity|].
  destruct (malformed_metadata_not_tolerated N lk_accepting default_limits
              (lit "{phone_number") 0
              (or_intror (ex_intro _ _ eq_refl)))
    as (_ & _ & Hv & Ha & Hl & _).
  split; [exact (eq_trans Hv eq_refl)|].
  split; [exact (eq_trans Ha eq_refl)|exact Hl].
Defined.

(* ------------------------------------------------------------------ *)
(** ** The account store *)

Lemma existsb_map {A B} (f : B -> bool) (g : A -> B) (l : list A) :
  existsb f (List.map g l) = existsb (fun x => f (g x)) l.
Proof. induction l as [|x l IH]; simpl; [reflexivity|]. now rewrite IH. Qed.

Lemma existsb_app_l {A} (f : A -> bool) (l l' : list A) :
  existsb f l = true -> existsb f (l ++ l') = true.
Proof. intros H. rewrite existsb_app, H. reflexivity. Qed.

Lemma find_app_r {A} (p : A -> bool) (l l' : list A) :
  find p l = None -> find p (l ++ l') = find p l'.
Proof.
  induction l as [|y l IH]; simpl; [reflexivity|].
  destruct (p y); [discriminate|auto].
Qed.

Lemma find_map {A B} (p : B -> bool) (g : A -> B) (l : list A) :
  find p (List.map g l) = option_map g (find (fun x => p (g x)) l).
Proof.
  induction l as [|x l IH]; simpl; [reflexivity|].
  destruct (p (g x)); [reflexivity|apply IH].
Qed.

Lemma update_first_find {A} (p : A -> bool) (f : A -> A) (l : list A) :
  (forall x, p (f x) = p x) ->
  match find p l with
  | Some x => exists l',
      account.update_first p f l = Some l' /\ find p l' = Some (f x)
  | None => account.update_first p f l = None
  end.
Proof.
  intros Hp. induction l as [|y l IH]; simpl; [reflexivity|].
  destruct (p y) eqn:Ey.
  - exists (f y :: l). split; [reflexivity|]. simpl. now rewrite Hp, Ey.
  - destruct (find p l) as [x|].
    + destruct IH as (l' & -> & Hf). exists (y :: l'). split; [reflexivity|].
      simpl. now rewrite Ey.
    + now rewrite IH.
Qed.

Lemma update_first_map {A B} (p : A -> bool) (f : A -> A) (g : A -> B)
      (l l' : list A) :
  (forall x, g (f x) = g x) ->
  account.update_first p f l = Some l' -> List.map g l' = List.map g l.
Proof.
  intros Hg. revert l'. induction l as [|y l IH]; intros l' H; simpl in H;
    [discriminate|].
  destruct (p y).
  - injection H as <-. simpl. now rewrite Hg.
  - destruct (account.update_first p f l) as [r|]; [|discriminate].
    injection H as <-. simpl. now rewrite (IH r eq_refl).
Qed.

Lemma is_trunk_grows trunk_sid f tr :
  grows f -> account.is_trunk trunk_sid (f tr) = account.is_trunk trunk_sid tr.
Proof. intros Hf. unfold account.is_trunk. now rewrite (proj1 (Hf tr)). Qed.

Lemma grows_add_credential_list sid : grows (account.add_credential_list sid).
Proof.
  intros tr. cbn. repeat split; eauto; exists []; now rewrite app_nil_r.
Qed.

Lemma grows_add_origination_url u : grows (account.add_origination_url u).
Proof.
  intros tr. cbn. repeat split; eauto; exists []; now rewrite app_nil_r.
Qed.

Lemma grows_add_phone_number n : grows (account.add_phone_number n).
Proof.
  intros tr. cbn. repeat split; eauto; exists []; now rewrite app_nil_r.
Qed.

Section GrowingTrunk.

Variable trunk_sid : option str.
Variable f : account.trunk -> account.trunk.
Variable ts ts' : list account.trunk.
Hypothesis Hf : grows f.
Hypothesis Hts : account.update_first (account.is_trunk trunk_sid) f ts = Some ts'.

Lemma grown_trunk :
  exists tr, find (account.is_trunk trunk_sid) ts = Some tr /\
             find (account.is_trunk trunk_sid) ts' = Some (f tr).
Proof.
  pose proof (update_first_find (account.is_trunk trunk_sid) f ts
                (fun x => is_trunk_grows trunk_sid f x Hf)) as H.
  destruct (find (account.is_trunk trunk_sid) ts) as [tr|].
  - destruct H as (l' & E & Hl'). rewrite Hts in E. injection E as <-.
    now exists tr.
  - rewrite Hts in H. discriminate H.
Qed.

Lemma grown_keeps_association sid :
  has_association trunk_sid ts sid -> has_association trunk_sid ts' sid.
Proof.
  intros H tr' Htr'. destruct grown_trunk as (tr & E & E').
  rewrite E' in Htr'. injection Htr' as <-.
  destruct (Hf tr) as (_ & [l ->] & _). apply existsb_app_l. now apply H.
Qed.

Lemma grown_keeps_origination_url :
  has_origination_url trunk_sid ts -> has_origination_url trunk_sid ts'.
Proof.
  intros H tr' Htr'. destruct grown_trunk as (tr & E & E').
  rewrite E' in Htr'. injection Htr' as <-.
  destruct (Hf tr) as (_ & _ & [l ->] & _). apply existsb_app_l. now apply H.
Qed.

End GrowingTrunk.

(* ------------------------------------------------------------------ *)
(** ** The update workflow on the account store *)

Section UpdateWorkflow.

Variable str_lower : str -> str.
Variable TWILIO_ACCOUNT_SID : option str.
Variable TWILIO_AUTH_TOKEN : option str.
Variable TWILIO_PHONE_NUMBER : option str.
Variable TWILIO_SIP_TRUNK_SID : option str.
Variable TWILIO_SIP_USERNAME : option str.
Variable TWILIO_SIP_PASSWORD : option str.

Hypothesis lower_literal :
  contains (lit "livekit") (str_lower (lit "LiveKit SIP Credentials")) = true.

#[local] Abbreviation setup_credential_list' :=
  (setup_credential_list account.t account.perform str_lower).
#[local] Abbreviation add_credentials' :=
  (add_credentials account.t account.perform TWILIO_SIP_USERNAME TWILIO_SIP_PASSWORD).
#[local] Abbreviation associate_credential_list' :=
  (associate_credential_list account.t account.perform TWILIO_SIP_TRUNK_SID).
#[local] Abbreviation add_origination_url' :=
  (add_origination_url account.t account.perform TWILIO_SIP_TRUNK_SID).
#[local] Abbreviation associate_phone_number' :=
  (associate_phone_number account.t account.perform TWILIO_PHONE_NUMBER
     TWILIO_SIP_TRUNK_SID).
#[local] Abbreviation update' :=
  (update_twilio_trunk_auto account.t account.perform str_lower
     TWILIO_ACCOUNT_SID TWILIO_AUTH_TOKEN TWILIO_PHONE_NUMBER
     TWILIO_SIP_TRUNK_SID TWILIO_SIP_USERNAME TWILIO_SIP_PASSWORD).
#[local] Abbreviation trunk := TWILIO_SIP_TRUNK_SID.

Ltac run_store :=
  unfold bind, try_except, call, ret, raise;
  cbn [world trace fst snd negb app is_Exception account.perform];
  unfold account.of_trunk, account.on_trunk, account.not_found;
  cbn [world trace fst snd negb app is_Exception].

(** *** Create or get credential list *)

Lemma setup_credential_list_settled a tr L :
  has_livekit_list str_lower (account.credential_lists a) L ->
  setup_credential_list' (mkState a tr)
  = (inr L, mkState a (tr ++ [tw.CredentialListsList])).
Proof.
  intros H. unfold setup_credential_list. run_store.
  unfold has_livekit_list, list_view in H. now rewrite H.
Qed.

Lemma setup_credential_list_run a tr :
  exists L a1 reqs,
    setup_credential_list' (mkState a tr) = (inr L, mkState a1 (tr ++ reqs)) /\
    has_livekit_list str_lower (account.credential_lists a1) L /\
    account.trunks a1 = account.trunks a /\
    account.incoming_phone_numbers a1 = account.incoming_phone_numbers a.
Proof.
  destruct (find (names_livekit str_lower)
                 (List.map list_view (account.credential_lists a))) as [L|] eqn:E.
  - exists L, a, [tw.CredentialListsList]. split; [|now repeat split].
    now apply setup_credential_list_settled.
  - unfold setup_credential_list. run_store.
    unfold list_view in E. rewrite E. run_store.
    do 3 eexists. split; [rewrite <- app_assoc; reflexivity|].
    split; [|split; reflexivity].
    unfold has_livekit_list. cbn [account.credential_lists account.bump
                                  account.with_credential_lists].
    rewrite map_app, (find_app_r _ _ _ E). cbn [List.map find list_view].
    unfold names_livekit at 1.
    cbn [tw.cl_friendly_name account.cl_friendly_name list_view].
    now rewrite lower_literal.
Qed.

Lemma livekit_list_exists cls L :
  has_livekit_list str_lower cls L ->
  exists cl, find (account.is_list (tw.cl_sid L)) cls = Some cl.
Proof.
  unfold has_livekit_list. rewrite find_map. intros H.
  destruct (find _ cls) as [x|] eqn:E; [|discriminate H].
  injection H as <-. apply find_some in E as [Hin _].
  destruct (find (account.is_list (tw.cl_sid (list_view x))) cls) as [cl|] eqn:E';
    [now exists cl|].
  exfalso. apply (find_none _ _ E') in Hin.
  unfold account.is_list, list_view in Hin. cbn in Hin.
  now rewrite eqb_refl in Hin.
Qed.

(** *** Add credentials *)

Lemma add_credentials_settled a tr L :
  has_credential TWILIO_SIP_USERNAME (account.credential_lists a) (tw.cl_sid L) ->
  add_credentials' L (mkState a tr)
  = (inr tt, mkState a (tr ++ [tw.CredentialsList (tw.cl_sid L)])).
Proof.
  intros (cl & Hcl & Hc). unfold add_credentials. run_store.
  rewrite Hcl. run_store. rewrite existsb_map. cbn [tw.username].
  rewrite Hc. reflexivity.
Qed.

Lemma add_credentials_run a tr L :
  has_livekit_list str_lower (account.credential_lists a) L ->
  exists a2 reqs,
    add_credentials' L (mkState a tr) = (inr tt, mkState a2 (tr ++ reqs)) /\
    has_livekit_list str_lower (account.credential_lists a2) L /\
    has_credential TWILIO_SIP_USERNAME (account.credential_lists a2) (tw.cl_sid L) /\
    account.trunks a2 = account.trunks a /\
    account.incoming_phone_numbers a2 = account.incoming_phone_numbers a.
Proof.
  intros HL. destruct (livekit_list_exists _ _ HL) as [cl Hcl].
  destruct (existsb (fun c => opt_str_eqb (account.c_username c) TWILIO_SIP_USERNAME)
                    (account.cl_credentials cl)) eqn:Hc.
  - exists a, [tw.CredentialsList (tw.cl_sid L)].
    assert (has_credential TWILIO_SIP_USERNAME (account.credential_lists a)
                           (tw.cl_sid L)) as H by now exists cl.
    split; [now apply add_credentials_settled|]. now repeat split.
  - unfold add_credentials. run_store.
    rewrite Hcl. run_store. rewrite existsb_map. cbn [tw.username].
    rewrite Hc. run_store.
    set (c := {| account.c_username := TWILIO_SIP_USERNAME;
                 account.c_password := TWILIO_SIP_PASSWORD |}).
    pose proof (update_first_find (account.is_list (tw.cl_sid L))
                  (account.add_credential c) (account.credential_lists a)
                  (fun x => eq_refl)) as Hu.
    rewrite Hcl in Hu. destruct Hu as (cls' & Hu & Hf).
    rewrite Hu. run_store.
    do 2 eexists. split; [rewrite <- app_assoc; reflexivity|].
    cbn [account.credential_lists account.with_credential_lists
         account.trunks account.incoming_phone_numbers].
    split; [|split; [|split; reflexivity]].
    + unfold has_livekit_list in *.
      now rewrite (update_first_map _ (account.add_credential c) list_view _ _
                     (fun x => eq_refl) Hu).
    + exists (account.add_credential c cl). split; [exact Hf|].
      cbn [account.cl_credentials account.add_credential].
      rewrite existsb_app. cbn [existsb c account.c_username].
      replace (opt_str_eqb TWILIO_SIP_USERNAME TWILIO_SIP_USERNAME) with true
        by (symmetry; now apply opt_str_eqb_eq).
      now rewrite orb_true_r.
Qed.

(** *** Associate credential list with trunk *)

Lemma associate_credential_list_settled a tr L :
  has_association trunk (account.trunks a) (tw.cl_sid L) ->
  associate_credential_list' L (mkState a tr)
  = (inr tt, mkState a (tr ++ [tw.TrunkCredentialListsList trunk])).
Proof.
  intros H. unfold associate_credential_list. run_store.
  destruct (find (account.is_trunk trunk) (account.trunks a)) as [tr0|] eqn:E;
    run_store; [|reflexivity].
  rewrite existsb_map. cbn [tw.tcl_sid]. now rewrite (H tr0 E).
Qed.

Lemma associate_credential_list_run a tr L :
  exists a3 reqs,
    associate_credential_list' L (mkState a tr) = (inr tt, mkState a3 (tr ++ reqs)) /\
    account.credential_lists a3 = account.credential_lists a /\
    account.incoming_phone_numbers a3 = account.incoming_phone_numbers a /\
    has_association trunk (account.trunks a3) (tw.cl_sid L).
Proof.
  destruct (find (account.is_trunk trunk) (account.trunks a)) as [tr0|] eqn:E.
  2: { assert (has_association trunk (account.trunks a) (tw.cl_sid L)) as H
         by (intros tr0 H; rewrite E in H; discriminate H).
       exists a. eexists. split; [now apply associate_credential_list_settled|].
       now repeat split. }
  destruct (existsb (fun s => PyStr.eqb s (tw.cl_sid L))
                    (account.t_credential_lists tr0)) eqn:Ha.
  { assert (has_association trunk (account.trunks a) (tw.cl_sid L)) as H
      by (intros tr1 H; rewrite E in H; now injection H as <-).
    exists a. eexists. split; [now apply associate_credential_list_settled|].
    now repeat split. }
  unfold associate_credential_list. run_store. rewrite E. run_store.
  rewrite existsb_map. cbn [tw.tcl_sid]. rewrite Ha. run_store.
  pose proof (update_first_find (account.is_trunk trunk)
                (account.add_credential_list (tw.cl_sid L)) (account.trunks a)
                (fun x => eq_refl)) as Hu.
  rewrite E in Hu. destruct Hu as (ts' & Hu & Hf). rewrite Hu. run_store.
  do 2 eexists. split; [rewrite <- app_assoc; reflexivity|].
  cbn [account.credential_lists account.with_trunks account.trunks
       account.incoming_phone_numbers].
  split; [reflexivity|]. split; [reflexivity|].
  intros tr1 H1. rewrite Hf in H1. injection H1 as <-.
  cbn [account.t_credential_lists account.add_credential_list].
  rewrite existsb_app. cbn [existsb]. now rewrite eqb_refl, orb_true_r.
Qed.

(** *** Add origination URL *)

Lemma add_origination_url_settled a tr :
  has_origination_url trunk (account.trunks a) ->
  add_origination_url' (mkState a tr)
  = (match find (account.is_trunk trunk) (account.trunks a) with
     | Some _ => inr tt
     | None => inl account.not_found
     end, mkState a (tr ++ [tw.OriginationUrlsList trunk])).
Proof.
  intros H. unfold add_origination_url. run_store.
  destruct (find (account.is_trunk trunk) (account.trunks a)) as [tr0|] eqn:E;
    run_store; [|reflexivity].
  rewrite existsb_map. cbn [tw.sip_url]. now rewrite (H tr0 E).
Qed.

Lemma add_origination_url_run a tr :
  exists a4 reqs r,
    add_origination_url' (mkState a tr) = (r, mkState a4 (tr ++ reqs)) /\
    account.credential_lists a4 = account.credential_lists a /\
    account.incoming_phone_numbers a4 = account.incoming_phone_numbers a /\
    (forall sid, has_association trunk (account.trunks a) sid ->
                 has_association trunk (account.trunks a4) sid) /\
    has_origination_url trunk (account.trunks a4) /\
    ((r = inr tt /\ exists tr0, find (account.is_trunk trunk) (account.trunks a4) = Some tr0)
     \/ (r = inl account.not_found /\
         find (account.is_trunk trunk) (account.trunks a4) = None)).
Proof.
  destruct (find (account.is_trunk trunk) (account.trunks a)) as [tr0|] eqn:E.
  2: { assert (has_origination_url trunk (account.trunks a)) as H
         by (intros tr0 H; rewrite E in H; discriminate H).
       exists a. do 2 eexists.
       split; [now apply add_origination_url_settled|].
       rewrite E. repeat split; auto. }
  destruct (existsb (fun u => contains LIVEKIT_SIP_URI (account.ou_sip_url u))
                    (account.t_origination_urls tr0)) eqn:Ha.
  { assert (has_origination_url trunk (account.trunks a)) as H
      by (intros tr1 H; rewrite E in H; now injection H as <-).
    exists a. do 2 eexists.
    split; [now apply add_origination_url_settled|].
    rewrite E. repeat split; auto. left. split; [reflexivity|now exists tr0]. }
  unfold add_origination_url. run_store. rewrite E. run_store.
  rewrite existsb_map. cbn [tw.sip_url]. rewrite Ha. run_store.
  set (u := {| account.ou_friendly_name := lit "LiveKit SIP URI";
               account.ou_sip_url := LIVEKIT_SIP_URI;
               account.ou_priority := 1; account.ou_weight := 1;
               account.ou_enabled := true |}).
  pose proof (update_first_find (account.is_trunk trunk)
                (account.add_origination_url u) (account.trunks a)
                (fun x => eq_refl)) as Hu.
  rewrite E in Hu. destruct Hu as (ts' & Hu & Hf). rewrite Hu. run_store.
  do 3 eexists. split; [rewrite <- app_assoc; reflexivity|].
  cbn [account.credential_lists account.with_trunks account.trunks
       account.incoming_phone_numbers].
  split; [reflexivity|]. split; [reflexivity|]. split; [|split].
  - intros sid. apply (grown_keeps_association trunk _ _ _
                         (grows_add_origination_url u) Hu).
  - intros tr1 H1. rewrite Hf in H1. injection H1 as <-.
    cbn [account.t_origination_urls account.add_origination_url].
    rewrite existsb_app. cbn [existsb u account.ou_sip_url].
    now rewrite contains_self, orb_true_r.
  - left. split; [reflexivity|]. eauto.
Qed.

(** *** Associate phone number *)

Lemma find_by_sid (l : list tw.PhoneNumber) (x : tw.PhoneNumber) :
  NoDup (List.map tw.pn_sid l) -> In x l ->
  find (fun n => PyStr.eqb (tw.pn_sid n) (tw.pn_sid x)) l = Some x.
Proof.
  induction l as [|y l IH]; intros Hnd Hin; [destruct Hin|].
  cbn [List.map] in Hnd. apply NoDup_cons_iff in Hnd as [Hy Hnd].
  cbn [find]. destruct (PyStr.eqb (tw.pn_sid y) (tw.pn_sid x)) eqn:Ey.
  - destruct Hin as [->|Hin]; [reflexivity|].
    exfalso. apply Hy. apply eqb_eq in Ey. rewrite Ey. now apply in_map.
  - destruct Hin as [->|Hin]; [now rewrite eqb_refl in Ey|]. now apply IH.
Qed.

Lemma associate_phone_number_settled a tr :
  (opt_truthy TWILIO_PHONE_NUMBER = true ->
   has_phone_number trunk TWILIO_PHONE_NUMBER (account.trunks a)
                    (account.incoming_phone_numbers a)) ->
  exists reqs r,
    associate_phone_number' (mkState a tr) = (r, mkState a (tr ++ reqs)) /\
    existsb tw.is_create reqs = false.
Proof.
  intros H. unfold associate_phone_number.
  destruct (opt_truthy TWILIO_PHONE_NUMBER);
    [specialize (H eq_refl)|exists [], (inr tt); now rewrite app_nil_r].
  run_store.
  destruct (find (account.is_trunk trunk) (account.trunks a)) as [tr0|] eqn:E;
    run_store; [|now do 2 eexists].
  destruct (existsb _ (account.t_phone_numbers tr0)) eqn:Ha; run_store;
    [now do 2 eexists|].
  destruct (H tr0 E) as [Hn|Hn]; [congruence|].
  rewrite Hn. do 2 eexists. rewrite <- app_assoc. split; reflexivity.
Qed.

Lemma associate_phone_number_run a tr tr0 :
  find (account.is_trunk trunk) (account.trunks a) = Some tr0 ->
  NoDup (List.map tw.pn_sid (account.incoming_phone_numbers a)) ->
  exists a5 reqs,
    associate_phone_number' (mkState a tr) = (inr tt, mkState a5 (tr ++ reqs)) /\
    account.credential_lists a5 = account.credential_lists a /\
    account.incoming_phone_numbers a5 = account.incoming_phone_numbers a /\
    (forall sid, has_association trunk (account.trunks a) sid ->
                 has_association trunk (account.trunks a5) sid) /\
    (has_origination_url trunk (account.trunks a) ->
     has_origination_url trunk (account.trunks a5)) /\
    (opt_truthy TWILIO_PHONE_NUMBER = true ->
     has_phone_number trunk TWILIO_PHONE_NUMBER (account.trunks a5)
                      (account.incoming_phone_numbers a5)).
Proof.
  intros E Hnd. unfold associate_phone_number.
  destruct (opt_truthy TWILIO_PHONE_NUMBER).
  2: { exists a, []. rewrite app_nil_r. repeat split; auto. discriminate. }
  run_store. rewrite E. run_store.
  destruct (existsb _ (account.t_phone_numbers tr0)) eqn:Ha; run_store.
  { exists a. eexists. split; [reflexivity|]. repeat split; auto.
    intros _ tr1 H1. rewrite E in H1. injection H1 as <-. now left. }
  destruct (filter _ (account.incoming_phone_numbers a)) as [|first rest] eqn:Ef;
    run_store.
  { exists a. eexists. split; [rewrite <- app_assoc; reflexivity|].
    repeat split; auto. intros _ tr1 H1. now right. }
  assert (In first (account.incoming_phone_numbers a) /\
          opt_str_eqb (Some (tw.pn_phone_number first)) TWILIO_PHONE_NUMBER = true)
    as [Hin Hfirst].
  { apply filter_In with (f := fun n => opt_str_eqb (Some (tw.pn_phone_number n))
                                                    TWILIO_PHONE_NUMBER).
    rewrite Ef. now left. }
  rewrite (find_by_sid _ _ Hnd Hin).
  pose proof (update_first_find (account.is_trunk trunk)
                (account.add_phone_number first) (account.trunks a)
                (fun x => eq_refl)) as Hu.
  rewrite E in Hu. destruct Hu as (ts' & Hu & Hf). rewrite Hu. run_store.
  do 2 eexists. split; [repeat rewrite <- app_assoc; reflexivity|].
  cbn [account.credential_lists account.with_trunks account.trunks
       account.incoming_phone_numbers].
  split; [reflexivity|]. split; [reflexivity|]. split; [|split].
  - intros sid. apply (grown_keeps_association trunk _ _ _
                         (grows_add_phone_number first) Hu).
  - apply (grown_keeps_origination_url trunk _ _ _
             (grows_add_phone_number first) Hu).
  - intros _ tr1 H1. rewrite Hf in H1. injection H1 as <-. left.
    cbn [account.t_phone_numbers account.add_phone_number].
    rewrite existsb_app. cbn [existsb]. now rewrite Hfirst, orb_true_r.
Qed.

(** *** The whole script *)

#[local] Abbreviation settled' :=
  (settled str_lower TWILIO_SIP_USERNAME TWILIO_SIP_TRUNK_SID TWILIO_PHONE_NUMBER).
#[local] Abbreviation client_ok :=
  (opt_truthy TWILIO_ACCOUNT_SID && opt_truthy TWILIO_AUTH_TOKEN).

Lemma client_run a tr :
  call account.perform (tw.Client TWILIO_ACCOUNT_SID TWILIO_AUTH_TOKEN) (mkState a tr)
  = (if client_ok then inr tt else inl (PlatformError 401),
     mkState a (tr ++ [tw.Client TWILIO_ACCOUNT_SID TWILIO_AUTH_TOKEN])).
Proof. unfold call. cbn. now destruct client_ok. Qed.

Lemma try_except_exit {A} (m : M tw.request account.t A) st r st' code :
  m st = (r, st') ->
  exists r', try_except m (fun e => raise (SystemExit code)) st = (r', st').
Proof.
  intros H. unfold try_except, raise. rewrite H.
  destruct r as [e|x]; [destruct (is_Exception e)|]; eauto.
Qed.

Lemma update_settled a tr :
  client_ok = false \/ (exists L, settled' a L) ->
  exists reqs r,
    update' (mkState a tr) = (r, mkState a (tr ++ reqs)) /\
    existsb tw.is_create reqs = false.
Proof.
  intros H. unfold update_twilio_trunk_auto.
  pose proof (client_run a tr) as Hc.
  destruct client_ok eqn:Ec.
  2: { unfold try_except. rewrite (bind_err _ _ _ _ _ Hc).
       cbn [is_Exception]. unfold raise. do 2 eexists. split; reflexivity. }
  destruct H as [H|[L (H1 & H2 & H3 & H4 & H5)]]; [discriminate H|].
  match goal with
  | |- exists reqs r, try_except ?m _ _ = _ /\ _ =>
      assert (exists reqs r, m (mkState a tr) = (r, mkState a (tr ++ reqs)) /\
                             existsb tw.is_create reqs = false) as (reqs & r & Hm & Hn)
  end.
  2: { destruct (try_except_exit _ _ _ _ 1 Hm) as [r' Hr']. rewrite Hr'. eauto. }
  rewrite (bind_ok _ _ _ _ _ Hc). cbv beta zeta.
  rewrite (bind_ok _ _ _ _ _ (setup_credential_list_settled a _ L H1)).
  rewrite (bind_ok _ _ _ _ _ (add_credentials_settled a _ L H2)).
  rewrite (bind_ok _ _ _ _ _ (associate_credential_list_settled a _ L H3)).
  pose proof (add_origination_url_settled a
                ((((tr ++ [tw.Client TWILIO_ACCOUNT_SID TWILIO_AUTH_TOKEN])
                   ++ [tw.CredentialListsList])
                  ++ [tw.CredentialsList (tw.cl_sid L)])
                 ++ [tw.TrunkCredentialListsList trunk]) H4) as Hu.
  destruct (find (account.is_trunk trunk) (account.trunks a)).
  - rewrite (bind_ok _ _ _ _ _ Hu).
    match goal with
    | |- context [mkState a ?t] =>
        destruct (associate_phone_number_settled a t H5) as (reqs & r & Hp & Hn)
    end.
    rewrite Hp. repeat rewrite <- app_assoc. do 2 eexists.
    split; [reflexivity|]. cbn [app existsb tw.is_create orb]. exact Hn.
  - rewrite (bind_err _ _ _ _ _ Hu). repeat rewrite <- app_assoc.
    do 2 eexists. split; reflexivity.
Qed.

Lemma update_run a tr :
  NoDup (List.map tw.pn_sid (account.incoming_phone_numbers a)) ->
  exists r a1 reqs,
    update' (mkState a tr) = (r, mkState a1 (tr ++ reqs)) /\
    (client_ok = false \/ exists L, settled' a1 L).
Proof.
  intros Hnd. unfold update_twilio_trunk_auto.
  pose proof (client_run a tr) as Hc.
  destruct client_ok eqn:Ec.
  2: { unfold try_except. rewrite (bind_err _ _ _ _ _ Hc).
       cbn [is_Exception]. unfold raise. do 3 eexists.
       split; [reflexivity|now left]. }
  match goal with
  | |- exists r a1 reqs, try_except ?m _ _ = _ /\ _ =>
      assert (exists r a1 reqs,
                 m (mkState a tr) = (r, mkState a1 (tr ++ reqs)) /\
                 exists L, settled' a1 L) as (r & a1 & reqs & Hm & Hs)
  end.
  2: { destruct (try_except_exit _ _ _ _ 1 Hm) as [r' Hr']. rewrite Hr'.
       do 3 eexists. split; [reflexivity|now right]. }
  rewrite (bind_ok _ _ _ _ _ Hc). cbv beta zeta.
  match goal with
  | |- context [mkState a ?t] =>
      destruct (setup_credential_list_run a t) as (L & a1 & q1 & E1 & HL1 & Ht1 & Hi1)
  end.
  rewrite (bind_ok _ _ _ _ _ E1).
  match goal with
  | |- context [mkState a1 ?t] =>
      destruct (add_credentials_run a1 t L HL1)
        as (a2 & q2 & E2 & HL2 & HC2 & Ht2 & Hi2)
  end.
  rewrite (bind_ok _ _ _ _ _ E2).
  match goal with
  | |- context [mkState a2 ?t] =>
      destruct (associate_credential_list_run a2 t L)
        as (a3 & q3 & E3 & Hc3 & Hi3 & HA3)
  end.
  rewrite (bind_ok _ _ _ _ _ E3).
  match goal with
  | |- context [mkState a3 ?t] =>
      destruct (add_origination_url_run a3 t)
        as (a4 & q4 & r4 & E4 & Hc4 & Hi4 & HA4 & HU4 & Hr4)
  end.
  destruct Hr4 as [[-> [tr0 Hf4]] | [-> Hf4]].
  - rewrite (bind_ok _ _ _ _ _ E4).
    assert (NoDup (List.map tw.pn_sid (account.incoming_phone_numbers a4))) as Hnd4
      by now rewrite Hi4, Hi3, Hi2, Hi1.
    match goal with
    | |- context [mkState a4 ?t] =>
        destruct (associate_phone_number_run a4 t tr0 Hf4 Hnd4)
          as (a5 & q5 & E5 & Hc5 & Hi5 & HA5 & HU5 & HP5)
    end.
    rewrite E5. repeat rewrite <- app_assoc. do 3 eexists.
    split; [reflexivity|]. exists L. unfold settled.
    rewrite Hc5, Hc4, Hc3. repeat split; auto.
  - rewrite (bind_err _ _ _ _ _ E4). repeat rewrite <- app_assoc. do 3 eexists.
    split; [reflexivity|]. exists L. unfold settled.
    rewrite Hc4, Hc3. repeat split; auto.
    intros _ tr1 H1. rewrite Hf4 in H1. discriminate H1.
Qed.

(** C7 (as amended): against an account that keeps what it is given,
    whose purchased numbers have distinct identifiers and are looked up by
    equality with the configured number, running the update workflow and
    then running it again with the same configuration issues no creation
    request in the second run and leaves the account as the first run
    left it. *)
Theorem update_twilio_trunk_auto_rerun a :
  NoDup (List.map tw.pn_sid (account.incoming_phone_numbers a)) ->
  let st1 := snd (run update' a) in
  let st2 := snd (run update' (world st1)) in
  existsb tw.is_create (trace st2) = false /\ world st2 = world st1.
Proof.
  intros Hnd. unfold run.
  destruct (update_run a [] Hnd) as (r & a1 & reqs & E1 & Hs).
  rewrite E1. cbn [snd world].
  destruct (update_settled a1 [] Hs) as (reqs2 & r2 & E2 & Hn).
  rewrite E2. cbn. now split.
Qed.

End UpdateWorkflow.

Lemma update_twilio_trunk_auto_rerun_witness :
  let update :=
    update_twilio_trunk_auto account.t account.perform account.ascii_lower
      (Some (lit "AC_demo")) (Some (lit "token")) (Some (lit "+14155550100"))
      (Some (lit "TK_demo")) (Some (lit "livekit_user")) (Some (lit "secret")) in
  let st1 := snd (run update demo_account) in
  let st2 := snd (run update (world st1)) in
  existsb tw.is_create (trace st1) = true /\
  existsb tw.is_create (trace st2) = false /\ world st2 = world st1.
Proof.
  split; [reflexivity|].
  apply (update_twilio_trunk_auto_rerun account.ascii_lower
           (Some (lit "AC_demo")) (Some (lit "token")) (Some (lit "+14155550100"))
           (Some (lit "TK_demo")) (Some (lit "livekit_user")) (Some (lit "secret"))).
  - reflexivity.
  - cbn. constructor; [intros []|constructor].
Defined.

(** C7 (as stated) fails for the setup workflow: it looks nothing up
    before creating, so a second run with the same inputs issues the
    creation requests for the trunk, the credential list and the
    credential again, and the account ends with two credential lists of
    the same name. *)
Lemma create_twilio_trunk_rerun_creates_again :
  let setup :=
    create_twilio_trunk account.t account.perform
      (Some (lit "AC_demo")) (Some (lit "token")) (Some (lit "+14155550100"))
      (lit "t") (lit "t.pstn.twilio.com") (lit "sip:sip.livekit.cloud")
      (lit "livekit_user") (lit "secret") in
  let st1 := snd (run setup demo_account) in
  let st2 := snd (run setup (world st1)) in
  List.map tw.is_create (trace st2) = [false; true; true; true] /\
  List.map account.cl_friendly_name (account.credential_lists (world st2))
  = [lit "t-credentials"; lit "t-credentials"].
Proof. split; vm_compute; reflexivity. Qed.

(* ================================================================== *)
(** * Further properties of the code *)

(* ------------------------------------------------------------------ *)
(** ** utils/validators.py *)

Lemma plus_sign_not_decimal : isdecimal plus_sign = false.
Proof. reflexivity. Qed.

Lemma isdecimal_kept (c : char) : isdecimal c = true -> kept c = true.
Proof. intros H. unfold kept. now rewrite H. Qed.

Lemma filter_isdecimal_kept (s : str) :
  filter isdecimal (filter kept s) = filter isdecimal s.
Proof.
  induction s as [|c s IH]; [reflexivity|]. cbn [filter].
  destruct (isdecimal c) eqn:Ed.
  - rewrite (isdecimal_kept c Ed). cbn [filter]. now rewrite Ed, IH.
  - destruct (kept c); [cbn [filter]; rewrite Ed|]; exact IH.
Qed.

Lemma forallb_filter_same {A} (p : A -> bool) (l : list A) :
  forallb p (filter p l) = true.
Proof.
  induction l as [|x l IH]; [reflexivity|]. cbn [filter].
  destruct (p x) eqn:E; [cbn [forallb]; now rewrite E|exact IH].
Qed.

(** X1.  What the validator accepts, exactly: a plus sign, a character from 1
    to 9, then 1 to 14 decimal digits (of any script), and then the end
    of the string or one final newline; nothing else is accepted, in
    particular no second plus sign, no leading zero, no separator, and
    nothing shorter than two or longer than fifteen digits. *)
Theorem validate_phone_number_accepts_exactly (s : str) :
  validate_phone_number s = true <->
  exists d ds nl,
    s = plus_sign :: d :: ds ++ nl /\ 49 <= d <= 57 /\
    (1 <= List.length ds <= 14)%nat /\ forallb isdecimal ds = true /\
    (nl = [] \/ nl = [10]).
Proof. exact (validate_phone_number_spec s). Qed.

(** X2.  Normalizing twice is the same as normalizing once, for every string. *)
Theorem format_phone_number_is_idempotent (s : str) :
  format_phone_number (format_phone_number s) = format_phone_number s.
Proof. exact (format_phone_number_idempotent s). Qed.

(** X3.  The formatter neither drops, adds nor reorders digits, and its result
    consists of decimal digits and plus signs only. *)
Theorem format_phone_number_keeps_digits (s : str) :
  filter isdecimal (format_phone_number s) = filter isdecimal s /\
  forallb kept (format_phone_number s) = true.
Proof.
  rewrite format_phone_number_eq.
  pose proof (filter_isdecimal_kept s) as Hd.
  pose proof (forallb_filter_same kept s) as Hk.
  destruct (filter kept s) as [|c r]; [now rewrite <- Hd|].
  destruct (c =? plus_sign); [now split|].
  split; [|exact Hk]. cbn [filter]. now rewrite plus_sign_not_decimal.
Qed.

(** X4.  Which raw inputs the two requesters accept: after the separators are
    removed and at most one leading plus sign is set aside, what is left is
    a character from 1 to 9 followed by 1 to 14 decimal digits.  A final
    newline is never accepted on this path. *)
Theorem validate_after_format_spec (s : str) :
  validate_phone_number (format_phone_number s) = true <->
  exists d ds,
    (filter kept s = d :: ds \/ filter kept s = plus_sign :: d :: ds) /\
    49 <= d <= 57 /\ (1 <= List.length ds <= 14)%nat /\
    forallb isdecimal ds = true.
Proof.
  rewrite validate_phone_number_spec, format_phone_number_eq.
  pose proof (forallb_filter_same kept s) as Hk.
  split.
  - intros (d & ds & nl & E & Hd & Hlen & Hds & Hnl).
    assert (nl = []) as ->.
    { destruct Hnl as [->| ->]; [reflexivity|]. exfalso.
      destruct (filter kept s) as [|c r]; [destruct ds; discriminate E|].
      assert (forallb kept (plus_sign :: d :: ds ++ [10]) = true) as Hall.
      { destruct (c =? plus_sign); rewrite <- E; [exact Hk|].
        change (forallb kept (plus_sign :: c :: r))
          with (kept plus_sign && forallb kept (c :: r)).
        now rewrite Hk. }
      cbn [forallb] in Hall. rewrite forallb_app in Hall.
      cbn in Hall. now rewrite !andb_false_r in Hall. }
    rewrite app_nil_r in E. exists d, ds. split; [|auto].
    destruct (filter kept s) as [|c r]; [discriminate E|].
    destruct (c =? plus_sign) eqn:Ec.
    + right. exact E.
    + left. now injection E as -> ->.
  - intros (d & ds & [E|E] & Hd & Hlen & Hds); rewrite E.
    + replace (d =? plus_sign) with false
        by (symmetry; apply N.eqb_neq; unfold plus_sign; lia).
      exists d, ds, []. rewrite app_nil_r. repeat split; auto; lia.
    + unfold plus_sign at 1. cbn [N.eqb Pos.eqb].
      exists d, ds, []. rewrite app_nil_r. repeat split; auto; lia.
Qed.

(** X5.  A string the validator accepts is left alone by the formatter, apart
    from the final newline the validator tolerates, and stays valid. *)
Theorem format_phone_number_on_valid (p : str) :
  validate_phone_number p = true ->
  validate_phone_number (format_phone_number p) = true /\
  (p = format_phone_number p \/ p = format_phone_number p ++ [10]).
Proof.
  intros H. apply validate_phone_number_spec in H
    as (d & ds & nl & -> & Hd & Hlen & Hds & Hnl).
  assert (filter kept ds = ds) as Hf.
  { clear Hlen. induction ds as [|c ds IH]; [reflexivity|].
    cbn [forallb] in Hds. apply andb_true_iff in Hds as [Hc Hds].
    cbn [filter]. now rewrite (isdecimal_kept c Hc), IH. }
  assert (format_phone_number (plus_sign :: d :: ds ++ nl) = plus_sign :: d :: ds)
    as E.
  { rewrite format_phone_number_eq. cbn [filter].
    replace (kept plus_sign) with true by reflexivity.
    rewrite (isdecimal_kept d) by (apply ascii_digit_isdecimal; lia).
    rewrite filter_app, Hf.
    replace (filter kept nl) with (@nil char)
      by (destruct Hnl as [-> | ->]; reflexivity).
    rewrite app_nil_r. reflexivity. }
  rewrite E. split.
  - apply validate_phone_number_spec. exists d, ds, [].
    rewrite app_nil_r. repeat split; auto; lia.
  - destruct Hnl as [-> | ->]; [left; now rewrite app_nil_r|right; reflexivity].
Qed.

Lemma format_phone_number_on_valid_witness :
  validate_phone_number (format_phone_number (lit "+14155551234")) = true /\
  (lit "+14155551234" = format_phone_number (lit "+14155551234") \/
   lit "+14155551234" = format_phone_number (lit "+14155551234") ++ [10]).
Proof.
  apply (format_phone_number_on_valid (lit "+14155551234")). reflexivity.
Defined.

(* ------------------------------------------------------------------ *)
(** ** services/telephony_utils.py *)

(** X6.  [parse_dtmf] returns its argument, and only for a string of exactly
    one character that is an ASCII digit, the star or the hash sign; the
    empty string, longer strings and other digits give [None]. *)
Theorem parse_dtmf_spec (d : str) :
  (forall d', parse_dtmf d = Some d' -> d' = d) /\
  (parse_dtmf d <> None <->
   exists c, d = [c] /\ (48 <= c <= 57 \/ c = 42 \/ c = 35)).
Proof.
  unfold parse_dtmf. split.
  - intros d' H. destruct (existsb _ _); [now injection H|discriminate H].
  - destruct (existsb (PyStr.eqb d) valid_dtmf) eqn:E.
    + split; [intros _|discriminate].
      apply existsb_exists in E as (x & Hin & Hx). apply eqb_eq in Hx. subst x.
      cbn in Hin.
      repeat (destruct Hin as [<-|Hin];
              [eexists; split; [reflexivity|lia]|]).
      destruct Hin.
    + split; [congruence|]. intros (c & -> & Hc). exfalso.
      assert (existsb (PyStr.eqb [c]) valid_dtmf = true) as E'; [|congruence].
      apply existsb_exists.
      destruct Hc as [Hc|[->| ->]];
        [|exists (lit "*"); split; [cbn; tauto|reflexivity]
         |exists (lit "#"); split; [cbn; tauto|reflexivity]].
      exists [c]. split; [|apply eqb_refl].
      assert (c = 48 \/ c = 49 \/ c = 50 \/ c = 51 \/ c = 52 \/ c = 53 \/
              c = 54 \/ c = 55 \/ c = 56 \/ c = 57) as Hv by lia.
      cbn. repeat (destruct Hv as [->|Hv]; [tauto|]). subst. tauto.
Qed.

(* ------------------------------------------------------------------ *)
(** ** services/dispatch_service.py, services/sip_manager.py *)

Section MediaPlatformMore.

Variable W : Type.
Variable perform : forall r : lk.request, W -> (exn + lk.response r) * W.
Variable AGENT_NAME : str.
Variable LIVEKIT_OUTBOUND_TRUNK_ID : option str.

#[local] Abbreviation dispatch_outbound_call' := (dispatch_outbound_call W perform AGENT_NAME).
#[local] Abbreviation create_outbound_call' := (create_outbound_call W perform).
#[local] Abbreviation make_test_call' :=
  (make_test_call W perform AGENT_NAME LIVEKIT_OUTBOUND_TRUNK_ID).
#[local] Abbreviation make_call' := (make_call W perform LIVEKIT_OUTBOUND_TRUNK_ID).

Lemma dispatch_outbound_call_trace raw room agent w :
  let tr := trace (snd (run (dispatch_outbound_call' raw room agent) w)) in
  let request r :=
    lk.CreateAgentDispatchRequest
      (if opt_truthy agent then or_else agent [] else AGENT_NAME) r
      (json.dumps [(lit "phone_number", format_phone_number raw)]) in
  tr = [] \/
  (validate_phone_number (format_phone_number raw) = true /\
   ((opt_truthy room = true /\ tr = [request (or_else room [])]) \/
    (opt_truthy room = false /\
     (tr = [lk.OsUrandom 16] \/
      exists b, tr = [lk.OsUrandom 16; request (generated_room_name b)])))).
Proof.
  cbv zeta. unfold run, dispatch_outbound_call.
  destruct (validate_phone_number (format_phone_number raw));
    run_prog; [right; split; [reflexivity|]|now left].
  replace (if negb (opt_truthy agent) then AGENT_NAME else or_else agent [])
    with (if opt_truthy agent then or_else agent [] else AGENT_NAME)
    by now destruct (opt_truthy agent).
  destruct (opt_truthy room); run_prog.
  - left. split; [reflexivity|].
    match goal with
    | |- context [perform ?r w] => destruct (perform r w) as [[e|d] w1]
    end; run_prog; try (destruct e); reflexivity.
  - right. split; [reflexivity|]. unfold uuid4_hex8. run_prog.
    destruct (perform (lk.OsUrandom 16) w) as [[e|b] w1]; run_prog;
      [now left|].
    right. exists b. fold (generated_room_name b).
    match goal with
    | |- context [perform ?r w1] => destruct (perform r w1) as [[e|d] w2]
    end; run_prog; try (destruct e); reflexivity.
Qed.

(** X7.  Whatever the platform answers, the dispatch requester issues at most
    one create-dispatch request, and that request carries a number that
    passed validation, in its normalized form, the agent name that was
    given or else the configured one, and the room that was given or else
    a generated one. *)
Theorem dispatch_request_invariant raw room agent w :
  let tr := trace (snd (run (dispatch_outbound_call' raw room agent) w)) in
  (List.length (filter is_dispatch_request tr) <= 1)%nat /\
  forall a r m,
    In (lk.CreateAgentDispatchRequest a r m) tr ->
    validate_phone_number (format_phone_number raw) = true /\
    m = json.dumps [(lit "phone_number", format_phone_number raw)] /\
    a = (if opt_truthy agent then or_else agent [] else AGENT_NAME) /\
    (if opt_truthy room then r = or_else room [] else is_generated_room_name r).
Proof.
  cbv zeta.
  destruct (dispatch_outbound_call_trace raw room agent w)
    as [E|[Hv [[Hr E]|[Hr [E|[b E]]]]]]; rewrite E, ?Hr; cbn [filter is_dispatch_request List.length].
  all: split; [lia|].
  all: intros a r m H; cbn [In] in H.
  all: repeat (destruct H as [H|H]; [try discriminate H|]); try contradiction.
  all: injection H as <- <- <-; repeat split; auto.
  apply generated_room_name_ok.
Qed.

Lemma create_outbound_call_trace raw room trunk ident name w :
  let tr := trace (snd (run (create_outbound_call' raw room trunk ident name) w)) in
  let number := format_phone_number raw in
  tr = [] \/
  (validate_phone_number number = true /\
   tr = [lk.CreateSIPParticipantRequest (Some trunk) number room
           (or_else ident (lit "caller-" ++ number)) (or_else name number)]).
Proof.
  cbv zeta. unfold run, create_outbound_call.
  destruct (validate_phone_number (format_phone_number raw));
    run_prog; [right; split; [reflexivity|]|now left].
  match goal with
  | |- context [perform ?r w] => destruct (perform r w) as [[e|d] w1]
  end; run_prog; try (destruct e); reflexivity.
Qed.

(** X8.  Whatever the platform answers, the call requester issues at most one
    request; the number it dials passed validation and is the normalized
    form of the argument, and identity and display name default to
    [caller-] plus that number and to that number, also when they are
    given as empty strings. *)
Theorem sip_request_invariant raw room trunk ident name w :
  let tr := trace (snd (run (create_outbound_call' raw room trunk ident name) w)) in
  (List.length tr <= 1)%nat /\
  forall t c r i n,
    In (lk.CreateSIPParticipantRequest t c r i n) tr ->
    validate_phone_number c = true /\ c = format_phone_number raw /\
    t = Some trunk /\ r = room /\
    i = (if opt_truthy ident then or_else ident [] else lit "caller-" ++ c) /\
    n = (if opt_truthy name then or_else name [] else c).
Proof.
  cbv zeta.
  destruct (create_outbound_call_trace raw room trunk ident name w)
    as [E|[Hv E]]; rewrite E; cbn [List.length].
  all: split; [lia|].
  all: intros t c r i n H; cbn [In] in H.
  all: repeat (destruct H as [H|H]; [try discriminate H|]); try contradiction.
  injection H as <- <- <- <- <-. repeat split; auto.
  - now destruct ident as [[|? ?]|].
  - now destruct name as [[|? ?]|].
Qed.

(* ------------------------------------------------------------------ *)
(** ** scripts/test_call.py, test_outbound.py *)

Ltac prefix_of k b :=
  right; split; [reflexivity|]; exists b, k;
  split; [reflexivity|split; [lia|try discriminate; auto]].

(** A run of [make_test_call] issues nothing when the number is invalid,
    and otherwise a non-empty initial part of the four requests of a
    complete run; the last of them only if a trunk identifier is known. *)
Lemma make_test_call_prefix raw trunk w :
  let tr := trace (snd (run (make_test_call' raw trunk) w)) in
  tr = [] \/
  (validate_phone_number (format_phone_number raw) = true /\
   exists b k,
     tr = firstn k (test_call_requests AGENT_NAME
                      (effective_trunk_id trunk LIVEKIT_OUTBOUND_TRUNK_ID) raw b) /\
     (1 <= k <= 4)%nat /\
     (k = 4%nat ->
      opt_truthy trunk || opt_truthy LIVEKIT_OUTBOUND_TRUNK_ID = true)).
Proof.
  cbv zeta. unfold run, make_test_call, dispatch_outbound_call, create_outbound_call.
  destruct (validate_phone_number (format_phone_number raw)) eqn:Hv;
    run_prog; [|now left].
  unfold uuid4_hex8. run_prog.
  destruct (perform (lk.OsUrandom 16) w) as [[e|b] w1]; run_prog.
  { destruct e; cbn; prefix_of 1%nat 0. }
  fold (generated_room_name b).
  match goal with
  | |- context [perform ?r w1] => destruct (perform r w1) as [[e|d] w2]
  end; run_prog.
  { destruct e; cbn; prefix_of 2%nat b. }
  destruct (perform (lk.AsyncioSleep 5) w2) as [[e|[]] w3]; run_prog.
  { destruct e; cbn; prefix_of 3%nat b. }
  unfold effective_trunk_id.
  destruct (opt_truthy trunk) eqn:Ht;
    [|destruct (opt_truthy LIVEKIT_OUTBOUND_TRUNK_ID) eqn:He];
    run_prog; try solve [cbn; prefix_of 3%nat b].
  all: match goal with
       | |- context [perform (lk.CreateSIPParticipantRequest ?a ?b ?c ?d ?e) ?w] =>
           destruct (perform (lk.CreateSIPParticipantRequest a b c d e) w)
             as [[e'|pi] w4]
       end; run_prog.
  all: try (destruct e'); cbn; prefix_of 4%nat b.
Qed.

Lemma make_call_prefix raw w :
  let tr := trace (snd (run (make_call' raw) w)) in
  exists b k,
    tr = firstn k (make_call_requests LIVEKIT_OUTBOUND_TRUNK_ID raw b) /\
    (k <= 5)%nat.
Proof.
  cbv zeta. unfold run, make_call, uuid4_hex8, stdout_print.
  step_print; [|exists 0, 0%nat; split; [reflexivity|lia]].
  destruct (perform (lk.OsUrandom 16) w) as [[e|b] w1]; run_prog.
  { exists 0, 1%nat. split; [reflexivity|lia]. }
  fold (generated_room_name b).
  match goal with
  | |- context [perform ?r w1] => destruct (perform r w1) as [[e|d] w2]
  end; run_prog.
  { exists b, 2%nat. split; [reflexivity|lia]. }
  step_print; [|exists b, 2%nat; split; [reflexivity|lia]].
  step_print; [|exists b, 2%nat; split; [reflexivity|lia]].
  destruct (perform (lk.AsyncioSleep 5) w2) as [[e|[]] w3]; run_prog.
  { exists b, 3%nat. split; [reflexivity|lia]. }
  step_print; [|exists b, 3%nat; split; [reflexivity|lia]].
  match goal with
  | |- context [perform ?r w3] => destruct (perform r w3) as [[e|pi] w4]
  end; run_prog.
  { exists b, 4%nat. split; [reflexivity|lia]. }
  repeat (step_print; [|exists b, 4%nat; split; [reflexivity|lia]]).
  destruct (perform lk.Aclose w4) as [[e|[]] w5]; cbn;
    exists b, 5%nat; (split; [reflexivity|lia]).
Qed.

Ltac small_prefix k Hk :=
  destruct k as [|[|[|[|[|[|k]]]]]]; try lia; clear Hk.

(** X9.  Neither test-call workflow ever asks for a dispatch to be deleted,
    whatever fails after the dispatch was created. *)
Theorem test_calls_never_delete_dispatch raw trunk w :
  existsb is_delete_request (trace (snd (run (make_test_call' raw trunk) w))) = false /\
  existsb is_delete_request (trace (snd (run (make_call' raw) w))) = false.
Proof.
  split.
  - destruct (make_test_call_prefix raw trunk w) as [E|(_ & b & k & E & Hk & _)];
      rewrite E; [reflexivity|].
    small_prefix k Hk; reflexivity.
  - destruct (make_call_prefix raw w) as (b & k & E & Hk). rewrite E.
    small_prefix k Hk; reflexivity.
Qed.

(** X10.  In [make_test_call], the number that is dialled passed validation and
    is the one the dispatch for the same room carries in its metadata, so
    the worker of that room reads back exactly the number being dialled. *)
Theorem make_test_call_dials_dispatched_number raw trunk w t c r i n :
  let tr := trace (snd (run (make_test_call' raw trunk) w)) in
  let metadata := json.dumps [(lit "phone_number", c)] in
  In (lk.CreateSIPParticipantRequest t c r i n) tr ->
  validate_phone_number c = true /\ c = format_phone_number raw /\
  In (lk.CreateAgentDispatchRequest AGENT_NAME r metadata) tr /\
  forall (W' : Type) (lim : json.limits) (w' : W'),
    run (read_phone_number W' lim (print_phone_number W') metadata) w'
    = (inr (json.JStr c), mkState w' []) /\
    run (read_phone_number W' lim (log_phone_number W') metadata) w'
    = (inr (json.JStr c), mkState w' []).
Proof.
  cbv zeta. intros H.
  destruct (make_test_call_prefix raw trunk w) as [E|(Hv & b & k & E & Hk & _)];
    rewrite E in *; [destruct H|].
  small_prefix k Hk; cbn [firstn test_call_requests In] in H.
  all: repeat (destruct H as [H|H]; [try discriminate H|]); try contradiction.
  injection H as <- <- <- <- <-.
  split; [exact Hv|]. split; [reflexivity|]. split; [cbn; tauto|].
  intros W' lim w'. apply read_phone_number_dumped.
  - now apply valid_number_roundtrip_chars.
  - now apply valid_number_encodable.
Qed.

(** X11.  In [make_test_call], the trunk of the call is the argument when it is
    given and not empty and the environment variable otherwise; when
    neither is set no call is placed and the run ends in an error, though
    the agent may have been dispatched by then. *)
Theorem make_test_call_trunk raw trunk w :
  let tr := trace (snd (run (make_test_call' raw trunk) w)) in
  (forall t c r i n,
     In (lk.CreateSIPParticipantRequest t c r i n) tr ->
     t = Some (effective_trunk_id trunk LIVEKIT_OUTBOUND_TRUNK_ID) /\
     opt_truthy trunk || opt_truthy LIVEKIT_OUTBOUND_TRUNK_ID = true) /\
  (opt_truthy trunk || opt_truthy LIVEKIT_OUTBOUND_TRUNK_ID = false ->
   exists e, fst (run (make_test_call' raw trunk) w) = inl e).
Proof.
  cbv zeta. split.
  - intros t c r i n H.
    destruct (make_test_call_prefix raw trunk w) as [E|(Hv & b & k & E & Hk & Ht)];
      rewrite E in *; [destruct H|].
    small_prefix k Hk; cbn [firstn test_call_requests In] in H.
    all: repeat (destruct H as [H|H]; [try discriminate H|]); try contradiction.
    injection H as <- <- <- <- <-. split; [reflexivity|now apply Ht].
  - intros Hno. apply orb_false_iff in Hno as [Ht He].
    unfold run, make_test_call, dispatch_outbound_call.
    destruct (validate_phone_number (format_phone_number raw));
      run_prog; [|eauto].
    unfold uuid4_hex8. run_prog.
    destruct (perform (lk.OsUrandom 16) w) as [[e|b] w1]; run_prog.
    { destruct e; cbn; eauto. }
    match goal with
    | |- context [perform ?r w1] => destruct (perform r w1) as [[e|d] w2]
    end; run_prog.
    { destruct e; cbn; eauto. }
    destruct (perform (lk.AsyncioSleep 5) w2) as [[e|[]] w3]; run_prog.
    { destruct e; cbn; eauto. }
    rewrite Ht, He. run_prog. cbn. eauto.
Qed.

Lemma encodable_app (a b : str) : encodable (a ++ b) = encodable a && encodable b.
Proof. apply forallb_app. Qed.

Lemma encodable_cons (c : char) (s : str) :
  encodable (c :: s) = negb (is_surrogate c) && encodable s.
Proof. reflexivity. Qed.

(** A [print] whose text is known to be free of surrogates, from the
    hypotheses at hand. *)
Ltac print_ok :=
  match goal with
  | |- context [encodable ?t] =>
      replace (encodable t) with true
        by (cbn [app]; rewrite ?encodable_cons, ?encodable_app;
            repeat match goal with
                   | H : encodable _ = true |- _ => rewrite H
                   end; reflexivity)
  end; run_prog.

Lemma lower_hex_encodable (h : str) :
  forallb is_lower_hex h = true -> encodable h = true.
Proof.
  intros H. apply forallb_forall. intros c Hc.
  rewrite forallb_forall in H. specialize (H c Hc).
  unfold is_lower_hex in H. unfold is_surrogate.
  apply negb_true_iff, andb_false_iff. left. apply N.leb_gt.
  apply orb_true_iff in H as [H|H]; apply andb_true_iff in H as [_ H];
    apply N.leb_le in H; lia.
Qed.

Lemma generated_room_name_encodable (b : N) : encodable (generated_room_name b) = true.
Proof.
  destruct (generated_room_name_ok b) as (h & -> & _ & Hh).
  rewrite encodable_app, (lower_hex_encodable h Hh). reflexivity.
Qed.

(** X12.  [make_call] does not validate or normalize: a create-SIP-participant
    request it issues dials the argument as it was given, with the trunk
    as the environment has it (possibly unset), and the dispatch for the
    same room carries the same string.  The request is issued for every
    argument that can be printed, once the random source, the dispatch and
    the sleep have answered and the dispatch identifier and the trunk can
    be printed too; an argument that holds a surrogate stops the script at
    its first line, before any request. *)
Theorem make_call_sends_raw_number raw w :
  let tr := trace (snd (run (make_call' raw) w)) in
  (forall t c r i n,
     In (lk.CreateSIPParticipantRequest t c r i n) tr ->
     t = LIVEKIT_OUTBOUND_TRUNK_ID /\ c = raw /\ i = lit "caller-" ++ raw /\ n = raw /\
     In (lk.CreateAgentDispatchRequest (lit "telephony-agent") r
           (json.dumps [(lit "phone_number", raw)])) tr) /\
  (forall b w1 d w2 w3,
     encodable raw = true ->
     perform (lk.OsUrandom 16) w = (inr b, w1) ->
     perform (lk.CreateAgentDispatchRequest (lit "telephony-agent")
                (generated_room_name b)
                (json.dumps [(lit "phone_number", raw)])) w1 = (inr d, w2) ->
     encodable (lk.id d) = true ->
     perform (lk.AsyncioSleep 5) w2 = (inr tt, w3) ->
     encodable (str_of_opt LIVEKIT_OUTBOUND_TRUNK_ID) = true ->
     In (lk.CreateSIPParticipantRequest LIVEKIT_OUTBOUND_TRUNK_ID raw
           (generated_room_name b) (lit "caller-" ++ raw) raw) tr) /\
  (encodable raw = false ->
   run (make_call' raw) w = (inl UnicodeEncodeError, mkState w [])).
Proof.
  cbv zeta. split; [|split].
  - intros t c r i n H.
    destruct (make_call_prefix raw w) as (b & k & E & Hk). rewrite E in *.
    small_prefix k Hk; cbn [firstn make_call_requests In] in H.
    all: repeat (destruct H as [H|H]; [try discriminate H|]); try contradiction.
    all: injection H as <- <- <- <- <-; repeat split; cbn; tauto.
  - intros b w1 d w2 w3 Hraw Hb Hd Hid Hs Htrunk.
    pose proof (generated_room_name_encodable b) as Hroom.
    unfold run, make_call, uuid4_hex8, stdout_print.
    print_ok. rewrite Hb. run_prog.
    fold (generated_room_name b). rewrite Hd. run_prog.
    print_ok. print_ok. rewrite Hs. run_prog. print_ok.
    match goal with
    | |- context [perform ?r w3] => destruct (perform r w3) as [[e|pi] w4]
    end; run_prog; [cbn; tauto|].
    repeat (step_print; [|cbn; tauto]).
    destruct (perform lk.Aclose w4) as [[e|[]] w5]; cbn; tauto.
  - intros Hraw. unfold run, make_call, stdout_print.
    match goal with
    | |- context [encodable ?t] =>
        replace (encodable t) with false
          by (cbn [app]; rewrite encodable_cons, !encodable_app, Hraw;
              cbn [andb]; now rewrite andb_false_r)
    end.
    reflexivity.
Qed.

End MediaPlatformMore.

(* ------------------------------------------------------------------ *)
(** ** voice_agent.py, agent/agent.py *)

Section WorkerMore.

Variable W : Type.
Variable perform : forall r : lk.request, W -> (exn + lk.response r) * W.
Variable lim : json.limits.

#[local] Abbreviation read_voice := (read_phone_number W lim (print_phone_number W)).
#[local] Abbreviation read_agent := (read_phone_number W lim (log_phone_number W)).
#[local] Abbreviation voice_agent_entrypoint' := (voice_agent_entrypoint W perform lim).
#[local] Abbreviation agent_entrypoint' := (agent_entrypoint W perform lim).
#[local] Abbreviation connect := (call perform lk.CtxConnect).
#[local] Abbreviation start := (call perform lk.SessionStart).
#[local] Abbreviation fail_greeting :=
  (raise positional_argument_error : M lk.request W unit).
#[local] Abbreviation fail_on :=
  (raise async_callback_error : M lk.request W unit).







Lemma read_phone_number_of_dict announce metadata d st :
  json.loads lim metadata = json.Decoded (json.JDict d) ->
  read_phone_number W lim announce metadata st
  = (announce (json.dict_get d (lit "phone_number")) ;;;
     ret (json.dict_get d (lit "phone_number"))) st.
Proof.
  intros H. unfold read_phone_number. rewrite H.
  destruct metadata; [discriminate H|reflexivity].
Qed.

Lemma dict_get_absent (d : list (str * json.value)) (key : str) :
  existsb (fun kv => PyStr.eqb (fst kv) key) d = false ->
  json.dict_get d key = json.JNull.
Proof.
  induction d as [|[k v] d IH]; [reflexivity|]. cbn [existsb fst json.dict_get].
  intros H. apply orb_false_iff in H as [Hk Hd]. now rewrite Hd, Hk.
Qed.

(** X14.  When the metadata decodes to a dict whose [phone_number] entry can
    be printed, what voice_agent.py does after the start of the session
    depends on the truth value of that entry alone: for a true value
    (not only a valid number) it ends there, silent; for a false value
    ([null], the empty string, zero, ...) or a dict without the key it
    takes the greeting branch, which raises [TypeError].  agent/agent.py
    does the same for every dict: it connects, starts the session and
    fails on registering its handlers. *)
Theorem entrypoint_branch_by_phone_number metadata d w :
  json.loads lim metadata = json.Decoded (json.JDict d) ->
  let phone_number := json.dict_get d (lit "phone_number") in
  (printable phone_number = true ->
   run (voice_agent_entrypoint' metadata) w
   = run (connect ;;; start ;;;
          if json.truthy phone_number then ret tt else fail_greeting) w) /\
  run (agent_entrypoint' metadata) w = run (connect ;;; start ;;; fail_on) w /\
  (existsb (fun kv => PyStr.eqb (fst kv) (lit "phone_number")) d = false ->
   json.truthy phone_number = false /\ printable phone_number = true).
Proof.
  intros H. cbv zeta. unfold run. split; [|split].
  - intros Hp.
    rewrite (voice_agent_entrypoint_after_read W perform lim metadata
               (json.dict_get d (lit "phone_number"))).
    + unfold greet_or_wait, generate_reply.
      now destruct (json.truthy (json.dict_get d (lit "phone_number"))).
    + rewrite (read_phone_number_of_dict _ _ _ _ H).
      unfold print_phone_number. now rewrite Hp.
  - apply (agent_entrypoint_after_read W perform lim metadata
             (json.dict_get d (lit "phone_number"))).
    now rewrite (read_phone_number_of_dict _ _ _ _ H).
  - intros Ha. now rewrite (dict_get_absent _ _ Ha).
Qed.

End WorkerMore.


Lemma entrypoint_branch_by_phone_number_witness :
  run (voice_agent_entrypoint N lk_accepting default_limits (lit "{}")) 0
  = (inl positional_argument_error, mkState 0 [lk.CtxConnect; lk.SessionStart]).
Proof.
  rewrite (proj1 (entrypoint_branch_by_phone_number N lk_accepting default_limits
                    (lit "{}") [] 0 eq_refl) eq_refl).
  reflexivity.
Defined.

(* ------------------------------------------------------------------ *)
(** ** scripts/setup_twilio_trunk.py, scripts/update_twilio_trunk.py *)

Section TelephonyProviderMore.

Variable W : Type.
Variable perform : forall r : tw.request, W -> (exn + tw.response r) * W.
Variable str_lower : str -> str.
Variable TWILIO_ACCOUNT_SID : option str.
Variable TWILIO_AUTH_TOKEN : option str.
Variable TWILIO_PHONE_NUMBER : option str.
Variable TWILIO_SIP_TRUNK_SID : option str.
Variable TWILIO_SIP_USERNAME : option str.
Variable TWILIO_SIP_PASSWORD : option str.

#[local] Abbreviation config_ok :=
  (opt_truthy TWILIO_ACCOUNT_SID && opt_truthy TWILIO_AUTH_TOKEN
   && opt_truthy TWILIO_PHONE_NUMBER).
#[local] Abbreviation validate' :=
  (validate_twilio_config W TWILIO_ACCOUNT_SID TWILIO_AUTH_TOKEN TWILIO_PHONE_NUMBER).
#[local] Abbreviation create_twilio_trunk' :=
  (create_twilio_trunk W perform TWILIO_ACCOUNT_SID TWILIO_AUTH_TOKEN
     TWILIO_PHONE_NUMBER).
#[local] Abbreviation update_twilio_trunk' :=
  (update_twilio_trunk W perform str_lower TWILIO_ACCOUNT_SID TWILIO_AUTH_TOKEN
     TWILIO_PHONE_NUMBER TWILIO_SIP_TRUNK_SID TWILIO_SIP_USERNAME
     TWILIO_SIP_PASSWORD).
#[local] Abbreviation update_twilio_trunk_auto' :=
  (update_twilio_trunk_auto W perform str_lower TWILIO_ACCOUNT_SID TWILIO_AUTH_TOKEN
     TWILIO_PHONE_NUMBER TWILIO_SIP_TRUNK_SID TWILIO_SIP_USERNAME
     TWILIO_SIP_PASSWORD).

Lemma validate_twilio_config_cases (st : state tw.request W) :
  (config_ok = true /\ validate' st = (inr true, st)) \/
  (config_ok = false /\ exists msg, validate' st = (inl (ValueError msg), st)).
Proof.
  unfold validate_twilio_config.
  destruct (opt_truthy TWILIO_ACCOUNT_SID); cbn [negb andb];
    [|right; split; [reflexivity | eexists; reflexivity]].
  destruct (opt_truthy TWILIO_AUTH_TOKEN); cbn [negb andb];
    [|right; split; [reflexivity | eexists; reflexivity]].
  destruct (opt_truthy TWILIO_PHONE_NUMBER); cbn [negb andb];
    [|right; split; [reflexivity | eexists; reflexivity]].
  now left.
Qed.

(** X15.  Both provider scripts that validate the configuration do so before
    anything else: when the account identifier, the token or the phone
    number is unset or empty, [create_twilio_trunk] and
    [update_twilio_trunk] raise an invalid-input error and have issued no
    request, not even the one that opens the client. *)
Theorem twilio_config_checked_first name domain uri user password w :
  config_ok = false ->
  (exists msg, run (create_twilio_trunk' name domain uri user password) w
               = (inl (ValueError msg), mkState w [])) /\
  (exists msg, run (update_twilio_trunk' uri) w
               = (inl (ValueError msg), mkState w [])).
Proof.
  intros Hc. unfold run, create_twilio_trunk, update_twilio_trunk, try_except.
  destruct (validate_twilio_config_cases (mkState w [])) as [[Hc' _]|[_ [msg Hv]]];
    [congruence|].
  split; exists msg; rewrite (bind_err _ _ _ _ _ Hv); reflexivity.
Qed.

(** X16.  With a valid configuration, [update_twilio_trunk] called with the
    default endpoint sends the same requests and leaves the same world as
    the automatic script; the two differ only in how a failure surfaces:
    the function raises the exception again, the script exits with status
    1. *)
Theorem update_twilio_trunk_agrees_with_auto w :
  config_ok = true ->
  forall r st,
    run (update_twilio_trunk' LIVEKIT_SIP_URI) w = (r, st) ->
    run update_twilio_trunk_auto' w
    = (match r with
       | inl e => if is_Exception e then inl (SystemExit 1) else inl e
       | inr x => inr x
       end, st).
Proof.
  intros Hc r st. unfold run, update_twilio_trunk, update_twilio_trunk_auto, try_except.
  destruct (validate_twilio_config_cases (mkState w [])) as [[_ Hv]|[Hc' _]];
    [|congruence].
  unfold bind at 1. rewrite Hv.
  change (add_origination_url_for W perform TWILIO_SIP_TRUNK_SID LIVEKIT_SIP_URI)
    with (add_origination_url W perform TWILIO_SIP_TRUNK_SID).
  match goal with
  | |- (let (s, st') := ?m in _) = _ -> _ => destruct m as [[e|[]] st0]
  end.
  - destruct (is_Exception e) eqn:E; unfold raise; intros H; injection H as <- <-;
      rewrite E; reflexivity.
  - intros H; injection H as <- <-; reflexivity.
Qed.

End TelephonyProviderMore.

(* ------------------------------------------------------------------ *)
(** ** scripts/create_inbound_trunk.py, scripts/create_outbound_trunk.py *)

Section MediaPlatformProvisioningMore.

Variable W : Type.
Variable perform : forall r : lksip.request, W -> (exn + lksip.response r) * W.
Variable LIVEKIT_URL : option str.
Variable LIVEKIT_API_KEY : option str.
Variable LIVEKIT_API_SECRET : option str.

#[local] Abbreviation livekit_config_ok :=
  (opt_truthy LIVEKIT_URL && opt_truthy LIVEKIT_API_KEY
   && opt_truthy LIVEKIT_API_SECRET).
#[local] Abbreviation validate_livekit' :=
  (validate_livekit_config W LIVEKIT_URL LIVEKIT_API_KEY LIVEKIT_API_SECRET).
#[local] Abbreviation create_inbound_trunk' :=
  (create_inbound_trunk W perform LIVEKIT_URL LIVEKIT_API_KEY LIVEKIT_API_SECRET).
#[local] Abbreviation create_outbound_trunk' :=
  (create_outbound_trunk W perform LIVEKIT_URL LIVEKIT_API_KEY LIVEKIT_API_SECRET).

Lemma validate_livekit_config_cases (st : state lksip.request W) :
  (livekit_config_ok = true /\ validate_livekit' st = (inr true, st)) \/
  (livekit_config_ok = false /\
   exists msg, validate_livekit' st = (inl (ValueError msg), st)).
Proof.
  unfold validate_livekit_config.
  destruct (opt_truthy LIVEKIT_URL); cbn [negb andb];
    [|right; split; [reflexivity | eexists; reflexivity]].
  destruct (opt_truthy LIVEKIT_API_KEY); cbn [negb andb];
    [|right; split; [reflexivity | eexists; reflexivity]].
  destruct (opt_truthy LIVEKIT_API_SECRET); cbn [negb andb];
    [|right; split; [reflexivity | eexists; reflexivity]].
  now left.
Qed.

(** X17.  The two trunk-creation scripts check the platform configuration
    before anything else: when the URL, the key or the secret is unset or
    empty, [create_inbound_trunk] and [create_outbound_trunk] raise an
    invalid-input error and have sent nothing to the platform. *)
Theorem livekit_config_checked_first name address user password allowed w :
  livekit_config_ok = false ->
  (exists msg, run (create_inbound_trunk' name user password allowed) w
               = (inl (ValueError msg), mkState w [])) /\
  (exists msg, run (create_outbound_trunk' name address user password) w
               = (inl (ValueError msg), mkState w [])).
Proof.
  intros Hc. unfold run, create_inbound_trunk, create_outbound_trunk, try_except.
  destruct (validate_livekit_config_cases (mkState w [])) as [[Hc' _]|[_ [msg Hv]]];
    [congruence|].
  split; exists msg; rewrite (bind_err _ _ _ _ _ Hv); reflexivity.
Qed.

(** X18.  With a valid configuration, [create_inbound_trunk] issues exactly
    one request, the creation of the trunk, and never returns a result.
    When the platform refuses the trunk its error is raised again; when
    it creates the trunk, building the dispatch rule raises [ValueError],
    because the rule is given a [room_name] and its message has no such
    field.  So no dispatch rule is ever requested, the client is not
    closed, and the trunk that was created stays. *)
Theorem create_inbound_trunk_requests name user password allowed w :
  livekit_config_ok = true ->
  let request := inbound_trunk_request name user password allowed in
  let outcome := run (create_inbound_trunk' name user password allowed) w in
  trace (snd outcome) = [request] /\
  world (snd outcome) = snd (perform request w) /\
  (forall e, fst (perform request w) = inl e -> fst outcome = inl e) /\
  (forall t, fst (perform request w) = inr t -> fst outcome = inl no_room_name_error).
Proof.
  intros Hc. cbv zeta.
  assert (run (create_inbound_trunk' name user password allowed) w
          = (match fst (perform (inbound_trunk_request name user password allowed) w)
             with
             | inl e => inl e
             | inr _ => inl no_room_name_error
             end,
             mkState (snd (perform (inbound_trunk_request name user password allowed) w))
               [inbound_trunk_request name user password allowed])) as ->.
  { unfold run, create_inbound_trunk, try_except.
    destruct (validate_livekit_config_cases (mkState w [])) as [[_ Hv]|[Hc' _]];
      [|congruence].
    unfold bind at 1. rewrite Hv.
    unfold bind at 1, call at 1. cbn [world trace app].
    fold (inbound_trunk_request name user password allowed).
    destruct (perform (inbound_trunk_request name user password allowed) w)
      as [[e|t] w1]; [destruct (is_Exception e)|]; reflexivity. }
  cbn [fst snd trace world].
  destruct (perform (inbound_trunk_request name user password allowed) w)
    as [[e|t] w1]; cbn [fst snd]; repeat split; try discriminate.
  intros e' He'. now injection He' as <-.
Qed.

End MediaPlatformProvisioningMore.

(** *** The setup workflow on an account that keeps what it is given *)

Lemma update_first_app_new {A} (p : A -> bool) (f : A -> A) (l : list A) (x : A) :
  existsb p l = false -> p x = true ->
  account.update_first p f (l ++ [x]) = Some (l ++ [f x]).
Proof.
  intros Hl Hx. induction l as [|y l IH]; cbn [app account.update_first].
  - now rewrite Hx.
  - cbn [existsb] in Hl. apply orb_false_iff in Hl as [Hy Hl].
    rewrite Hy, (IH Hl). reflexivity.
Qed.

(** X19.  [create_twilio_trunk] never returns a result, whatever the
    provider answers: with a valid configuration it stops at step 4,
    where it asks the trunk for [credential_lists], an attribute the
    trunk does not have ([AttributeError]).  On an account that keeps
    what it is given, and whose next identifier for a credential list is
    unused, every run therefore leaves behind one more trunk with no
    credential list, no origination URL and no number, and one more
    credential list holding the one credential; what was in the account
    is unchanged. *)
Theorem create_twilio_trunk_on_account
  (SID TOKEN PHONE : option str) (name domain uri user password : str)
  (a : account.t) :
  let tk := account.fresh_sid "TK" a in
  let cl := account.fresh_sid "CL" (account.bump a) in
  (forall (W : Type) (perform : forall r : tw.request, W -> (exn + tw.response r) * W)
          (w : W),
     exists e,
       fst (run (create_twilio_trunk W perform SID TOKEN PHONE
                   name domain uri user password) w) = inl e) /\
  (opt_truthy SID && opt_truthy TOKEN && opt_truthy PHONE = true ->
   existsb (account.is_list cl) (account.credential_lists a) = false ->
   exists st,
     run (create_twilio_trunk account.t account.perform SID TOKEN PHONE
            name domain uri user password) a
     = (inl no_credential_lists_error, st) /\
     trace st
     = [tw.Client SID TOKEN; tw.TrunksCreate name domain;
        tw.CredentialListsCreate (name ++ lit "-credentials");
        tw.CredentialsCreate cl (Some user) (Some password)] /\
     account.trunks (world st)
     = account.trunks a
       ++ [{| account.t_sid := tk; account.t_friendly_name := name;
              account.t_domain_name := domain;
              account.t_credential_lists := [];
              account.t_origination_urls := [];
              account.t_phone_numbers := [] |}] /\
     account.credential_lists (world st)
     = account.credential_lists a
       ++ [{| account.cl_sid := cl;
              account.cl_friendly_name := name ++ lit "-credentials";
              account.cl_credentials :=
                [{| account.c_username := Some user;
                    account.c_password := Some password |}] |}] /\
     account.incoming_phone_numbers (world st) = account.incoming_phone_numbers a).
Proof.
  intros tk cl. split.
  - intros W perform w.
    unfold run, create_twilio_trunk, validate_twilio_config, trunk_credential_lists.
    destruct (opt_truthy SID); cbn [negb]; [|run_prog; eauto].
    destruct (opt_truthy TOKEN); cbn [negb]; [|run_prog; eauto].
    destruct (opt_truthy PHONE); cbn [negb]; [|run_prog; eauto].
    run_prog.
    destruct (perform (tw.Client (SID) (TOKEN)) w) as [[e|[]] w1]; run_prog.
    { destruct e; cbn; eauto. }
    destruct (perform (tw.TrunksCreate name domain) w1) as [[e|t] w2]; run_prog.
    { destruct e; cbn; eauto. }
    destruct (perform (tw.CredentialListsCreate (name ++ lit "-credentials")) w2)
      as [[e|l] w3]; run_prog.
    { destruct e; cbn; eauto. }
    destruct (perform (tw.CredentialsCreate (tw.cl_sid l) (Some user) (Some password))
                w3) as [[e|c] w4]; run_prog.
    { destruct e; cbn; eauto. }
    cbn. eauto.
  - intros Hc Hcl.
    apply andb_true_iff in Hc as [Hc Hp]. apply andb_true_iff in Hc as [Hs Ht].
    unfold run, create_twilio_trunk, validate_twilio_config, trunk_credential_lists.
    rewrite Hs, Ht, Hp. cbn [negb].
    unfold bind, try_except, call, ret, raise.
    cbn [world trace fst snd negb app is_Exception account.perform].
    rewrite Hs, Ht. cbn [andb world trace fst snd].
    unfold account.fresh_sid in *.
    cbn [account.credential_lists account.trunks account.bump account.with_trunks
         account.with_credential_lists tw.cl_sid tw.sid account.next_sid
         account.incoming_phone_numbers] in *.
    fold tk. fold cl.
    rewrite update_first_app_new; [|exact Hcl|apply eqb_refl].
    eexists. split; [reflexivity|]. cbn. repeat split; reflexivity.
Qed.

Lemma create_twilio_trunk_on_account_witness :
  exists st,
    run (create_twilio_trunk account.t account.perform
           (Some (lit "AC_demo")) (Some (lit "token")) (Some (lit "+14155550100"))
           (lit "t") (lit "t.pstn.twilio.com") (lit "sip:sip.livekit.cloud")
           (lit "livekit_user") (lit "secret")) demo_account
    = (inl no_credential_lists_error, st) /\
    List.length (account.trunks (world st)) = 2%nat.
Proof.
  destruct (proj2 (create_twilio_trunk_on_account
                     (Some (lit "AC_demo")) (Some (lit "token"))
                     (Some (lit "+14155550100"))
                     (lit "t") (lit "t.pstn.twilio.com") (lit "sip:sip.livekit.cloud")
                     (lit "livekit_user") (lit "secret") demo_account))
    as [st (Hrun & _ & Htr & _)].
  - reflexivity.
  - reflexivity.
  - exists st. split; [exact Hrun|]. rewrite Htr. reflexivity.
Defined.

(* ------------------------------------------------------------------ *)
(** ** Generated room names: how much of the random source they keep *)

Lemma hexdigit_inj (n m : N) :
  n < 16 -> m < 16 -> json.hexdigit n = json.hexdigit m -> n = m.
Proof.
  unfold json.hexdigit. intros Hn Hm.
  destruct (n <? 10) eqn:En; destruct (m <? 10) eqn:Em;
    [apply N.ltb_lt in En, Em | apply N.ltb_lt in En; apply N.ltb_ge in Em
     | apply N.ltb_ge in En; apply N.ltb_lt in Em
     | apply N.ltb_ge in En, Em]; lia.
Qed.

Lemma to_hex_firstn (k m : nat) :
  forall n, firstn k (uuid.to_hex (k + m) n) = uuid.to_hex k (n / 16 ^ N.of_nat m).
Proof.
  induction m as [|m IH]; intros n.
  - rewrite Nat.add_0_r. cbn [N.of_nat]. rewrite N.pow_0_r, N.div_1_r.
    rewrite <- (to_hex_length k n) at 1. apply firstn_all.
  - rewrite Nat.add_succ_r. cbn [uuid.to_hex].
    rewrite firstn_app, to_hex_length.
    replace (k - (k + m))%nat with 0%nat by lia. cbn [firstn].
    rewrite app_nil_r, IH, Nat2N.inj_succ, N.pow_succ_r', N.Div0.div_div by lia.
    reflexivity.
Qed.

Lemma to_hex_eq (k : nat) :
  forall n m,
    uuid.to_hex k n = uuid.to_hex k m <-> n mod 16 ^ N.of_nat k = m mod 16 ^ N.of_nat k.
Proof.
  induction k as [|k IH]; intros n m.
  - cbn. rewrite !N.mod_1_r. tauto.
  - cbn [uuid.to_hex]. rewrite Nat2N.inj_succ, N.pow_succ_r'.
    rewrite !(N.Div0.mod_mul_r _ 16).
    assert (Hn : n mod 16 < 16) by (apply N.mod_lt; discriminate).
    assert (Hm : m mod 16 < 16) by (apply N.mod_lt; discriminate).
    generalize dependent (n mod 16). generalize dependent (m mod 16).
    intros dm Hm dn Hn.
    specialize (IH (n / 16) (m / 16)).
    generalize dependent ((n / 16) mod 16 ^ N.of_nat k).
    generalize dependent ((m / 16) mod 16 ^ N.of_nat k).
    intros qm qn IH.
    split.
    + intros H. apply app_inj_tail in H as [H1 H2].
      apply IH in H1. apply hexdigit_inj in H2; [|lia|lia]. lia.
    + intros H.
      assert (dn = dm /\ qn = qm) as [H1 H2] by lia.
      rewrite H1. f_equal. now apply IH.
Qed.

Lemma uuid4_int_high_bits (b : N) :
  uuid.uuid4_int b / 2 ^ 96 = (b mod 2 ^ 128) / 2 ^ 96.
Proof.
  unfold uuid.uuid4_int. cbv zeta. rewrite <- !N.shiftr_div_pow2.
  apply N.bits_inj. intros n. rewrite !N.shiftr_spec'.
  assert (Hhigh : forall c, N.log2 c < 96 -> N.testbit c (n + 96) = false)
    by (intros c Hc; apply N.bits_above_log2; lia).
  rewrite N.lor_spec, N.ldiff_spec, N.lor_spec, N.ldiff_spec.
  rewrite (Hhigh (N.shiftl 0xc000 48)), (Hhigh (N.shiftl 0x8000 48)),
          (Hhigh (N.shiftl 0xf000 64)), (Hhigh (N.shiftl 4 76))
    by (vm_compute; reflexivity).
  cbn [negb]. now rewrite !andb_true_r, !orb_false_r.
Qed.

(** X20.  Two generated room names are equal exactly when the first four of
    the sixteen random bytes are: the eight characters kept from the
    identifier carry 32 of its random bits, and none of the bits that the
    version and the variant overwrite. *)
Theorem generated_room_name_collision (b b' : N) :
  generated_room_name b = generated_room_name b' <->
  (b mod 2 ^ 128) / 2 ^ 96 = (b' mod 2 ^ 128) / 2 ^ 96.
Proof.
  unfold generated_room_name, uuid.hex.
  change 32%nat with (8 + 24)%nat.
  rewrite (to_hex_firstn 8 24 (uuid.uuid4_int b)),
          (to_hex_firstn 8 24 (uuid.uuid4_int b')).
  split.
  - intros H. apply app_inv_head in H. apply to_hex_eq in H.
    change (16 ^ N.of_nat 24) with (2 ^ 96) in H.
    change (16 ^ N.of_nat 8) with (2 ^ 32) in H.
    rewrite !uuid4_int_high_bits in H.
    assert (Hsmall : forall x, (x mod 2 ^ 128 / 2 ^ 96) mod 2 ^ 32
                               = x mod 2 ^ 128 / 2 ^ 96).
    { intros x. apply N.mod_small. apply N.Div0.div_lt_upper_bound.
      change (2 ^ 96 * 2 ^ 32) with (2 ^ 128). apply N.mod_lt. discriminate. }
    now rewrite !Hsmall in H.
  - intros H. f_equal. apply to_hex_eq.
    change (16 ^ N.of_nat 24) with (2 ^ 96).
    rewrite !uuid4_int_high_bits, H. reflexivity.
Qed.

(* ------------------------------------------------------------------ *)
(** ** The further properties on concrete inputs *)

Ltac in_trace := vm_compute; repeat ((left; reflexivity) || right).

Lemma parse_dtmf_spec_witness :
  exists c, lit "#" = [c] /\ (48 <= c <= 57 \/ c = 42 \/ c = 35).
Proof.
  apply (proj2 (parse_dtmf_spec (lit "#"))). vm_compute. discriminate.
Defined.

Lemma dispatch_request_invariant_witness :
  validate_phone_number (format_phone_number (lit "(415) 555-1234")) = true /\
  is_generated_room_name (lit "outbound-call-00000000").
Proof.
  destruct (proj2 (dispatch_request_invariant N lk_accepting (lit "telephony-agent")
                     (lit "(415) 555-1234") None None 0)
              (lit "telephony-agent") (lit "outbound-call-00000000")
              (json.dumps [(lit "phone_number", lit "+4155551234")]))
    as (Hv & _ & _ & Hr).
  - in_trace.
  - split; [exact Hv|exact Hr].
Defined.

Lemma sip_request_invariant_witness :
  validate_phone_number (lit "+14155551234") = true /\
  lit "+14155551234" = format_phone_number (lit "1-415-555-1234").
Proof.
  destruct (proj2 (sip_request_invariant N lk_accepting (lit "1-415-555-1234")
                     (lit "room-1") (lit "ST_1") None None 0)
              (Some (lit "ST_1")) (lit "+14155551234") (lit "room-1")
              (lit "caller-+14155551234") (lit "+14155551234"))
    as (Hv & Hc & _).
  - in_trace.
  - split; [exact Hv|exact Hc].
Defined.

Lemma make_test_call_dials_dispatched_number_witness :
  run (read_phone_number N default_limits (print_phone_number N)
         (json.dumps [(lit "phone_number", lit "+14155551234")])) 0
  = (inr (json.JStr (lit "+14155551234")), mkState 0 []).
Proof.
  destruct (make_test_call_dials_dispatched_number N lk_accepting
              (lit "telephony-agent") (Some (lit "ST_1")) (lit "1-415-555-1234")
              None 0
              (Some (lit "ST_1")) (lit "+14155551234") (lit "outbound-call-00000000")
              (lit "caller-+14155551234") (lit "+14155551234"))
    as (_ & _ & _ & Hread).
  - in_trace.
  - exact (proj1 (Hread N default_limits 0)).
Defined.

Lemma make_test_call_trunk_witness :
  exists e,
    fst (run (make_test_call N lk_accepting (lit "telephony-agent") None
                (lit "+14155551234") None) 0) = inl e.
Proof.
  apply (proj2 (make_test_call_trunk N lk_accepting (lit "telephony-agent") None
                  (lit "+14155551234") None 0)).
  reflexivity.
Defined.

Lemma make_call_sends_raw_number_witness :
  In (lk.CreateSIPParticipantRequest None (lit "hello") (generated_room_name 0)
        (lit "caller-hello") (lit "hello"))
     (trace (snd (run (make_call N lk_accepting None (lit "hello")) 0))).
Proof.
  apply (proj1 (proj2 (make_call_sends_raw_number N lk_accepting None (lit "hello") 0))
           0 1 {| lk.id := lit "AD_1" |} 1 1); reflexivity.
Defined.

Lemma twilio_config_checked_first_witness :
  exists msg,
    run (create_twilio_trunk account.t account.perform
           None (Some (lit "token")) (Some (lit "+14155550100"))
           (lit "t") (lit "t.pstn.twilio.com") (lit "sip:sip.livekit.cloud")
           (lit "livekit_user") (lit "secret")) demo_account
    = (inl (ValueError msg), mkState demo_account []).
Proof.
  apply (proj1 (twilio_config_checked_first account.t account.perform
                  account.ascii_lower None (Some (lit "token"))
                  (Some (lit "+14155550100")) (Some (lit "TK_demo"))
                  (Some (lit "livekit_user")) (Some (lit "secret"))
                  (lit "t") (lit "t.pstn.twilio.com") (lit "sip:sip.livekit.cloud")
                  (lit "livekit_user") (lit "secret") demo_account eq_refl)).
Defined.

Lemma update_twilio_trunk_agrees_with_auto_witness :
  run (update_twilio_trunk_auto account.t account.perform account.ascii_lower
         (Some (lit "AC_demo")) (Some (lit "token")) (Some (lit "+14155550100"))
         (Some (lit "TK_demo")) (Some (lit "livekit_user")) (Some (lit "secret")))
      demo_account
  = (inr tt,
     snd (run (update_twilio_trunk account.t account.perform account.ascii_lower
                 (Some (lit "AC_demo")) (Some (lit "token"))
                 (Some (lit "+14155550100")) (Some (lit "TK_demo"))
                 (Some (lit "livekit_user")) (Some (lit "secret"))
                 LIVEKIT_SIP_URI) demo_account)).
Proof.
  apply (update_twilio_trunk_agrees_with_auto account.t account.perform
           account.ascii_lower (Some (lit "AC_demo")) (Some (lit "token"))
           (Some (lit "+14155550100")) (Some (lit "TK_demo"))
           (Some (lit "livekit_user")) (Some (lit "secret")) demo_account eq_refl
           (inr tt)).
  vm_compute. reflexivity.
Defined.

Lemma livekit_config_checked_first_witness :
  exists msg,
    run (create_outbound_trunk N lksip_accepting
           (Some (lit "wss://example.livekit.cloud")) (Some (lit "key")) (Some [])
           (lit "twilio-outbound") (lit "t.pstn.twilio.com")
           (lit "livekit_user") (lit "secret")) 0
    = (inl (ValueError msg), mkState 0 []).
Proof.
  apply (proj2 (livekit_config_checked_first N lksip_accepting
                  (Some (lit "wss://example.livekit.cloud")) (Some (lit "key"))
                  (Some []) (lit "twilio-outbound") (lit "t.pstn.twilio.com")
                  (lit "livekit_user") (lit "secret") None 0 eq_refl)).
Defined.

Lemma create_inbound_trunk_requests_witness :
  run (create_inbound_trunk N lksip_accepting
         (Some (lit "wss://example.livekit.cloud")) (Some (lit "key"))
         (Some (lit "secret"))
         (lit "twilio-inbound") (lit "livekit_user") (lit "secret") None) 0
  = (inl no_room_name_error,
     mkState 1 [inbound_trunk_request (lit "twilio-inbound") (lit "livekit_user")
                  (lit "secret") None]).
Proof.
  destruct (create_inbound_trunk_requests N lksip_accepting
              (Some (lit "wss://example.livekit.cloud")) (Some (lit "key"))
              (Some (lit "secret"))
              (lit "twilio-inbound") (lit "livekit_user") (lit "secret") None 0
              eq_refl)
    as (Ht & Hw & _ & He).
  specialize (He _ eq_refl).
  destruct (run _ 0) as [r [w tr]]. cbn [fst snd trace world] in *.
  now rewrite Ht, Hw, He.
Defined.

Lemma validate_phone_number_accepts_exactly_witness :
  exists d ds nl,
    lit "+14155551234" = plus_sign :: d :: ds ++ nl /\ 49 <= d <= 57 /\
    (1 <= List.length ds <= 14)%nat /\ forallb isdecimal ds = true /\
    (nl = [] \/ nl = [10]).
Proof.
  apply (proj1 (validate_phone_number_accepts_exactly (lit "+14155551234"))).
  reflexivity.
Defined.

Lemma validate_after_format_spec_witness :
  validate_phone_number (format_phone_number (lit "(415) 555-1234")) = true.
Proof.
  apply (proj2 (validate_after_format_spec (lit "(415) 555-1234"))).
  exists 52, (lit "155551234"). split; [left; reflexivity|].
  split; [lia|]. split; [cbn; lia|reflexivity].
Defined.

Lemma generated_room_name_collision_witness :
  generated_room_name 5 = generated_room_name (2 ^ 128 + 6).
Proof.
  apply (proj2 (generated_room_name_collision 5 (2 ^ 128 + 6))).
  vm_compute. reflexivity.
Defined.
